(** * Virtual XR outputs of the modesetting driver

    A shallow embedding of
    [hw/xfree86/drivers/video/modesetting/drmmode_xr_virtual.c]
    (the version with the off-screen framebuffer and the virtual CRTC).

    Conventions of the embedding.
    - A C pointer is an [option] of a handle ([None] is [NULL]); the
      linked list [ms->xr_virtual_outputs] is a Rocq list whose head is the
      list head, and a pointer to one of its records is a list index.
    - The objects the driver reaches through pointers ([xf86OutputRec],
      [xf86CrtcRec], the RandR properties and mode lists of an output) live
      in finite maps of the [world].
    - Every call that leaves the file (the xf86 and RandR layers, libdrm,
      gbm, the screen's pixmap hooks, the allocator of libc) takes its
      outcome from an [extern] record, one field per call site, and the
      calls that acquire, release or announce something are appended to
      the [trace] of the world in program order.
    - The RandR property calls act on the property table of the output
      only; the set-property hooks of the driver are entered through
      their own definitions, not from inside those calls.
    - [xf86DrvMsg] only writes the log and is left out. *)

From Stdlib Require Import ZArith String Ascii List DecimalString DecimalNat.
From stdpp Require Import base option list sorting gmap strings.
Import ListNotations.

Local Open Scope string_scope.
Local Open Scope list_scope.
Local Open Scope Z_scope.

(** ** Property names (the [#define]s at the head of the file) *)

Definition XR_MANAGER_OUTPUT_NAME : string := "XR-Manager".
Definition CREATE_XR_OUTPUT_PROPERTY : string := "CREATE_XR_OUTPUT".
Definition DELETE_XR_OUTPUT_PROPERTY : string := "DELETE_XR_OUTPUT".
Definition XR_WIDTH_PROPERTY : string := "XR_WIDTH".
Definition XR_HEIGHT_PROPERTY : string := "XR_HEIGHT".
Definition XR_REFRESH_PROPERTY : string := "XR_REFRESH".
Definition XR_FB_ID_PROPERTY : string := "FRAMEBUFFER_ID".
Definition XR_MODES_PROPERTY : string := "XR_MODES".
Definition XR_VIRTUAL_OUTPUT_PROPERTY : string := "VIRTUAL_OUTPUT".

(** ** C strings and numbers *)

Module CStr.

Definition NUL : ascii := Ascii.zero.

(** The bytes of [s] up to its first NUL: what a [char *] denotes. *)
Fixpoint c_str (s : string) : string :=
  match s with
  | EmptyString => EmptyString
  | String c s' => if Ascii.eqb c NUL then EmptyString else String c (c_str s')
  end.

Fixpoint take (n : nat) (s : string) : string :=
  match n, s with
  | O, _ => EmptyString
  | S _, EmptyString => EmptyString
  | S n', String c s' => String c (take n' s')
  end.

(** [strndup(data, size)] *)
Definition strndup (data : string) (size : Z) : string :=
  c_str (take (Z.to_nat size) data).

(** [strchr(s, c)] followed by [*end++ = 0]: the text before the first
    [c] and the text after it, or [None] when [c] does not occur. *)
Fixpoint strchr_split (c : ascii) (s : string) : option (string * string) :=
  match s with
  | EmptyString => None
  | String d s' =>
      if Ascii.eqb d c then Some (EmptyString, s')
      else match strchr_split c s' with
           | Some (before, after) => Some (String d before, after)
           | None => None
           end
  end.

Definition isspace (c : ascii) : bool :=
  let n := Z.of_nat (nat_of_ascii c) in
  (n =? 32) || ((9 <=? n) && (n <=? 13)).

Definition digit (c : ascii) : option Z :=
  let n := Z.of_nat (nat_of_ascii c) in
  if (48 <=? n) && (n <=? 57) then Some (n - 48) else None.

Fixpoint skip_space (s : string) : string :=
  match s with
  | String c s' => if isspace c then skip_space s' else s
  | EmptyString => s
  end.

(** The run of decimal digits at the head of [s], read into [acc]. *)
Fixpoint digits (acc : Z) (s : string) : Z * string :=
  match s with
  | String c s' =>
      match digit c with
      | Some d => digits (10 * acc + d) s'
      | None => (acc, s)
      end
  | EmptyString => (acc, s)
  end.

Definition LONG_MAX : Z := 9223372036854775807.
Definition LONG_MIN : Z := -9223372036854775808.

Definition clamp_long (z : Z) : Z :=
  if z <? LONG_MIN then LONG_MIN else if LONG_MAX <? z then LONG_MAX else z.

(** [strtol(s, &end, 10)]: the value and [end].  Without a digit the
    value is 0 and [end] is [s] itself. *)
Definition strtol (s : string) : Z * string :=
  let s1 := skip_space s in
  let '(neg, s2) :=
    match s1 with
    | String "-"%char r => (true, r)
    | String "+"%char r => (false, r)
    | _ => (false, s1)
    end in
  match s2 with
  | String c _ =>
      match digit c with
      | Some _ =>
          let '(v, rest) := digits 0 s2 in
          (clamp_long (if neg then - v else v), rest)
      | None => (0, s)
      end
  | EmptyString => (0, s)
  end.

(** The cast [(int)] of a [long]: reduction to 32 bits, two's complement. *)
Definition to_int (z : Z) : Z :=
  let m := z mod 4294967296 in
  if m <? 2147483648 then m else m - 4294967296.

(** [*(INT32 * )data] on a little-endian machine. *)
Definition byte_at (s : string) (i : nat) : Z :=
  match String.get i s with
  | Some c => Z.of_nat (nat_of_ascii c)
  | None => 0
  end.

Definition read_INT32 (data : string) : Z :=
  to_int (byte_at data 0 + 256 * byte_at data 1
          + 65536 * byte_at data 2 + 16777216 * byte_at data 3).

Definition byte_of (z : Z) : ascii := ascii_of_nat (Z.to_nat (z mod 256)).

(** The four bytes of an [INT32] in memory, as a client stores them. *)
Definition INT32_bytes (z : Z) : string :=
  let u := z mod 4294967296 in
  String (byte_of u) (String (byte_of (u / 256))
    (String (byte_of (u / 65536)) (String (byte_of (u / 16777216)) EmptyString))).

End CStr.

(** ** Data model *)

Abbreviation handle := Z (only parsing).

(** One [xr_mode_rec]; the [next] pointer is the list it sits in. *)
Record xr_mode_rec := {
  m_width : Z;
  m_height : Z;
  m_refresh : Z
}.

(** The conversion of an [int] to [uint32_t]: reduction modulo 2^32. *)
Definition to_uint32 (z : Z) : Z := z mod 4294967296.

#[local] Arguments to_uint32 : simpl never.

(** The fields of [drmmode_bo] that this file reads or writes; [width]
    and [height] are [uint32_t]. *)
Record drmmode_bo := {
  bo_width : Z;
  bo_height : Z;
  bo_gbm : option handle;
  bo_dumb : option handle;
  bo_used_modifiers : bool
}.

(** [memset(&bo, 0, sizeof(bo))] *)
Definition bo_zero : drmmode_bo :=
  {| bo_width := 0; bo_height := 0; bo_gbm := None; bo_dumb := None;
     bo_used_modifiers := false |}.

(** [xr_virtual_output_rec], without [next]. *)
Record xr_virtual_output_rec := {
  vout_output : option handle;
  vout_crtc : option handle;
  vout_randr_output : option handle;
  vout_name : option string;
  vout_width : Z;
  vout_height : Z;
  vout_refresh : Z;
  vout_modes : list xr_mode_rec;
  vout_framebuffer_bo : drmmode_bo;
  vout_framebuffer_id : Z;
  vout_pixmap : option handle
}.

(** [drmmode_ptr]: the driver has one [drmmode], [&ms->drmmode]. *)
Inductive drmmode_ref := ms_drmmode.

Record drmmode_output_private_rec := {
  dop_drmmode : option drmmode_ref;
  dop_output_id : Z;
  dop_current_crtc : option handle
}.

Inductive xf86OutputStatus :=
| XF86OutputStatusConnected
| XF86OutputStatusDisconnected
| XF86OutputStatusUnknown.

Inductive rr_connection := RR_Connected | RR_Disconnected.

(** The fields of [xf86OutputRec] the file uses after creation. *)
Record xf86OutputRec := {
  out_driver_private : option drmmode_output_private_rec;
  out_randr_output : option handle;
  out_crtc : option handle;
  out_status : xf86OutputStatus;
  out_non_desktop : bool;
  out_possible_crtcs : Z;
  out_possible_clones : Z
}.

(** The timing fields of [DisplayModeRec]. *)
Record DisplayModeRec := {
  Clock : Z;
  HDisplay : Z;
  HSyncStart : Z;
  HSyncEnd : Z;
  HTotal : Z;
  HSkew : Z;
  VDisplay : Z;
  VSyncStart : Z;
  VSyncEnd : Z;
  VTotal : Z;
  Flags : Z
}.

(** A timing of size [w] x [h] with pixel clock [clock]; the test
    environments answer [xf86CVTMode] with it. *)
Definition timing (w h clock : Z) : DisplayModeRec :=
  {| Clock := clock;
     HDisplay := w; HSyncStart := w + 48; HSyncEnd := w + 80; HTotal := w + 160;
     HSkew := 0;
     VDisplay := h; VSyncStart := h + 3; VSyncEnd := h + 8; VTotal := h + 31;
     Flags := 0 |}.

Definition DPMSModeOn : Z := 0.
Definition RR_Rotate_0 : Z := 1.

(** [xf86CrtcRec] with the [dpms_mode] of its [driver_private]. *)
Record xf86CrtcRec := {
  crtc_mode : DisplayModeRec;
  crtc_x : Z;
  crtc_y : Z;
  crtc_rotation : Z;
  crtc_randr_crtc : option handle;
  crtc_dpms_mode : Z
}.

(** A RandR mode as [RRModeGet] receives it: the name that [snprintf]
    builds (kept as its arguments) and the fields of the [xRRModeInfo]. *)
Inductive mode_name :=
| Name_WxH (w h : Z)
| Name_WxH_at_R (w h r : Z).

Record RRModeRec := {
  rrm_name : mode_name;
  rrm_width : Z;
  rrm_height : Z;
  rrm_dotClock : Z;
  rrm_hSyncStart : Z;
  rrm_hSyncEnd : Z;
  rrm_hTotal : Z;
  rrm_hSkew : Z;
  rrm_vSyncStart : Z;
  rrm_vSyncEnd : Z;
  rrm_vTotal : Z;
  rrm_modeFlags : Z
}.

(** The block "Convert to RRMode" of [drmmode_xr_virtual_set_modes]: the
    [xRRModeInfo] filled from the timing [mode]. *)
Definition rrmode_of (nm : mode_name) (mode : DisplayModeRec) : RRModeRec :=
  {| rrm_name := nm;
     rrm_width := HDisplay mode;
     rrm_dotClock := Clock mode * 1000;
     rrm_hSyncStart := HSyncStart mode;
     rrm_hSyncEnd := HSyncEnd mode;
     rrm_hTotal := HTotal mode;
     rrm_hSkew := HSkew mode;
     rrm_height := VDisplay mode;
     rrm_vSyncStart := VSyncStart mode;
     rrm_vSyncEnd := VSyncEnd mode;
     rrm_vTotal := VTotal mode;
     rrm_modeFlags := Flags mode |}.

(** The current value of a RandR output property. *)
Inductive prop_value :=
| PropUnset                     (* configured, no value yet *)
| PropInteger (v : Z)
| PropString (s : string).

Inductive prop_type := XA_STRING | XA_INTEGER | XA_OTHER.

(** [RRPropertyValueRec] *)
Record RRPropertyValueRec := {
  v_type : prop_type;
  v_format : Z;
  v_size : Z;
  v_data : string
}.

(** ** Calls that leave the file, as they appear in the trace *)

Inductive event :=
| Ev_xf86OutputCreate (o : handle)
| Ev_xf86OutputDestroy (o : handle)
| Ev_calloc_output_private (o : handle)
| Ev_free_output_private (o : handle)
| Ev_RROutputCreate (ro : handle)
| Ev_RROutputDestroy (ro : handle)
| Ev_RROutputSetConnection (ro : handle) (c : rr_connection)
| Ev_RROutputChanged (ro : handle)
| Ev_RRTellChanged
| Ev_RROutputSetCrtcs (ro rc : handle)
| Ev_xf86CrtcCreate (c : handle)
| Ev_xf86CrtcDestroy (c : handle)
| Ev_RRCrtcCreate (rc : handle)
| Ev_RRCrtcDestroy (rc : handle)
| Ev_RRCrtcNotify (rc : handle) (m : RRModeRec)
| Ev_calloc_vout
| Ev_free_vout
| Ev_free_name
| Ev_free_modes
| Ev_gbm_bo_create (b : handle)
| Ev_dumb_bo_create (b : handle)
| Ev_drmmode_bo_import (fb : Z)
| Ev_drmmode_bo_destroy
| Ev_drmModeRmFB (fb : Z)
| Ev_dumb_bo_map (b : handle)
| Ev_munmap (b : handle)
| Ev_CreatePixmap (p : handle)
| Ev_DestroyPixmap (p : handle)
| Ev_egl_create_textured_pixmap (p : handle).

(** ** The driver and server state *)

Record world := {
  xr_virtual_outputs : list xr_virtual_output_rec;   (* ms->xr_virtual_outputs *)
  funcs_initialized : bool;      (* the static flag of the create function *)
  drmmode_glamor_gbm : bool;     (* drmmode->glamor && drmmode->gbm *)
  glamor_egl_hook : bool;        (* ms->glamor.egl_create_textured_pixmap_from_gbm_bo *)
  pScreen : bool;                (* xf86ScrnToScreen(pScrn) is not NULL *)
  pScreen_root : bool;           (* pScreen->root is not NULL *)
  outputs : gmap Z xf86OutputRec;
  crtcs : gmap Z xf86CrtcRec;
  rr_props : gmap Z (gmap string prop_value);     (* by RandR output *)
  rr_modes : gmap Z (list RRModeRec);
  trace : list event
}.

(** ** What the environment answers *)

Record extern := {
  GLAMOR_HAS_GBM : bool;                       (* compile-time switch *)
  x_MakeAtom : string -> bool;                 (* false: BAD_RESOURCE *)
  x_RRConfigureOutputProperty : string -> Z;   (* error code, by property *)
  x_RRChangeOutputProperty : string -> Z;
  x_xf86OutputCreate : option handle;
  x_calloc_output_private : bool;
  x_RROutputCreate : option handle;
  x_xf86CVTMode : Z -> Z -> Z -> option DisplayModeRec;
  x_RRModeGet : RRModeRec -> bool;
  x_realloc_rrmodes : nat -> bool;
  x_xf86CrtcCreate : option handle;
  x_calloc_crtc_private : bool;
  x_RRCrtcCreate : option handle;
  x_randr_crtc_id : Z;
  x_calloc_vout : bool;
  x_strdup : bool;
  x_strndup : bool;
  x_calloc_mode : bool;
  x_gbm_bo_create : option handle;
  x_dumb_bo_create : option handle;
  x_drmmode_bo_import : Z * Z;                 (* return code, new FB id *)
  x_drmmode_bo_destroy : drmmode_bo -> drmmode_bo;   (* what it leaves in the bo *)
  x_dumb_bo_map : Z;
  x_CreatePixmap_gbm : option handle;          (* the CreatePixmap of the GBM path *)
  x_egl_create_textured_pixmap : bool;
  x_CreatePixmap : option handle;
  x_ModifyPixmapHeader : bool
}.

(** ** Field updates *)

Definition set_xr_virtual_outputs (l : list xr_virtual_output_rec) (w : world) : world :=
  {| xr_virtual_outputs := l; funcs_initialized := funcs_initialized w;
     drmmode_glamor_gbm := drmmode_glamor_gbm w; glamor_egl_hook := glamor_egl_hook w;
     pScreen := pScreen w; pScreen_root := pScreen_root w;
     outputs := outputs w; crtcs := crtcs w; rr_props := rr_props w;
     rr_modes := rr_modes w; trace := trace w |}.

Definition set_funcs_initialized (b : bool) (w : world) : world :=
  {| xr_virtual_outputs := xr_virtual_outputs w; funcs_initialized := b;
     drmmode_glamor_gbm := drmmode_glamor_gbm w; glamor_egl_hook := glamor_egl_hook w;
     pScreen := pScreen w; pScreen_root := pScreen_root w;
     outputs := outputs w; crtcs := crtcs w; rr_props := rr_props w;
     rr_modes := rr_modes w; trace := trace w |}.

Definition set_outputs (m : gmap Z xf86OutputRec) (w : world) : world :=
  {| xr_virtual_outputs := xr_virtual_outputs w; funcs_initialized := funcs_initialized w;
     drmmode_glamor_gbm := drmmode_glamor_gbm w; glamor_egl_hook := glamor_egl_hook w;
     pScreen := pScreen w; pScreen_root := pScreen_root w;
     outputs := m; crtcs := crtcs w; rr_props := rr_props w;
     rr_modes := rr_modes w; trace := trace w |}.

Definition set_crtcs (m : gmap Z xf86CrtcRec) (w : world) : world :=
  {| xr_virtual_outputs := xr_virtual_outputs w; funcs_initialized := funcs_initialized w;
     drmmode_glamor_gbm := drmmode_glamor_gbm w; glamor_egl_hook := glamor_egl_hook w;
     pScreen := pScreen w; pScreen_root := pScreen_root w;
     outputs := outputs w; crtcs := m; rr_props := rr_props w;
     rr_modes := rr_modes w; trace := trace w |}.

Definition set_rr_props (m : gmap Z (gmap string prop_value)) (w : world) : world :=
  {| xr_virtual_outputs := xr_virtual_outputs w; funcs_initialized := funcs_initialized w;
     drmmode_glamor_gbm := drmmode_glamor_gbm w; glamor_egl_hook := glamor_egl_hook w;
     pScreen := pScreen w; pScreen_root := pScreen_root w;
     outputs := outputs w; crtcs := crtcs w; rr_props := m;
     rr_modes := rr_modes w; trace := trace w |}.

Definition set_rr_modes (m : gmap Z (list RRModeRec)) (w : world) : world :=
  {| xr_virtual_outputs := xr_virtual_outputs w; funcs_initialized := funcs_initialized w;
     drmmode_glamor_gbm := drmmode_glamor_gbm w; glamor_egl_hook := glamor_egl_hook w;
     pScreen := pScreen w; pScreen_root := pScreen_root w;
     outputs := outputs w; crtcs := crtcs w; rr_props := rr_props w;
     rr_modes := m; trace := trace w |}.

(** An external call enters the trace. *)
Definition emit (e : event) (w : world) : world :=
  {| xr_virtual_outputs := xr_virtual_outputs w; funcs_initialized := funcs_initialized w;
     drmmode_glamor_gbm := drmmode_glamor_gbm w; glamor_egl_hook := glamor_egl_hook w;
     pScreen := pScreen w; pScreen_root := pScreen_root w;
     outputs := outputs w; crtcs := crtcs w; rr_props := rr_props w;
     rr_modes := rr_modes w; trace := trace w ++ [e] |}.

(** The framebuffer fields of a record. *)
Definition set_framebuffer (bo : drmmode_bo) (fb : Z) (pix : option handle)
    (v : xr_virtual_output_rec) : xr_virtual_output_rec :=
  {| vout_output := vout_output v; vout_crtc := vout_crtc v;
     vout_randr_output := vout_randr_output v; vout_name := vout_name v;
     vout_width := vout_width v; vout_height := vout_height v;
     vout_refresh := vout_refresh v; vout_modes := vout_modes v;
     vout_framebuffer_bo := bo; vout_framebuffer_id := fb; vout_pixmap := pix |}.

(** [vout->width], [vout->height] and [vout->refresh]. *)
Definition set_dimensions (width height refresh : Z)
    (v : xr_virtual_output_rec) : xr_virtual_output_rec :=
  {| vout_output := vout_output v; vout_crtc := vout_crtc v;
     vout_randr_output := vout_randr_output v; vout_name := vout_name v;
     vout_width := width; vout_height := height;
     vout_refresh := refresh; vout_modes := vout_modes v;
     vout_framebuffer_bo := vout_framebuffer_bo v;
     vout_framebuffer_id := vout_framebuffer_id v; vout_pixmap := vout_pixmap v |}.

(** [vout->output], [vout->crtc] and [vout->randr_output]. *)
Definition set_links (o c ro : option handle)
    (v : xr_virtual_output_rec) : xr_virtual_output_rec :=
  {| vout_output := o; vout_crtc := c;
     vout_randr_output := ro; vout_name := vout_name v;
     vout_width := vout_width v; vout_height := vout_height v;
     vout_refresh := vout_refresh v; vout_modes := vout_modes v;
     vout_framebuffer_bo := vout_framebuffer_bo v;
     vout_framebuffer_id := vout_framebuffer_id v; vout_pixmap := vout_pixmap v |}.

Definition set_modes_list (ms : list xr_mode_rec)
    (v : xr_virtual_output_rec) : xr_virtual_output_rec :=
  {| vout_output := vout_output v; vout_crtc := vout_crtc v;
     vout_randr_output := vout_randr_output v; vout_name := vout_name v;
     vout_width := vout_width v; vout_height := vout_height v;
     vout_refresh := vout_refresh v; vout_modes := ms;
     vout_framebuffer_bo := vout_framebuffer_bo v;
     vout_framebuffer_id := vout_framebuffer_id v; vout_pixmap := vout_pixmap v |}.

Definition bo_sized (width height : Z) (gbm dumb : option handle) : drmmode_bo :=
  {| bo_width := width; bo_height := height; bo_gbm := gbm; bo_dumb := dumb;
     bo_used_modifiers := false |}.

(** Updates of one [xf86OutputRec] and one [xf86CrtcRec] through a pointer. *)
Definition out_set_private (p : option drmmode_output_private_rec) (o : xf86OutputRec) :=
  {| out_driver_private := p; out_randr_output := out_randr_output o;
     out_crtc := out_crtc o; out_status := out_status o;
     out_non_desktop := out_non_desktop o;
     out_possible_crtcs := out_possible_crtcs o;
     out_possible_clones := out_possible_clones o |}.

Definition out_set_randr_output (ro : option handle) (o : xf86OutputRec) :=
  {| out_driver_private := out_driver_private o; out_randr_output := ro;
     out_crtc := out_crtc o; out_status := out_status o;
     out_non_desktop := out_non_desktop o;
     out_possible_crtcs := out_possible_crtcs o;
     out_possible_clones := out_possible_clones o |}.

Definition out_set_crtc (c : option handle) (o : xf86OutputRec) :=
  {| out_driver_private := out_driver_private o; out_randr_output := out_randr_output o;
     out_crtc := c; out_status := out_status o;
     out_non_desktop := out_non_desktop o;
     out_possible_crtcs := out_possible_crtcs o;
     out_possible_clones := out_possible_clones o |}.

Definition out_set_possible (crtcs clones : Z) (o : xf86OutputRec) :=
  {| out_driver_private := out_driver_private o; out_randr_output := out_randr_output o;
     out_crtc := out_crtc o; out_status := out_status o;
     out_non_desktop := out_non_desktop o;
     out_possible_crtcs := crtcs; out_possible_clones := clones |}.

(** [output->crtc = crtc; drmmode_output->current_crtc = crtc;] *)
Definition out_assign_crtc (c : handle) (o : xf86OutputRec) :=
  out_set_crtc (Some c)
    (out_set_private
       ((λ p, {| dop_drmmode := dop_drmmode p; dop_output_id := dop_output_id p;
                 dop_current_crtc := Some c |}) <$> out_driver_private o) o).

Definition crtc_set_randr_crtc (rc : option handle) (c : xf86CrtcRec) :=
  {| crtc_mode := crtc_mode c; crtc_x := crtc_x c; crtc_y := crtc_y c;
     crtc_rotation := crtc_rotation c; crtc_randr_crtc := rc;
     crtc_dpms_mode := crtc_dpms_mode c |}.

Definition crtc_set_mode (m : DisplayModeRec) (x y rotation : Z) (c : xf86CrtcRec) :=
  {| crtc_mode := m; crtc_x := x; crtc_y := y;
     crtc_rotation := rotation; crtc_randr_crtc := crtc_randr_crtc c;
     crtc_dpms_mode := crtc_dpms_mode c |}.

Definition crtc_set_dpms (mode : Z) (c : xf86CrtcRec) :=
  {| crtc_mode := crtc_mode c; crtc_x := crtc_x c; crtc_y := crtc_y c;
     crtc_rotation := crtc_rotation c; crtc_randr_crtc := crtc_randr_crtc c;
     crtc_dpms_mode := mode |}.

(** ** The RandR property table of an output *)

(** [RRQueryOutputProperty] *)
Definition RRQueryOutputProperty (w : world) (ro : handle) (prop : string)
    : option prop_value :=
  rr_props w !! ro ≫= (λ t, t !! prop).

Definition write_property (ro : handle) (prop : string) (v : prop_value)
    (w : world) : world :=
  set_rr_props (<[ro := <[prop := v]> (default ∅ (rr_props w !! ro))]> (rr_props w)) w.

(** [RRConfigureOutputProperty]: on success the property exists; a value
    it already had stays. *)
Definition RRConfigureOutputProperty (E : extern) (w : world) (ro : handle)
    (prop : string) : Z * world :=
  let err := x_RRConfigureOutputProperty E prop in
  if err =? 0 then
    match RRQueryOutputProperty w ro prop with
    | Some _ => (err, w)
    | None => (err, write_property ro prop PropUnset w)
    end
  else (err, w).

(** [RRChangeOutputProperty] with [PropModeReplace]. *)
Definition RRChangeOutputProperty (E : extern) (w : world) (ro : handle)
    (prop : string) (v : prop_value) : Z * world :=
  let err := x_RRChangeOutputProperty E prop in
  if err =? 0 then (err, write_property ro prop v w) else (err, w).

(** ** Looking records up *)

(** [drmmode_xr_find_virtual_output]: a pointer to the first record whose
    name is set and equal to [name]. *)
Definition drmmode_xr_find_virtual_output (w : world) (name : string)
    : option (nat * xr_virtual_output_rec) :=
  list_find (λ v, vout_name v = Some name) (xr_virtual_outputs w).

(** [drmmode_xr_find_virtual_output_by_crtc] *)
Definition drmmode_xr_find_virtual_output_by_crtc (w : world) (crtc : handle)
    : option (nat * xr_virtual_output_rec) :=
  list_find (λ v, vout_crtc v = Some crtc) (xr_virtual_outputs w).

(** The loop [while (vout) { if (vout->output == output) break; ... }]
    that three functions of the file repeat. *)
Definition find_by_output (w : world) (output : handle)
    : option (nat * xr_virtual_output_rec) :=
  list_find (λ v, vout_output v = Some output) (xr_virtual_outputs w).

(** ** The FRAMEBUFFER_ID property *)

(** [drmmode_xr_virtual_ensure_fb_id_property] *)
Definition drmmode_xr_virtual_ensure_fb_id_property (E : extern) (w : world)
    (randr_output : handle) (fb_id : Z) : bool * world :=
  if negb (x_MakeAtom E XR_FB_ID_PROPERTY) then (false, w)
  else
    let configured :=
      match RRQueryOutputProperty w randr_output XR_FB_ID_PROPERTY with
      | Some _ => (0, w)
      | None => RRConfigureOutputProperty E w randr_output XR_FB_ID_PROPERTY
      end in
    if negb (configured.1 =? 0) then (false, configured.2)
    else
      let changed :=
        RRChangeOutputProperty E configured.2 randr_output XR_FB_ID_PROPERTY
          (PropInteger fb_id) in
      if negb (changed.1 =? 0) then (false, changed.2) else (true, changed.2).

(** The identifier a client reads from the FRAMEBUFFER_ID property. *)
Definition published_fb_id (w : world) (randr_output : handle) : option prop_value :=
  RRQueryOutputProperty w randr_output XR_FB_ID_PROPERTY.

(** ** Output function table *)

(** [drmmode_xr_free_modes] walks the list and frees each node. *)
Definition drmmode_xr_free_modes (w : world) (modes : list xr_mode_rec) : world :=
  emit Ev_free_modes w.

(** [drmmode_xr_virtual_output_destroy], the [destroy] hook: unlinks and
    frees the record of the output if the list still has it, then frees
    [driver_private]. *)
Definition drmmode_xr_virtual_output_destroy (w : world) (output : handle) : world :=
  let w1 :=
    match find_by_output w output with
    | Some (i, vout) =>
        let w := set_xr_virtual_outputs (delete i (xr_virtual_outputs w)) w in
        let w := drmmode_xr_free_modes w (vout_modes vout) in
        let w := match vout_name vout with Some _ => emit Ev_free_name w | None => w end in
        emit Ev_free_vout w
    | None => w
    end in
  match outputs w1 !! output with
  | Some orec =>
      let w2 :=
        match out_driver_private orec with
        | Some _ => emit (Ev_free_output_private output) w1
        | None => w1
        end in
      set_outputs (<[output := out_set_private None orec]> (outputs w2)) w2
  | None => w1
  end.

(** [xf86OutputDestroy] of the xf86 layer: runs the [destroy] hook of the
    output's function table, then frees the output. *)
Definition xf86OutputDestroy (w : world) (output : handle) : world :=
  let w := emit (Ev_xf86OutputDestroy output) w in
  let w := drmmode_xr_virtual_output_destroy w output in
  set_outputs (delete output (outputs w)) w.

(** [RROutputDestroy]: the RandR output goes with its properties and modes. *)
Definition RROutputDestroy (w : world) (ro : handle) : world :=
  let w := emit (Ev_RROutputDestroy ro) w in
  set_rr_modes (delete ro (rr_modes w)) (set_rr_props (delete ro (rr_props w)) w).

(** ** Mode lists *)

Definition common_widths : list Z := [1920; 2560; 3840].
Definition common_heights : list Z := [1080; 1440; 2160].

(** The body both loops of [drmmode_xr_virtual_set_modes] share:
    [xf86CVTMode], the conversion to an [xRRModeInfo], [RRModeGet] and the
    [realloc] of the array.  The [type] bits set on the [DisplayModePtr]
    (M_T_USERPREF, M_T_PREFERRED) are not copied into the [xRRModeInfo];
    the mode is deleted right after. *)
Definition add_rrmode (E : extern) (nm : mode_name) (w h r : Z)
    (rrmodes : list RRModeRec) : list RRModeRec :=
  match x_xf86CVTMode E w h r with
  | None => rrmodes
  | Some mode =>
      let rrmode := rrmode_of nm mode in
      if x_RRModeGet E rrmode then
        if x_realloc_rrmodes E (length rrmodes) then rrmodes ++ [rrmode]
        else rrmodes
      else rrmodes
  end.

Definition custom_rrmodes (E : extern) (modes : list xr_mode_rec) : list RRModeRec :=
  fold_left
    (λ acc m, add_rrmode E (Name_WxH_at_R (m_width m) (m_height m) (m_refresh m))
                (m_width m) (m_height m) (m_refresh m) acc)
    modes [].

Definition common_rrmodes (E : extern) (refresh : Z) : list RRModeRec :=
  fold_left
    (λ acc w,
       fold_left (λ acc h, add_rrmode E (Name_WxH w h) w h refresh acc)
         common_heights acc)
    common_widths [].

(** [drmmode_xr_virtual_set_modes] *)
Definition drmmode_xr_virtual_set_modes (E : extern) (w : world) (output : handle)
    (width height refresh : Z) : world :=
  match outputs w !! output ≫= out_randr_output with
  | None => w
  | Some ro =>
      let rrmodes :=
        match find_by_output w output with
        | Some (_, vout) =>
            match vout_modes vout with
            | [] => common_rrmodes E refresh
            | _ :: _ => custom_rrmodes E (vout_modes vout)
            end
        | None => common_rrmodes E refresh
        end in
      if (0 <? length rrmodes)%nat
      then set_rr_modes (<[ro := rrmodes]> (rr_modes w)) w   (* RROutputSetModes *)
      else w
  end.

(** ** Off-screen framebuffer *)

(** [drmmode_bo_destroy] of [drmmode_display.c]: the call is traced and the
    buffer object is left as the environment says. *)
Definition drmmode_bo_destroy (E : extern) (w : world) (v : xr_virtual_output_rec)
    : world * xr_virtual_output_rec :=
  (emit Ev_drmmode_bo_destroy w,
   set_framebuffer (x_drmmode_bo_destroy E (vout_framebuffer_bo v))
     (vout_framebuffer_id v) (vout_pixmap v) v).

(** [drmmode_xr_destroy_offscreen_framebuffer], for a record that exists. *)
Definition drmmode_xr_destroy_offscreen_framebuffer (E : extern) (w : world)
    (vout : xr_virtual_output_rec) : world * xr_virtual_output_rec :=
  (* Destroy pixmap if it exists *)
  let '(w, vout) :=
    match vout_pixmap vout with
    | Some p =>
        if pScreen w
        then (emit (Ev_DestroyPixmap p) w,
              set_framebuffer (vout_framebuffer_bo vout) (vout_framebuffer_id vout) None vout)
        else (w, vout)
    | None => (w, vout)
    end in
  (* Remove DRM framebuffer *)
  let '(w, vout) :=
    if negb (vout_framebuffer_id vout =? 0)
    then (emit (Ev_drmModeRmFB (vout_framebuffer_id vout)) w,
          set_framebuffer (vout_framebuffer_bo vout) 0 (vout_pixmap vout) vout)
    else (w, vout) in
  (* Destroy BO *)
  let '(w, vout) :=
    match bo_dumb (vout_framebuffer_bo vout), bo_gbm (vout_framebuffer_bo vout) with
    | None, None => (w, vout)
    | _, _ => drmmode_bo_destroy E w vout
    end in
  (w, set_framebuffer bo_zero (vout_framebuffer_id vout) (vout_pixmap vout) vout).

(** The error exits of the allocation after the import:
    [munmap] (when asked and mapped), [drmModeRmFB], [drmmode_bo_destroy]. *)
Definition fb_unwind (E : extern) (unmap : option handle) (w : world)
    (vout : xr_virtual_output_rec) : bool * world * xr_virtual_output_rec :=
  let w := match unmap with Some d => emit (Ev_munmap d) w | None => w end in
  let w := emit (Ev_drmModeRmFB (vout_framebuffer_id vout)) w in
  let '(w, vout) := drmmode_bo_destroy E w vout in
  (false, w, vout).

(** From the label [pixmap_created] to the end. *)
Definition fb_pixmap_created (E : extern) (w : world) (vout : xr_virtual_output_rec)
    (pixmap : handle) : bool * world * xr_virtual_output_rec :=
  let vout := set_framebuffer (vout_framebuffer_bo vout) (vout_framebuffer_id vout)
                (Some pixmap) vout in
  let w :=
    match vout_randr_output vout with
    | Some ro =>
        (drmmode_xr_virtual_ensure_fb_id_property E w ro (vout_framebuffer_id vout)).2
    | None => w
    end in
  (true, w, vout).

(** The block that both the dumb buffer and a GBM buffer without an EGL
    texture go through: a pixmap of size 0 whose header is then pointed
    at [pixmap_ptr]. *)
Definition fb_dumb_pixmap (E : extern) (w : world) (vout : xr_virtual_output_rec)
    (pixmap_ptr : option handle) : bool * world * xr_virtual_output_rec :=
  let unmap :=
    match pixmap_ptr, bo_dumb (vout_framebuffer_bo vout) with
    | Some _, Some d => Some d
    | _, _ => None
    end in
  match x_CreatePixmap E with
  | None => fb_unwind E unmap w vout
  | Some pixmap =>
      let w := emit (Ev_CreatePixmap pixmap) w in
      if negb (x_ModifyPixmapHeader E)
      then fb_unwind E unmap (emit (Ev_DestroyPixmap pixmap) w) vout
      else fb_pixmap_created E w vout pixmap
  end.

(** From the label [bo_created] to the choice of the pixmap path. *)
Definition fb_bo_created (E : extern) (w : world) (vout : xr_virtual_output_rec)
    (width height : Z) : bool * world * xr_virtual_output_rec :=
  (* Import BO as DRM framebuffer *)
  let '(ret, fb) := x_drmmode_bo_import E in
  if negb (ret =? 0) then
    let '(w, vout) := drmmode_bo_destroy E w vout in (false, w, vout)
  else
    let w := emit (Ev_drmmode_bo_import fb) w in
    let vout := set_framebuffer (vout_framebuffer_bo vout) fb (vout_pixmap vout) vout in
    let gbm := if GLAMOR_HAS_GBM E then bo_gbm (vout_framebuffer_bo vout) else None in
    match gbm with
    | Some g =>
        (* GBM BO: pixmap_ptr = NULL *)
        if glamor_egl_hook w then
          match x_CreatePixmap_gbm E with
          | None => fb_unwind E None w vout
          | Some pixmap =>
              let w := emit (Ev_CreatePixmap pixmap) w in
              if negb (x_egl_create_textured_pixmap E)
              then fb_dumb_pixmap E (emit (Ev_DestroyPixmap pixmap) w) vout None
              else
                let w := emit (Ev_egl_create_textured_pixmap pixmap) w in
                fb_pixmap_created E w vout pixmap
          end
        else fb_dumb_pixmap E w vout None
    | None =>
        (* Dumb buffer: map it *)
        match bo_dumb (vout_framebuffer_bo vout) with
        | Some d =>
            if negb (x_dumb_bo_map E =? 0) then fb_unwind E None w vout
            else fb_dumb_pixmap E (emit (Ev_dumb_bo_map d) w) vout (Some d)
        | None => (false, w, vout)       (* not reached: a BO exists here *)
        end
    end.

(** [drmmode_xr_create_offscreen_framebuffer] *)
Definition drmmode_xr_create_offscreen_framebuffer (E : extern) (w : world)
    (vout : xr_virtual_output_rec) (width height : Z)
    : bool * world * xr_virtual_output_rec :=
  let vout :=
    set_framebuffer (bo_sized (to_uint32 width) (to_uint32 height) None None)
      0 None vout in
  let gbm :=
    if GLAMOR_HAS_GBM E && drmmode_glamor_gbm w then x_gbm_bo_create E else None in
  match gbm with
  | Some g =>
      fb_bo_created E (emit (Ev_gbm_bo_create g) w)
        (set_framebuffer (bo_sized (to_uint32 width) (to_uint32 height) (Some g) None)
           0 None vout)
        width height
  | None =>
      match x_dumb_bo_create E with
      | None => (false, w, vout)
      | Some d =>
          fb_bo_created E (emit (Ev_dumb_bo_create d) w)
            (set_framebuffer
               (bo_sized (to_uint32 width) (to_uint32 height) None (Some d))
               0 None vout)
            width height
      end
  end.

(** ** Virtual CRTC *)

Definition mode_zero : DisplayModeRec :=
  {| Clock := 0; HDisplay := 0; HSyncStart := 0; HSyncEnd := 0; HTotal := 0; HSkew := 0;
     VDisplay := 0; VSyncStart := 0; VSyncEnd := 0; VTotal := 0; Flags := 0 |}.

(** A CRTC as [xf86CrtcCreate] and [drmmode_xr_create_virtual_crtc] leave it. *)
Definition crtc_initial : xf86CrtcRec :=
  {| crtc_mode := mode_zero; crtc_x := 0; crtc_y := 0; crtc_rotation := RR_Rotate_0;
     crtc_randr_crtc := None; crtc_dpms_mode := DPMSModeOn |}.

(** [xf86CrtcDestroy] of the xf86 layer; the [destroy] hook of a virtual
    CRTC, [drmmode_xr_virtual_crtc_destroy], is empty. *)
Definition xf86CrtcDestroy (w : world) (crtc : handle) : world :=
  let w := emit (Ev_xf86CrtcDestroy crtc) w in
  set_crtcs (delete crtc (crtcs w)) w.

(** [drmmode_xr_create_virtual_crtc] *)
Definition drmmode_xr_create_virtual_crtc (E : extern) (w : world)
    : option handle * world :=
  match x_xf86CrtcCreate E with
  | None => (None, w)
  | Some crtc =>
      let w := emit (Ev_xf86CrtcCreate crtc) w in
      let w := set_crtcs (<[crtc := crtc_initial]> (crtcs w)) w in
      if negb (x_calloc_crtc_private E) then (None, xf86CrtcDestroy w crtc)
      else (Some crtc, w)
  end.

(** [drmmode_xr_virtual_crtc_dpms] *)
Definition drmmode_xr_virtual_crtc_dpms (w : world) (crtc : handle) (mode : Z) : world :=
  set_crtcs (alter (crtc_set_dpms mode) crtc (crtcs w)) w.

(** ** Creating a virtual output *)

(** An output as [xf86OutputCreate] returns it. *)
Definition output_created : xf86OutputRec :=
  {| out_driver_private := None; out_randr_output := None; out_crtc := None;
     out_status := XF86OutputStatusUnknown; out_non_desktop := false;
     out_possible_crtcs := 0; out_possible_clones := 0 |}.

(** The assignments to the new output between the allocation of its
    private data and the creation of the RandR output. *)
Definition output_configured : xf86OutputRec :=
  {| out_driver_private :=
       Some {| dop_drmmode := Some ms_drmmode; dop_output_id := 0;
               dop_current_crtc := None |};
     out_randr_output := None; out_crtc := None;
     out_status := XF86OutputStatusConnected; out_non_desktop := false;
     out_possible_crtcs := 0; out_possible_clones := 0 |}.

(** [RRConfigureOutputProperty] then [RRChangeOutputProperty], both unchecked,
    under [if (atom != BAD_RESOURCE)]. *)
Definition create_property (E : extern) (w : world) (ro : handle) (prop : string)
    (v : prop_value) : world :=
  if x_MakeAtom E prop then
    let w := (RRConfigureOutputProperty E w ro prop).2 in
    (RRChangeOutputProperty E w ro prop v).2
  else w.

(** The block that marks the output with VIRTUAL_OUTPUT = 1. *)
Definition mark_virtual (E : extern) (w : world) (ro : handle) : world :=
  if x_MakeAtom E XR_VIRTUAL_OUTPUT_PROPERTY then
    match RRQueryOutputProperty w ro XR_VIRTUAL_OUTPUT_PROPERTY with
    | Some _ => w
    | None =>
        let '(err, w1) := RRConfigureOutputProperty E w ro XR_VIRTUAL_OUTPUT_PROPERTY in
        if err =? 0
        then (RRChangeOutputProperty E w1 ro XR_VIRTUAL_OUTPUT_PROPERTY (PropInteger 1)).2
        else w1
    end
  else w.

(** The preferred mode: the first of size [width] x [height], else the first. *)
Definition preferred_mode (modes : list RRModeRec) (width height : Z) : option RRModeRec :=
  match list_find (λ m, rrm_width m = width ∧ rrm_height m = height) modes with
  | Some (_, m) => Some m
  | None => head modes
  end.

(** The block under [if (pScreen && pScreen->root)]. *)
Definition attach_randr_crtc (E : extern) (w : world) (output ro crtc : handle)
    (width height : Z) : world :=
  if pScreen w && pScreen_root w then
    match x_RRCrtcCreate E with
    | Some randr_crtc =>
        let w := emit (Ev_RRCrtcCreate randr_crtc) w in
        let w := set_crtcs (alter (crtc_set_randr_crtc (Some randr_crtc)) crtc (crtcs w)) w in
        let w := emit (Ev_RROutputSetCrtcs ro randr_crtc) w in
        let w := set_outputs
                   (alter (out_set_possible (Z.shiftl 1 (x_randr_crtc_id E)) 0) output
                      (outputs w)) w in
        let w := mark_virtual E w ro in
        match preferred_mode (default [] (rr_modes w !! ro)) width height with
        | Some m => emit (Ev_RRCrtcNotify randr_crtc m) w
        | None => w
        end
    | None => w
    end
  else w.

(** [drmmode_xr_create_virtual_output].  The result is the new record, which
    sits at the head of the list, or [None] for [NULL]. *)
Definition drmmode_xr_create_virtual_output (E : extern) (w : world)
    (name : string) (width height refresh : Z)
    : option xr_virtual_output_rec * world :=
  match drmmode_xr_find_virtual_output w name with
  | Some _ => (None, w)
  | None =>
  let w := set_funcs_initialized true w in
  match x_xf86OutputCreate E with
  | None => (None, w)
  | Some output =>
  let w := emit (Ev_xf86OutputCreate output) w in
  let w := set_outputs (<[output := output_created]> (outputs w)) w in
  if negb (x_calloc_output_private E) then (None, xf86OutputDestroy w output)
  else
  let w := emit (Ev_calloc_output_private output) w in
  let w := set_outputs (<[output := output_configured]> (outputs w)) w in
  match x_RROutputCreate E with
  | None =>
      (None, xf86OutputDestroy (emit (Ev_free_output_private output) w) output)
  | Some ro =>
  let w := emit (Ev_RROutputCreate ro) w in
  let w := set_rr_modes (<[ro := []]> (rr_modes w))
             (set_rr_props (<[ro := ∅]> (rr_props w)) w) in
  let w := set_outputs (alter (out_set_randr_output (Some ro)) output (outputs w)) w in
  let w := emit (Ev_RROutputSetConnection ro RR_Connected) w in
  let w := drmmode_xr_virtual_set_modes E w output width height refresh in
  let w := create_property E w ro XR_WIDTH_PROPERTY (PropInteger width) in
  let w := create_property E w ro XR_HEIGHT_PROPERTY (PropInteger height) in
  let w := create_property E w ro XR_REFRESH_PROPERTY (PropInteger refresh) in
  let w := create_property E w ro XR_MODES_PROPERTY (PropString "") in
  let w := emit Ev_RRTellChanged (emit (Ev_RROutputChanged ro) w) in
  match drmmode_xr_create_virtual_crtc E w with
  | (None, w) =>
      (None,
       xf86OutputDestroy (emit (Ev_free_output_private output) (RROutputDestroy w ro))
         output)
  | (Some crtc, w) =>
  let w := attach_randr_crtc E w output ro crtc width height in
  let w := set_outputs (alter (out_assign_crtc crtc) output (outputs w)) w in
  if negb (x_calloc_vout E) then
    (None,
     xf86OutputDestroy
       (emit (Ev_free_output_private output) (RROutputDestroy (xf86CrtcDestroy w crtc) ro))
       output)
  else
  let w := emit Ev_calloc_vout w in
  let vout :=
    {| vout_output := Some output; vout_crtc := Some crtc;
       vout_randr_output := Some ro;
       vout_name := if x_strdup E then Some name else None;
       vout_width := width; vout_height := height; vout_refresh := refresh;
       vout_modes := [];
       vout_framebuffer_bo := bo_zero; vout_framebuffer_id := 0;
       vout_pixmap := None |} in
  (* a failure of the framebuffer is not fatal *)
  let '(_, w, vout) :=
    drmmode_xr_create_offscreen_framebuffer E w vout width height in
  (Some vout, set_xr_virtual_outputs (vout :: xr_virtual_outputs w) w)
  end end end end.

(** ** Deleting a virtual output *)

(** [vout->output && vout->output->driver_private ? drmmode_output->drmmode : NULL] *)
Definition output_drmmode (w : world) (output : option handle) : option drmmode_ref :=
  match output with
  | Some o =>
      match outputs w !! o with
      | Some orec =>
          match out_driver_private orec with
          | Some p => dop_drmmode p
          | None => None
          end
      | None => None
      end
  | None => None
  end.

(** The four blocks of [drmmode_xr_delete_virtual_output] after the
    framebuffer, each under the comment the source gives it.  The
    assignments of [NULL] to the fields of the record, which is freed at
    the end, are left out. *)

(** Clean up CRTC if assigned *)
Definition delete_crtc (w : world) (vout : xr_virtual_output_rec) : world :=
  match vout_crtc vout with
  | Some crtc =>
      let w :=
        match crtcs w !! crtc ≫= crtc_randr_crtc with
        | Some rc =>
            set_crtcs (alter (crtc_set_randr_crtc None) crtc (crtcs w))
              (emit (Ev_RRCrtcDestroy rc) w)
        | None => w
        end in
      let w := xf86CrtcDestroy w crtc in
      match vout_output vout with
      | Some o => set_outputs (alter (out_set_crtc None) o (outputs w)) w
      | None => w
      end
  | None => w
  end.

(** Destroy RandR output first (before xf86Output) *)
Definition delete_randr_output (w : world) (vout : xr_virtual_output_rec) : world :=
  match vout_randr_output vout with
  | Some ro =>
      (* Mark as disconnected before destroying *)
      let w := emit (Ev_RROutputSetConnection ro RR_Disconnected) w in
      let w := emit (Ev_RROutputChanged ro) w in
      let w := emit Ev_RRTellChanged w in
      let w :=
        match vout_output vout with
        | Some o => set_outputs (alter (out_set_randr_output None) o (outputs w)) w
        | None => w
        end in
      RROutputDestroy w ro
  | None => w
  end.

(** Destroy xf86Output *)
Definition delete_output (w : world) (vout : xr_virtual_output_rec) : world :=
  match vout_output vout with
  | Some o => xf86OutputDestroy w o
  | None => w
  end.

(** Free name, modes, and record *)
Definition delete_record (w : world) (vout : xr_virtual_output_rec) : world :=
  let w := match vout_name vout with Some _ => emit Ev_free_name w | None => w end in
  let w := drmmode_xr_free_modes w (vout_modes vout) in
  emit Ev_free_vout w.

(** [drmmode_xr_delete_virtual_output] *)
Definition drmmode_xr_delete_virtual_output (E : extern) (w : world) (name : string)
    : bool * world :=
  match list_find (λ v, vout_name v = Some name) (xr_virtual_outputs w) with
  | None => (false, w)
  | Some (i, vout) =>
      (* Remove from list *)
      let w := set_xr_virtual_outputs (delete i (xr_virtual_outputs w)) w in
      (* Get drmmode from output *)
      let drmmode := output_drmmode w (vout_output vout) in
      let a :=
        match drmmode with
        | Some _ => drmmode_xr_destroy_offscreen_framebuffer E w vout
        | None => (w, vout)
        end in
      let w := delete_crtc a.1 a.2 in
      let w := delete_randr_output w a.2 in
      let w := delete_output w a.2 in
      (true, delete_record w a.2)
  end.

(** ** Resizing a virtual output *)

(** [RRChangeOutputProperty] under [if (atom != BAD_RESOURCE)]. *)
Definition update_property (E : extern) (w : world) (ro : handle) (prop : string)
    (v : prop_value) : world :=
  if x_MakeAtom E prop then (RRChangeOutputProperty E w ro prop v).2 else w.

(** [drmmode_xr_resize_virtual_output]; [vout] is a pointer into the list. *)
Definition drmmode_xr_resize_virtual_output (E : extern) (w : world)
    (vout : option nat) (width height refresh : Z) : bool * world :=
  match vout ≫= (λ i, (λ v, (i, v)) <$> xr_virtual_outputs w !! i) with
  | None => (false, w)
  | Some (i, v) =>
      match vout_output v, vout_randr_output v with
      | Some output, Some ro =>
          (* Update dimensions *)
          let w := set_xr_virtual_outputs
                     (<[i := set_dimensions width height refresh v]>
                        (xr_virtual_outputs w)) w in
          (* Update modes *)
          let w := drmmode_xr_virtual_set_modes E w output width height refresh in
          (* Update properties *)
          let w := update_property E w ro XR_WIDTH_PROPERTY (PropInteger width) in
          let w := update_property E w ro XR_HEIGHT_PROPERTY (PropInteger height) in
          let w := update_property E w ro XR_REFRESH_PROPERTY (PropInteger refresh) in
          let w := emit (Ev_RROutputChanged ro) w in
          (true, emit Ev_RRTellChanged w)
      | _, _ => (false, w)
      end
  end.

(** ** The XR-Manager property handler *)

Definition is_string8 (value : RRPropertyValueRec) : bool :=
  match v_type value with XA_STRING => v_format value =? 8 | _ => false end.

Definition is_int32_single (value : RRPropertyValueRec) : bool :=
  match v_type value with
  | XA_INTEGER => (v_format value =? 32) && (v_size value =? 1)
  | _ => false
  end.

(** The parse of ["NAME:WIDTH:HEIGHT:REFRESH"]: name, width, height, refresh,
    starting from [1920], [1080] and [60]. *)
Definition parse_create_command (command : string) : string * Z * Z * Z :=
  match CStr.strchr_split ":"%char command with
  | None => (command, 1920, 1080, 60)
  | Some (name, rest) =>
      let '(v, rest) := CStr.strtol rest in
      let width := CStr.to_int v in
      match rest with
      | String ":"%char rest =>
          let '(v, rest) := CStr.strtol rest in
          let height := CStr.to_int v in
          match rest with
          | String ":"%char rest =>
              (name, width, height, CStr.to_int (CStr.strtol rest).1)
          | _ => (name, width, height, 60)
          end
      | _ => (name, width, 1080, 60)
      end
  end.

(** [drmmode_xr_manager_set_property]; [prop_name] is [NameForAtom(property)]. *)
Definition drmmode_xr_manager_set_property (E : extern) (w : world)
    (prop_name : option string) (value : RRPropertyValueRec) : bool * world :=
  match prop_name with
  | None => (false, w)
  | Some prop_name =>
      if negb (String.eqb prop_name CREATE_XR_OUTPUT_PROPERTY)
         && negb (String.eqb prop_name DELETE_XR_OUTPUT_PROPERTY)
      then (false, w)
      else if negb (is_string8 value) then (false, w)
      else if negb (x_strndup E) then (false, w)
      else
        let command := CStr.strndup (v_data value) (v_size value) in
        if String.eqb prop_name CREATE_XR_OUTPUT_PROPERTY then
          let '(name, width, height, refresh) := parse_create_command command in
          match name with
          | EmptyString => (false, w)
          | String _ _ =>
              match drmmode_xr_create_virtual_output E w name width height refresh with
              | (Some _, w) => (true, w)
              | (None, w) => (false, w)
              end
          end
        else if String.eqb prop_name DELETE_XR_OUTPUT_PROPERTY then
          drmmode_xr_delete_virtual_output E w command
        else (false, w)
  end.

(** ** The property handler of a virtual output *)

(** [strtok_r(s, "|", ...)] until [NULL]: the non-empty pieces between bars. *)
Fixpoint tokens_from (cur : string) (s : string) : list string :=
  let flush := match cur with EmptyString => [] | _ => [cur] end in
  match s with
  | EmptyString => flush
  | String c s' =>
      if Ascii.eqb c "|"%char then flush ++ tokens_from EmptyString s'
      else tokens_from (cur ++ String c EmptyString)%string s'
  end.

(** One [%d] of [sscanf]: fails without a digit. *)
Definition scan_d (s : string) : option (Z * string) :=
  let '(v, rest) := CStr.strtol s in
  if String.eqb rest s then None else Some (CStr.to_int v, rest).

(** [sscanf(token, "%d:%d:%d", &w, &h, &r)] with [w = 0, h = 0, r = 60]
    before the call: the count of conversions and the three variables. *)
Definition sscanf_mode (token : string) : Z * Z * Z * Z :=
  match scan_d token with
  | None => (0, 0, 0, 60)
  | Some (w, String ":"%char s) =>
      match scan_d s with
      | None => (1, w, 0, 60)
      | Some (h, String ":"%char s) =>
          match scan_d s with
          | None => (2, w, h, 60)
          | Some (r, _) => (3, w, h, r)
          end
      | Some (h, _) => (2, w, h, 60)
      end
  | Some (w, _) => (1, w, 0, 60)
  end.

Definition in_bounds (width height refresh : Z) : bool :=
  (64 <=? width) && (width <=? 16384) && (64 <=? height) && (height <=? 16384)
  && (1 <=? refresh) && (refresh <=? 1000).

(** The loop over the tokens of an XR_MODES value: each accepted mode is
    put in front of the list. *)
Definition parse_modes (E : extern) (modes_str : string) : list xr_mode_rec :=
  fold_left
    (λ acc token,
       let '(n, w, h, r) := sscanf_mode token in
       if (2 <=? n) && in_bounds w h r && x_calloc_mode E
       then {| m_width := w; m_height := h; m_refresh := r |} :: acc
       else acc)
    (tokens_from EmptyString modes_str) [].

(** [drmmode_xr_virtual_set_property] *)
Definition drmmode_xr_virtual_set_property (E : extern) (w : world)
    (output : handle) (prop_name : option string) (value : RRPropertyValueRec)
    : bool * world :=
  match prop_name with
  | None => (false, w)
  | Some prop_name =>
  match find_by_output w output with
  | None => (false, w)
  | Some (i, vout) =>
      if negb (is_int32_single value) then (false, w)
      else if String.eqb prop_name XR_MODES_PROPERTY then
        if negb (is_string8 value) then (false, w)
        else if negb (x_strndup E) then (false, w)
        else
          let modes_str := CStr.strndup (v_data value) (v_size value) in
          let w := drmmode_xr_free_modes w (vout_modes vout) in
          let w := set_xr_virtual_outputs
                     (<[i := set_modes_list (parse_modes E modes_str) vout]>
                        (xr_virtual_outputs w)) w in
          (true,
           drmmode_xr_virtual_set_modes E w output (vout_width vout) (vout_height vout)
             (vout_refresh vout))
      else
        let new := CStr.read_INT32 (v_data value) in
        let resize new_width new_height new_refresh :=
          (* Validate dimensions *)
          if negb (in_bounds new_width new_height new_refresh) then (false, w)
          else drmmode_xr_resize_virtual_output E w (Some i)
                 new_width new_height new_refresh in
        if String.eqb prop_name XR_WIDTH_PROPERTY then
          resize new (vout_height vout) (vout_refresh vout)
        else if String.eqb prop_name XR_HEIGHT_PROPERTY then
          resize (vout_width vout) new (vout_refresh vout)
        else if String.eqb prop_name XR_REFRESH_PROPERTY then
          resize (vout_width vout) (vout_height vout) new
        else (false, w)
  end end.

(** ** Mode-set on a virtual CRTC *)

(** [drmmode_xr_virtual_crtc_set_mode_major]; [mode] may be [NULL]. *)
Definition drmmode_xr_virtual_crtc_set_mode_major (E : extern) (w : world)
    (crtc : handle) (mode : option DisplayModeRec) (rotation x y : Z)
    : bool * world :=
  match mode with
  | None => (true, w)
  | Some m =>
      let new_width := HDisplay m in
      let new_height := VDisplay m in
      let w :=
        match drmmode_xr_find_virtual_output_by_crtc w crtc with
        | Some (i, vout) =>
            if negb (vout_width vout =? new_width) || negb (vout_height vout =? new_height)
            then
              (* Destroy old framebuffer *)
              let '(w, vout) := drmmode_xr_destroy_offscreen_framebuffer E w vout in
              (* Create new framebuffer at new resolution *)
              let '(ok, w, vout) :=
                drmmode_xr_create_offscreen_framebuffer E w vout new_width new_height in
              let '(w, vout) :=
                if negb ok then (w, vout)       (* Continue anyway *)
                else
                  let w :=
                    match vout_randr_output vout with
                    | Some ro =>
                        (drmmode_xr_virtual_ensure_fb_id_property E w ro
                           (vout_framebuffer_id vout)).2
                    | None => w
                    end in
                  (w, set_dimensions new_width new_height (vout_refresh vout) vout) in
              set_xr_virtual_outputs (<[i := vout]> (xr_virtual_outputs w)) w
            else w
        | None => w
        end in
      (* Update CRTC state *)
      (true, set_crtcs (alter (crtc_set_mode m x y rotation) crtc (crtcs w)) w)
  end.

(** ** The XR-Manager output: set-up and shutdown *)

(** The part of [modesettingRec] that only the set-up and the shutdown
    touch, around the [world] of the other functions.  The answers of an
    [extern] are here those of the calls of the same name that these
    functions make. *)
Record driver := {
  ms_world : world;
  ms_xr_manager_output : option handle;    (* ms->xr_manager_output *)
  ms_xr_virtual_enabled : bool;            (* ms->xr_virtual_enabled *)
  init_funcs_initialized : bool;   (* the static flag of drmmode_xr_virtual_output_init *)
  rr_non_desktop : gmap Z bool             (* RROutputSetNonDesktop, by RandR output *)
}.

Definition set_ms_world (w : world) (d : driver) : driver :=
  {| ms_world := w; ms_xr_manager_output := ms_xr_manager_output d;
     ms_xr_virtual_enabled := ms_xr_virtual_enabled d;
     init_funcs_initialized := init_funcs_initialized d;
     rr_non_desktop := rr_non_desktop d |}.

Definition set_ms_xr_manager_output (o : option handle) (d : driver) : driver :=
  {| ms_world := ms_world d; ms_xr_manager_output := o;
     ms_xr_virtual_enabled := ms_xr_virtual_enabled d;
     init_funcs_initialized := init_funcs_initialized d;
     rr_non_desktop := rr_non_desktop d |}.

Definition set_ms_xr_virtual_enabled (b : bool) (d : driver) : driver :=
  {| ms_world := ms_world d; ms_xr_manager_output := ms_xr_manager_output d;
     ms_xr_virtual_enabled := b;
     init_funcs_initialized := init_funcs_initialized d;
     rr_non_desktop := rr_non_desktop d |}.

Definition set_init_funcs_initialized (b : bool) (d : driver) : driver :=
  {| ms_world := ms_world d; ms_xr_manager_output := ms_xr_manager_output d;
     ms_xr_virtual_enabled := ms_xr_virtual_enabled d;
     init_funcs_initialized := b;
     rr_non_desktop := rr_non_desktop d |}.

(** [RROutputSetNonDesktop] *)
Definition RROutputSetNonDesktop (ro : handle) (b : bool) (d : driver) : driver :=
  {| ms_world := ms_world d; ms_xr_manager_output := ms_xr_manager_output d;
     ms_xr_virtual_enabled := ms_xr_virtual_enabled d;
     init_funcs_initialized := init_funcs_initialized d;
     rr_non_desktop := <[ro := b]> (rr_non_desktop d) |}.

(** [drmmode_xr_virtual_output_detect] *)
Definition drmmode_xr_virtual_output_detect (output : handle) : xf86OutputStatus :=
  XF86OutputStatusConnected.

(** The assignments of [drmmode_xr_virtual_output_init] to the manager
    output: private data, not a desktop output, disconnected, no RandR
    output yet. *)
Definition manager_configured : xf86OutputRec :=
  {| out_driver_private :=
       Some {| dop_drmmode := Some ms_drmmode; dop_output_id := 0;
               dop_current_crtc := None |};
     out_randr_output := None; out_crtc := None;
     out_status := XF86OutputStatusDisconnected; out_non_desktop := true;
     out_possible_crtcs := 0; out_possible_clones := 0 |}.

(** [drmmode_xr_virtual_output_init] *)
Definition drmmode_xr_virtual_output_init (E : extern) (d : driver) : bool * driver :=
  (* Check if already initialized *)
  match ms_xr_manager_output d with
  | Some _ => (true, d)
  | None =>
      (* Initialize function table on first call *)
      let d := set_init_funcs_initialized true d in
      match x_xf86OutputCreate E with
      | None => (false, d)
      | Some output =>
          let w := emit (Ev_xf86OutputCreate output) (ms_world d) in
          let w := set_outputs (<[output := output_created]> (outputs w)) w in
          (* Allocate private data *)
          if negb (x_calloc_output_private E)
          then (false, set_ms_world (xf86OutputDestroy w output) d)
          else
            let w := emit (Ev_calloc_output_private output) w in
            let w := set_outputs (<[output := manager_configured]> (outputs w)) w in
            (* Store reference *)
            (true,
             set_ms_world (set_xr_virtual_outputs [] w)
               (set_ms_xr_manager_output (Some output) d))
      end
  end.

(** One of the two blocks of [drmmode_xr_virtual_output_post_screen_init]
    that register a command property: configured and set to the empty
    string unless it exists. *)
Definition register_command_property (E : extern) (w : world) (ro : handle)
    (prop : string) : world :=
  if x_MakeAtom E prop then
    match RRQueryOutputProperty w ro prop with
    | Some _ => w
    | None =>
        let '(err, w) := RRConfigureOutputProperty E w ro prop in
        if err =? 0 then (RRChangeOutputProperty E w ro prop (PropString "")).2
        else w
    end
  else w.

(** [drmmode_xr_virtual_output_post_screen_init] *)
Definition drmmode_xr_virtual_output_post_screen_init (E : extern) (d : driver)
    : bool * driver :=
  match ms_xr_manager_output d with
  | None => (false, d)
  | Some output =>
      let w := ms_world d in
      let marked ro w d :=
        RROutputSetNonDesktop ro true
          (set_ms_world (emit (Ev_RROutputSetConnection ro RR_Disconnected) w) d) in
      let randr :=
        match outputs w !! output ≫= out_randr_output with
        | Some ro =>
            (* If RandR output already exists, ensure properties are registered *)
            Some (ro, marked ro w d)
        | None =>
            (* Create RandR output for XR-Manager *)
            match x_RROutputCreate E with
            | None => None
            | Some ro =>
                let w := emit (Ev_RROutputCreate ro) w in
                let w := set_rr_modes (<[ro := []]> (rr_modes w))
                           (set_rr_props (<[ro := ∅]> (rr_props w)) w) in
                let w := set_outputs
                           (alter (out_set_randr_output (Some ro)) output (outputs w)) w in
                Some (ro, marked ro w d)
            end
        end in
      match randr with
      | None => (false, d)
      | Some (ro, d) =>
          (* Create CREATE_XR_OUTPUT and DELETE_XR_OUTPUT properties *)
          let w := register_command_property E (ms_world d) ro CREATE_XR_OUTPUT_PROPERTY in
          let w := register_command_property E w ro DELETE_XR_OUTPUT_PROPERTY in
          (true, set_ms_world w d)
      end
  end.

(** The body of the loop of [drmmode_xr_virtual_output_fini] for one
    record.  [xf86OutputDestroy] runs the [destroy] hook, which unlinks
    the record and frees it and the private data of the output; the
    loop frees them as well. *)
Definition fini_record (w : world) (vout : xr_virtual_output_rec) : world :=
  let w :=
    match vout_randr_output vout with
    | Some ro => RROutputDestroy w ro
    | None => w
    end in
  let w :=
    match vout_output vout with
    | Some o =>
        let w :=
          match outputs w !! o ≫= out_driver_private with
          | Some _ => emit (Ev_free_output_private o) w
          | None => w
          end in
        xf86OutputDestroy w o
    | None => w
    end in
  let w := match vout_name vout with Some _ => emit Ev_free_name w | None => w end in
  let w := drmmode_xr_free_modes w (vout_modes vout) in
  emit Ev_free_vout w.

(** The block of [drmmode_xr_virtual_output_fini] that cleans up
    XR-Manager. *)
Definition fini_manager (w : world) (output : handle) : world :=
  let w :=
    match outputs w !! output ≫= out_randr_output with
    | Some ro => RROutputDestroy w ro
    | None => w
    end in
  let w :=
    match outputs w !! output ≫= out_driver_private with
    | Some _ =>
        set_outputs (alter (out_set_private None) output (outputs w))
          (emit (Ev_free_output_private output) w)
    | None => w
    end in
  xf86OutputDestroy w output.

(** [drmmode_xr_virtual_output_fini]; the loop follows the [next]
    pointers it reads before each body, that is the list as it was. *)
Definition drmmode_xr_virtual_output_fini (d : driver) : driver :=
  (* Delete all virtual outputs *)
  let w := fold_left fini_record (xr_virtual_outputs (ms_world d)) (ms_world d) in
  let w := set_xr_virtual_outputs [] w in
  (* Clean up XR-Manager *)
  let d :=
    match ms_xr_manager_output d with
    | Some output =>
        set_ms_xr_manager_output None (set_ms_world (fini_manager w output) d)
    | None => set_ms_world w d
    end in
  set_ms_xr_virtual_enabled false d.

(** * Vocabulary of the properties *)

(** [emits w w' evs]: the calls between [w] and [w'] are [evs], in order. *)
Definition emits (w w' : world) (evs : list event) : Prop :=
  trace w' = trace w ++ evs.

(** [keeps w w']: the list of virtual outputs and the flags of the screen
    and of the driver are those of [w]. *)
Definition keeps (w w' : world) : Prop :=
  xr_virtual_outputs w' = xr_virtual_outputs w
  ∧ pScreen w' = pScreen w ∧ pScreen_root w' = pScreen_root w
  ∧ drmmode_glamor_gbm w' = drmmode_glamor_gbm w
  ∧ glamor_egl_hook w' = glamor_egl_hook w.

(** [silent w w']: nothing is called and the list stays. *)
Definition silent (w w' : world) : Prop := keeps w w' ∧ emits w w' [].

Definition is_framebuffer_event (e : event) : bool :=
  match e with
  | Ev_gbm_bo_create _ | Ev_dumb_bo_create _ | Ev_drmmode_bo_import _
  | Ev_drmmode_bo_destroy | Ev_drmModeRmFB _ | Ev_dumb_bo_map _ | Ev_munmap _
  | Ev_CreatePixmap _ | Ev_DestroyPixmap _ | Ev_egl_create_textured_pixmap _ => true
  | _ => false
  end.

(** The calls that take a framebuffer down. *)
Definition is_framebuffer_teardown (e : event) : bool :=
  match e with
  | Ev_DestroyPixmap _ | Ev_drmModeRmFB _ | Ev_drmmode_bo_destroy => true
  | _ => false
  end.

(** The fields of a record that the framebuffer functions do not touch. *)
Definition identity (v : xr_virtual_output_rec) :=
  (vout_output v, vout_crtc v, vout_randr_output v, vout_name v,
   vout_width v, vout_height v, vout_refresh v, vout_modes v).

(** [fb_calls w w' P]: from [w] to [w'] the list is kept and every call
    satisfies [P]. *)
Definition fb_calls (P : event → bool) (w w' : world) : Prop :=
  keeps w w' ∧ ∃ evs, emits w w' evs ∧ Forall (λ e, P e = true) evs.

Inductive resource :=
| Res_output (o : handle)
| Res_output_private (o : handle)
| Res_randr_output (ro : handle)
| Res_crtc (c : handle)
| Res_randr_crtc (rc : handle)
| Res_record.

(** What a call outside the framebuffer code acquires, and what it releases. *)
Definition acquires (e : event) : option resource :=
  match e with
  | Ev_xf86OutputCreate o => Some (Res_output o)
  | Ev_calloc_output_private o => Some (Res_output_private o)
  | Ev_RROutputCreate ro => Some (Res_randr_output ro)
  | Ev_xf86CrtcCreate c => Some (Res_crtc c)
  | Ev_RRCrtcCreate rc => Some (Res_randr_crtc rc)
  | Ev_calloc_vout => Some Res_record
  | _ => None
  end.

Definition releases (e : event) : option resource :=
  match e with
  | Ev_xf86OutputDestroy o => Some (Res_output o)
  | Ev_free_output_private o => Some (Res_output_private o)
  | Ev_RROutputDestroy ro => Some (Res_randr_output ro)
  | Ev_xf86CrtcDestroy c => Some (Res_crtc c)
  | Ev_RRCrtcDestroy rc => Some (Res_randr_crtc rc)
  | Ev_free_vout => Some Res_record
  | _ => None
  end.

(** Every resource a call of [evs] acquires is released by a later call. *)
Fixpoint all_released (evs : list event) : Prop :=
  match evs with
  | [] => True
  | e :: rest =>
      match acquires e with
      | Some r => Exists (λ e', releases e' = Some r) rest
      | None => True
      end ∧ all_released rest
  end.

(** The five steps of taking a virtual output down. *)
Inductive teardown_step :=
| Step_buffer        (* destroy the pixmap, the framebuffer and the buffer object *)
| Step_crtc          (* destroy the RandR CRTC and the CRTC *)
| Step_disconnect    (* mark the output disconnected and tell the listeners *)
| Step_output        (* destroy the RandR output and the xf86 output *)
| Step_record.       (* free the private data, the name, the modes, the record *)

Definition teardown_step_of (e : event) : option teardown_step :=
  match e with
  | Ev_DestroyPixmap _ | Ev_drmModeRmFB _ | Ev_drmmode_bo_destroy => Some Step_buffer
  | Ev_RRCrtcDestroy _ | Ev_xf86CrtcDestroy _ => Some Step_crtc
  | Ev_RROutputSetConnection _ RR_Disconnected | Ev_RROutputChanged _
  | Ev_RRTellChanged => Some Step_disconnect
  | Ev_RROutputDestroy _ | Ev_xf86OutputDestroy _ => Some Step_output
  | Ev_free_output_private _ | Ev_free_name | Ev_free_modes | Ev_free_vout =>
      Some Step_record
  | _ => None
  end.

(** [in_step s evs]: every call of [evs] belongs to step [s]. *)
Definition in_step (s : teardown_step) (evs : list event) : Prop :=
  Forall (λ e, teardown_step_of e = Some s) evs.

Inductive create_step :=
| Create_output          (* xf86OutputCreate *)
| Create_private         (* calloc of the output's private data *)
| Create_randr_output    (* RROutputCreate *)
| Create_crtc            (* drmmode_xr_create_virtual_crtc *)
| Create_record.         (* calloc of the xr_virtual_output_rec *)

(** The first step of a creation that the environment lets fail; the
    framebuffer comes after these and is not among them. *)
Definition first_failure (E : extern) : option create_step :=
  match x_xf86OutputCreate E with
  | None => Some Create_output
  | Some _ =>
      if negb (x_calloc_output_private E) then Some Create_private
      else match x_RROutputCreate E with
           | None => Some Create_randr_output
           | Some _ =>
               match x_xf86CrtcCreate E with
               | None => Some Create_crtc
               | Some _ =>
                   if negb (x_calloc_crtc_private E) then Some Create_crtc
                   else if negb (x_calloc_vout E) then Some Create_record
                   else None
               end
           end
  end.

(** The output handle the environment hands out is not the output of a
    record in the list: [xf86OutputCreate] returns a new object. *)
Definition fresh_output (E : extern) (w : world) : Prop :=
  ∀ o, x_xf86OutputCreate E = Some o → find_by_output w o = None.

(** The record as the creation fills it in before it asks for the
    framebuffer. *)
Definition record_before_framebuffer (E : extern) (name : string)
    (width height refresh : Z) (output crtc ro : handle) : xr_virtual_output_rec :=
  {| vout_output := Some output; vout_crtc := Some crtc;
     vout_randr_output := Some ro;
     vout_name := if x_strdup E then Some name else None;
     vout_width := width; vout_height := height; vout_refresh := refresh;
     vout_modes := [];
     vout_framebuffer_bo := bo_zero; vout_framebuffer_id := 0;
     vout_pixmap := None |}.

(** The world after [drmmode_xr_virtual_output_init]: no virtual output yet,
    a screen with a root window, no GBM. *)
Definition w_init : world :=
  {| xr_virtual_outputs := []; funcs_initialized := false;
     drmmode_glamor_gbm := false; glamor_egl_hook := false;
     pScreen := true; pScreen_root := true;
     outputs := ∅; crtcs := ∅; rr_props := ∅; rr_modes := ∅; trace := [] |}.

(** An environment in which every call succeeds; the buffer is a dumb
    buffer and the kernel names the framebuffer [fb]. *)
Definition E_all (o ro c rc bo pix fb : Z) : extern :=
  {| GLAMOR_HAS_GBM := true; x_MakeAtom := λ _, true;
     x_RRConfigureOutputProperty := λ _, 0; x_RRChangeOutputProperty := λ _, 0;
     x_xf86OutputCreate := Some o; x_calloc_output_private := true;
     x_RROutputCreate := Some ro;
     x_xf86CVTMode := λ w h r, Some (timing w h (w * h * r));
     x_RRModeGet := λ _, true; x_realloc_rrmodes := λ _, true;
     x_xf86CrtcCreate := Some c; x_calloc_crtc_private := true;
     x_RRCrtcCreate := Some rc; x_randr_crtc_id := rc;
     x_calloc_vout := true; x_strdup := true; x_strndup := true;
     x_calloc_mode := true;
     x_gbm_bo_create := None; x_dumb_bo_create := Some bo;
     x_drmmode_bo_import := (0, fb);
     x_drmmode_bo_destroy := λ b, bo_sized (bo_width b) (bo_height b) None None;
     x_dumb_bo_map := 0; x_CreatePixmap_gbm := None;
     x_egl_create_textured_pixmap := false; x_CreatePixmap := Some pix;
     x_ModifyPixmapHeader := true |}.

Definition E_ok : extern := E_all 1 2 3 4 5 6 42.

(** As [E_ok], but the kernel has no memory for a buffer object:
    [dumb_bo_create] returns [NULL]. *)
Definition E_no_bo : extern :=
  {| GLAMOR_HAS_GBM := true; x_MakeAtom := λ _, true;
     x_RRConfigureOutputProperty := λ _, 0; x_RRChangeOutputProperty := λ _, 0;
     x_xf86OutputCreate := Some 1; x_calloc_output_private := true;
     x_RROutputCreate := Some 2;
     x_xf86CVTMode := λ w h r, Some (timing w h (w * h * r));
     x_RRModeGet := λ _, true; x_realloc_rrmodes := λ _, true;
     x_xf86CrtcCreate := Some 3; x_calloc_crtc_private := true;
     x_RRCrtcCreate := Some 4; x_randr_crtc_id := 4;
     x_calloc_vout := true; x_strdup := true; x_strndup := true;
     x_calloc_mode := true;
     x_gbm_bo_create := None; x_dumb_bo_create := None;
     x_drmmode_bo_import := (0, 42);
     x_drmmode_bo_destroy := λ b, bo_sized (bo_width b) (bo_height b) None None;
     x_dumb_bo_map := 0; x_CreatePixmap_gbm := None;
     x_egl_create_textured_pixmap := false; x_CreatePixmap := Some 6;
     x_ModifyPixmapHeader := true |}.

(** The world with the one output "XR-0" at 1920x1080, 60 Hz. *)
Definition w_xr0 : world :=
  (drmmode_xr_create_virtual_output E_ok w_init "XR-0" 1920 1080 60).2.

(** Its one record. *)
Definition xr0_record : xr_virtual_output_rec :=
  set_framebuffer (bo_sized 1920 1080 None (Some 5)) 42 (Some 6)
    (record_before_framebuffer E_ok "XR-0" 1920 1080 60 1 3 2).

(** A STRING property value holding [s]. *)
Definition string_value (s : string) : RRPropertyValueRec :=
  {| v_type := XA_STRING; v_format := 8; v_size := Z.of_nat (String.length s);
     v_data := s |}.

(** An INTEGER property value holding the one 32-bit item [z]. *)
Definition int32_value (z : Z) : RRPropertyValueRec :=
  {| v_type := XA_INTEGER; v_format := 32; v_size := 1; v_data := CStr.INT32_bytes z |}.


(** A record with a framebuffer: buffer object, identifier, pixmap.  The
    buffer object has the width and height as the [uint32_t] fields hold
    them: the requested ones unless they are negative. *)
Definition has_framebuffer (width height : Z) (fb : Z) (v : xr_virtual_output_rec) : Prop :=
  is_Some (vout_pixmap v)
  ∧ vout_framebuffer_id v = fb
  ∧ bo_width (vout_framebuffer_bo v) = to_uint32 width
  ∧ bo_height (vout_framebuffer_bo v) = to_uint32 height
  ∧ (is_Some (bo_gbm (vout_framebuffer_bo v)) ∨ is_Some (bo_dumb (vout_framebuffer_bo v))).


(** The names in the list, in list order; a record whose [strdup] failed
    has none. *)
Definition registered_names (w : world) : list string :=
  omap vout_name (xr_virtual_outputs w).

(** The entry points through which the server reaches the file. *)
Inductive request :=
| Manager_set_property (prop_name : option string) (value : RRPropertyValueRec)
| Virtual_set_property (output : handle) (prop_name : option string)
    (value : RRPropertyValueRec)
| Crtc_set_mode_major (crtc : handle) (mode : option DisplayModeRec) (rotation x y : Z)
| Crtc_dpms (crtc : handle) (mode : Z)
| Output_destroy (output : handle).

Definition serve (E : extern) (w : world) (q : request) : world :=
  match q with
  | Manager_set_property prop_name value =>
      (drmmode_xr_manager_set_property E w prop_name value).2
  | Virtual_set_property output prop_name value =>
      (drmmode_xr_virtual_set_property E w output prop_name value).2
  | Crtc_set_mode_major crtc mode rotation x y =>
      (drmmode_xr_virtual_crtc_set_mode_major E w crtc mode rotation x y).2
  | Crtc_dpms crtc mode => drmmode_xr_virtual_crtc_dpms w crtc mode
  | Output_destroy output => drmmode_xr_virtual_output_destroy w output
  end.

(** The worlds the driver can be in: [drmmode_xr_virtual_output_init]
    leaves the list empty, and every request is served in some environment. *)
Inductive reachable : world → Prop :=
| reachable_init w : xr_virtual_outputs w = [] → reachable w
| reachable_serve E w q : reachable w → reachable (serve E w q).

(** The order in which the code goes through the steps. *)
Definition code_rank (s : teardown_step) : nat :=
  match s with
  | Step_buffer => 0
  | Step_crtc => 1
  | Step_disconnect => 2
  | Step_output => 3
  | Step_record => 4
  end.

(** [e1] may come before [e2]: their steps are in the order of [rank]. *)
Definition before (rank : teardown_step → nat) (e1 e2 : event) : Prop :=
  match teardown_step_of e1, teardown_step_of e2 with
  | Some s1, Some s2 => (rank s1 ≤ rank s2)%nat
  | _, _ => True
  end.

#[global] Instance before_dec rank e1 e2 : Decision (before rank e1 e2).
Proof. unfold before. repeat case_match; apply _. Defined.

(** [in_order rank evs]: no call of [evs] comes after a call of a later step. *)
Definition in_order (rank : teardown_step → nat) (evs : list event) : Prop :=
  StronglySorted (before rank) evs.

(** [spans lo hi evs]: [evs] is in the order of the code and all its calls
    belong to steps from [lo] to [hi]. *)
Definition spans (lo hi : nat) (evs : list event) : Prop :=
  in_order code_rank evs
  ∧ Forall (λ e, ∃ s, teardown_step_of e = Some s
                      ∧ (lo ≤ code_rank s)%nat ∧ (code_rank s ≤ hi)%nat) evs.

(** [shrinks w w']: the list of [w'] is the list of [w] with some records
    taken out. *)
Definition shrinks (w w' : world) : Prop :=
  xr_virtual_outputs w' `sublist_of` xr_virtual_outputs w.

(** The order the claim gives: disconnect and notify, buffer, CRTC, output,
    record. *)
Definition claimed_rank (s : teardown_step) : nat :=
  match s with
  | Step_disconnect => 0
  | Step_buffer => 1
  | Step_crtc => 2
  | Step_output => 3
  | Step_record => 4
  end.

(** The calls of the deletion of "XR-0" in [w_xr0]. *)
Definition teardown_calls_xr0 : list event :=
  [Ev_DestroyPixmap 6; Ev_drmModeRmFB 42; Ev_drmmode_bo_destroy;
   Ev_RRCrtcDestroy 4; Ev_xf86CrtcDestroy 3;
   Ev_RROutputSetConnection 2 RR_Disconnected; Ev_RROutputChanged 2; Ev_RRTellChanged;
   Ev_RROutputDestroy 2; Ev_xf86OutputDestroy 1;
   Ev_free_output_private 1; Ev_free_name; Ev_free_modes; Ev_free_vout].

(** The block of the mode-set that resizes the framebuffer of the record
    [vout] at index [i]. *)
Definition mode_set_resize (E : extern) (w : world) (i : nat)
    (vout : xr_virtual_output_rec) (new_width new_height : Z) : world :=
  let d := drmmode_xr_destroy_offscreen_framebuffer E w vout in
  let a := drmmode_xr_create_offscreen_framebuffer E d.1 d.2 new_width new_height in
  if a.1.1 then
    let w :=
      match vout_randr_output a.2 with
      | Some ro =>
          (drmmode_xr_virtual_ensure_fb_id_property E a.1.2 ro
             (vout_framebuffer_id a.2)).2
      | None => a.1.2
      end in
    set_xr_virtual_outputs
      (<[i := set_dimensions new_width new_height (vout_refresh a.2) a.2]>
         (xr_virtual_outputs w)) w
  else set_xr_virtual_outputs (<[i := a.2]> (xr_virtual_outputs a.1.2)) a.1.2.

(** The mode 3840x2160. *)
Definition mode_4k : DisplayModeRec :=
  timing 3840 2160 533250.

(** [out_of_range z]: [z] is no width or height that the property handler
    of a virtual output accepts. *)
Definition out_of_range (z : Z) : Prop := z < 64 ∨ 16384 < z.

(** The world with the one output "XR-0" created at 10x10, 60 Hz. *)
Definition w_tiny : world :=
  (drmmode_xr_create_virtual_output E_ok w_init "XR-0" 10 10 60).2.

(** The decimal text of [n], as [printf("%d")] writes it. *)
Definition decimal (n : nat) : string := NilZero.string_of_uint (Nat.to_uint n).

(** [s] does not start with a decimal digit. *)
Definition no_digit_ahead (s : string) : Prop :=
  match s with
  | String c _ => CStr.digit c = None
  | EmptyString => True
  end.

(** [s] does not start with what [strtol] reads as a number or skips, nor
    with a colon. *)
Definition no_number_ahead (s : string) : Prop :=
  match s with
  | String c _ =>
      CStr.digit c = None ∧ CStr.isspace c = false
      ∧ c ≠ "-"%char ∧ c ≠ "+"%char ∧ c ≠ ":"%char
  | EmptyString => True
  end.

(** As [E_ok], but [strdup] has no memory for the copy of the name. *)
Definition E_no_strdup : extern :=
  {| GLAMOR_HAS_GBM := true; x_MakeAtom := λ _, true;
     x_RRConfigureOutputProperty := λ _, 0; x_RRChangeOutputProperty := λ _, 0;
     x_xf86OutputCreate := Some 1; x_calloc_output_private := true;
     x_RROutputCreate := Some 2;
     x_xf86CVTMode := λ w h r, Some (timing w h (w * h * r));
     x_RRModeGet := λ _, true; x_realloc_rrmodes := λ _, true;
     x_xf86CrtcCreate := Some 3; x_calloc_crtc_private := true;
     x_RRCrtcCreate := Some 4; x_randr_crtc_id := 4;
     x_calloc_vout := true; x_strdup := false; x_strndup := true;
     x_calloc_mode := true;
     x_gbm_bo_create := None; x_dumb_bo_create := Some 5;
     x_drmmode_bo_import := (0, 42);
     x_drmmode_bo_destroy := λ b, bo_sized (bo_width b) (bo_height b) None None;
     x_dumb_bo_map := 0; x_CreatePixmap_gbm := None;
     x_egl_create_textured_pixmap := false; x_CreatePixmap := Some 6;
     x_ModifyPixmapHeader := true |}.

(** What the framebuffer code holds: the buffer object, the DRM
    framebuffer under its identifier, the pixmap. *)
Inductive fb_resource :=
| Fb_buffer_object
| Fb_framebuffer (fb : Z)
| Fb_pixmap (p : handle).

Definition fb_acquires (e : event) : option fb_resource :=
  match e with
  | Ev_gbm_bo_create _ | Ev_dumb_bo_create _ => Some Fb_buffer_object
  | Ev_drmmode_bo_import fb => Some (Fb_framebuffer fb)
  | Ev_CreatePixmap p => Some (Fb_pixmap p)
  | _ => None
  end.

Definition fb_releases (e : event) : option fb_resource :=
  match e with
  | Ev_drmmode_bo_destroy => Some Fb_buffer_object
  | Ev_drmModeRmFB fb => Some (Fb_framebuffer fb)
  | Ev_DestroyPixmap p => Some (Fb_pixmap p)
  | _ => None
  end.

(** [balanced acq rel evs]: every resource that a call of [evs] acquires
    is released by a later call of [evs]. *)
Fixpoint balanced {R : Type} (acq rel : event → option R) (evs : list event) : Prop :=
  match evs with
  | [] => True
  | e :: rest =>
      match acq e with
      | Some r => Exists (λ e', rel e' = Some r) rest
      | None => True
      end ∧ balanced acq rel rest
  end.

(** The environment creates a buffer object, through GBM or as a dumb
    buffer. *)
Definition buffer_object_created (E : extern) (w : world) : Prop :=
  (GLAMOR_HAS_GBM E && drmmode_glamor_gbm w = true ∧ is_Some (x_gbm_bo_create E))
  ∨ is_Some (x_dumb_bo_create E).

(** As [E_ok], but the screen has no pixmap to give: [CreatePixmap]
    returns [NULL]. *)
Definition E_no_pixmap : extern :=
  {| GLAMOR_HAS_GBM := true; x_MakeAtom := λ _, true;
     x_RRConfigureOutputProperty := λ _, 0; x_RRChangeOutputProperty := λ _, 0;
     x_xf86OutputCreate := Some 1; x_calloc_output_private := true;
     x_RROutputCreate := Some 2;
     x_xf86CVTMode := λ w h r, Some (timing w h (w * h * r));
     x_RRModeGet := λ _, true; x_realloc_rrmodes := λ _, true;
     x_xf86CrtcCreate := Some 3; x_calloc_crtc_private := true;
     x_RRCrtcCreate := Some 4; x_randr_crtc_id := 4;
     x_calloc_vout := true; x_strdup := true; x_strndup := true;
     x_calloc_mode := true;
     x_gbm_bo_create := None; x_dumb_bo_create := Some 5;
     x_drmmode_bo_import := (0, 42);
     x_drmmode_bo_destroy := λ b, bo_sized (bo_width b) (bo_height b) None None;
     x_dumb_bo_map := 0; x_CreatePixmap_gbm := None;
     x_egl_create_textured_pixmap := false; x_CreatePixmap := None;
     x_ModifyPixmapHeader := true |}.

(** The record of "XR-0" before it has a framebuffer. *)
Definition xr0_bare : xr_virtual_output_rec :=
  record_before_framebuffer E_ok "XR-0" 1920 1080 60 1 3 2.

(** The mode 2560x1440. *)
Definition mode_1440p : DisplayModeRec :=
  timing 2560 1440 241500.


(** No RandR mode can be built: the timing, the RandR mode or the array
    is refused every time. *)
Definition no_mode_available (E : extern) : Prop :=
  (∀ a b r, x_xf86CVTMode E a b r = None)
  ∨ (∀ m, x_RRModeGet E m = false)
  ∨ (∀ n, x_realloc_rrmodes E n = false).

(** As [E_ok], but [xf86CVTMode] has no memory for a mode. *)
Definition E_no_cvt : extern :=
  {| GLAMOR_HAS_GBM := true; x_MakeAtom := λ _, true;
     x_RRConfigureOutputProperty := λ _, 0; x_RRChangeOutputProperty := λ _, 0;
     x_xf86OutputCreate := Some 1; x_calloc_output_private := true;
     x_RROutputCreate := Some 2;
     x_xf86CVTMode := λ w h r, None;
     x_RRModeGet := λ _, true; x_realloc_rrmodes := λ _, true;
     x_xf86CrtcCreate := Some 3; x_calloc_crtc_private := true;
     x_RRCrtcCreate := Some 4; x_randr_crtc_id := 4;
     x_calloc_vout := true; x_strdup := true; x_strndup := true;
     x_calloc_mode := true;
     x_gbm_bo_create := None; x_dumb_bo_create := Some 5;
     x_drmmode_bo_import := (0, 42);
     x_drmmode_bo_destroy := λ b, bo_sized (bo_width b) (bo_height b) None None;
     x_dumb_bo_map := 0; x_CreatePixmap_gbm := None;
     x_egl_create_textured_pixmap := false; x_CreatePixmap := Some 6;
     x_ModifyPixmapHeader := true |}.

(** As [E_ok], but RandR has no output to give: [RROutputCreate] returns
    [NULL]. *)
Definition E_no_randr_output : extern :=
  {| GLAMOR_HAS_GBM := true; x_MakeAtom := λ _, true;
     x_RRConfigureOutputProperty := λ _, 0; x_RRChangeOutputProperty := λ _, 0;
     x_xf86OutputCreate := Some 1; x_calloc_output_private := true;
     x_RROutputCreate := None;
     x_xf86CVTMode := λ w h r, Some (timing w h (w * h * r));
     x_RRModeGet := λ _, true; x_realloc_rrmodes := λ _, true;
     x_xf86CrtcCreate := Some 3; x_calloc_crtc_private := true;
     x_RRCrtcCreate := Some 4; x_randr_crtc_id := 4;
     x_calloc_vout := true; x_strdup := true; x_strndup := true;
     x_calloc_mode := true;
     x_gbm_bo_create := None; x_dumb_bo_create := Some 5;
     x_drmmode_bo_import := (0, 42);
     x_drmmode_bo_destroy := λ b, bo_sized (bo_width b) (bo_height b) None None;
     x_dumb_bo_map := 0; x_CreatePixmap_gbm := None;
     x_egl_create_textured_pixmap := false; x_CreatePixmap := Some 6;
     x_ModifyPixmapHeader := true |}.

(** The driver before [drmmode_xr_virtual_output_init]: the world [w],
    no manager output. *)
Definition driver_of (w : world) : driver :=
  {| ms_world := w; ms_xr_manager_output := None; ms_xr_virtual_enabled := true;
     init_funcs_initialized := false; rr_non_desktop := ∅ |}.

(** The two command properties can be registered: their atoms exist and
    the two RandR calls succeed. *)
Definition command_properties_ok (E : extern) : Prop :=
  ∀ prop, prop = CREATE_XR_OUTPUT_PROPERTY ∨ prop = DELETE_XR_OUTPUT_PROPERTY →
    x_MakeAtom E prop = true
    ∧ x_RRConfigureOutputProperty E prop = 0
    ∧ x_RRChangeOutputProperty E prop = 0.

(** As [E_ok], but the server has no atom to give: [MakeAtom] returns
    [BAD_RESOURCE]. *)
Definition E_no_atom : extern :=
  {| GLAMOR_HAS_GBM := true; x_MakeAtom := λ _, false;
     x_RRConfigureOutputProperty := λ _, 0; x_RRChangeOutputProperty := λ _, 0;
     x_xf86OutputCreate := Some 1; x_calloc_output_private := true;
     x_RROutputCreate := Some 2;
     x_xf86CVTMode := λ w h r, Some (timing w h (w * h * r));
     x_RRModeGet := λ _, true; x_realloc_rrmodes := λ _, true;
     x_xf86CrtcCreate := Some 3; x_calloc_crtc_private := true;
     x_RRCrtcCreate := Some 4; x_randr_crtc_id := 4;
     x_calloc_vout := true; x_strdup := true; x_strndup := true;
     x_calloc_mode := true;
     x_gbm_bo_create := None; x_dumb_bo_create := Some 5;
     x_drmmode_bo_import := (0, 42);
     x_drmmode_bo_destroy := λ b, bo_sized (bo_width b) (bo_height b) None None;
     x_dumb_bo_map := 0; x_CreatePixmap_gbm := None;
     x_egl_create_textured_pixmap := false; x_CreatePixmap := Some 6;
     x_ModifyPixmapHeader := true |}.

(** The environment of the set-up: the manager output is 10 and its
    RandR output 11. *)
Definition E_manager : extern := E_all 10 11 3 4 5 6 42.

(** The driver after the set-up of XR-Manager. *)
Definition d_manager : driver :=
  (drmmode_xr_virtual_output_post_screen_init E_manager
     (drmmode_xr_virtual_output_init E_manager (driver_of w_init)).2).2.

(** [e] destroys an output or a RandR output, or frees memory of the
    driver: the last two steps of a teardown. *)
Definition is_output_or_record_call (e : event) : Prop :=
  teardown_step_of e = Some Step_output ∨ teardown_step_of e = Some Step_record.

(** The driver with XR-Manager set up and the output "XR-0". *)
Definition d_xr0 : driver :=
  set_ms_world
    (drmmode_xr_create_virtual_output E_ok (ms_world d_manager) "XR-0" 1920 1080 60).2
    d_manager.

(** The calls of the block of a creation that attaches the RandR CRTC
    [rc], for an output whose mode list is [modes]; none without a RandR
    CRTC. *)
Definition attach_calls (rc : option handle) (ro : handle) (modes : list RRModeRec)
    (width height : Z) : list event :=
  match rc with
  | Some rc =>
      [Ev_RRCrtcCreate rc; Ev_RROutputSetCrtcs ro rc]
      ++ match preferred_mode modes width height with
         | Some m => [Ev_RRCrtcNotify rc m]
         | None => []
         end
  | None => []
  end.


#[global] Instance resource_eq_dec : EqDecision resource.
Proof. solve_decision. Defined.

(** The number of calls of [evs] that release [r]. *)
Definition release_count (r : resource) (evs : list event) : nat :=
  length (filter (λ e, releases e = Some r) evs).


(** [released_once keep evs]: every resource of [keep] that a call of
    [evs] acquires is released by exactly one later call of [evs]. *)
Fixpoint released_once (keep : resource → bool) (evs : list event) : Prop :=
  match evs with
  | [] => True
  | e :: rest =>
      match acquires e with
      | Some r => keep r = true → release_count r rest = 1%nat
      | None => True
      end ∧ released_once keep rest
  end.


(** The calls that destroy the framebuffer of the record [v], with or
    without a screen: the pixmap if there is one and a screen, the DRM
    framebuffer if the identifier is not 0, the buffer object if there is
    a dumb or a GBM buffer. *)
Definition framebuffer_teardown_calls (screen : bool) (v : xr_virtual_output_rec)
    : list event :=
  match vout_pixmap v with
  | Some p => if screen then [Ev_DestroyPixmap p] else []
  | None => []
  end
  ++ (if vout_framebuffer_id v =? 0 then [] else [Ev_drmModeRmFB (vout_framebuffer_id v)])
  ++ match bo_dumb (vout_framebuffer_bo v), bo_gbm (vout_framebuffer_bo v) with
     | None, None => []
     | _, _ => [Ev_drmmode_bo_destroy]
     end.

(** The calls of a deletion after those of the framebuffer, for a record
    with the output [output], the CRTC [crtc] with RandR CRTC [rc], and the
    RandR output [ro]. *)
Definition object_teardown_calls (output crtc ro : handle) (rc : option handle)
    : list event :=
  match rc with Some rc => [Ev_RRCrtcDestroy rc] | None => [] end
  ++ [Ev_xf86CrtcDestroy crtc;
      Ev_RROutputSetConnection ro RR_Disconnected; Ev_RROutputChanged ro;
      Ev_RRTellChanged;
      Ev_RROutputDestroy ro; Ev_xf86OutputDestroy output;
      Ev_free_output_private output; Ev_free_name; Ev_free_modes; Ev_free_vout].

(** ** The activity and power controller *)

Module Power.

(** Modelled from the spec: the two states of the Activity/Power
    Controller (section 4.4).  The controller is absent from the source
    file: its record has no timestamp, its function table installs no
    [get_property] hook, and the timer callback that the documentation
    names ([drmmode_xr_inactivity_timer_callback]) is not there. *)
Inductive power_state := Active | Standby.

(** Modelled from the spec: what the controller keeps for one output, the
    last-access timestamp ([last_access_time] in the documentation) and
    the state. *)
Record power_rec := {
  last_access : Z;
  state : power_state
}.

(** Modelled from the spec: the fixed threshold of 5 time units. *)
Definition INACTIVITY_THRESHOLD : Z := 5.

(** Modelled from the spec: "Initial state: Active immediately after
    creation". *)
Definition created (now : Z) : power_rec :=
  {| last_access := now; state := Active |}.

(** Modelled from the spec: a read of the framebuffer-identifier attribute
    of an output "resets the output's last-access timestamp and, if
    currently Standby, immediately re-enables" it. *)
Definition read_framebuffer_id (now : Z) (p : power_rec) : power_rec :=
  {| last_access := now;
     state := match state p with Standby => Active | Active => Active end |}.

(** Modelled from the spec: the check the recurring timer makes for one
    output: no read for at least the threshold marks it Standby. *)
Definition timer_check (now : Z) (p : power_rec) : power_rec :=
  if INACTIVITY_THRESHOLD <=? now - last_access p
  then {| last_access := last_access p; state := Standby |}
  else p.

(** Modelled from the spec: what happens to the controller, a read of the
    attribute of one output or a run of the timer, each at a time. *)
Inductive activity :=
| Read (name : string) (now : Z)
| Tick (now : Z).

(** Modelled from the spec: the controller over the outputs of the
    registry, by name; the timer checks every output. *)
Definition step (m : gmap string power_rec) (a : activity) : gmap string power_rec :=
  match a with
  | Read name now => alter (read_framebuffer_id now) name m
  | Tick now => timer_check now <$> m
  end.

(** Modelled from the spec: a sequence of reads and timer runs. *)
Definition run (m : gmap string power_rec) (l : list activity) : gmap string power_rec :=
  fold_left step l m.

(** Modelled from the spec: [a] is not a read of the attribute of [name]. *)
Definition no_read_of (name : string) (a : activity) : Prop :=
  match a with
  | Read name' _ => name' ≠ name
  | Tick _ => True
  end.

End Power.

(** * Properties *)

(** ** What a call adds to the trace, and what it leaves of the list *)

Lemma emits_refl w : emits w w [].
Proof. unfold emits. by rewrite app_nil_r. Qed.

Lemma emits_trans w1 w2 w3 e1 e2 :
  emits w1 w2 e1 → emits w2 w3 e2 → emits w1 w3 (e1 ++ e2).
Proof. unfold emits. intros H1 H2. by rewrite H2, H1, app_assoc. Qed.

Lemma emits_emit e w : emits w (emit e w) [e].
Proof. reflexivity. Qed.

Lemma emits_inj w w' e1 e2 : emits w w' e1 → emits w w' e2 → e1 = e2.
Proof. unfold emits. intros H1 H2. rewrite H1 in H2. by apply app_inv_head in H2. Qed.

Lemma keeps_refl w : keeps w w.
Proof. by repeat split. Qed.

Lemma keeps_trans w1 w2 w3 : keeps w1 w2 → keeps w2 w3 → keeps w1 w3.
Proof.
  unfold keeps. intros (?&?&?&?&?) (?&?&?&?&?).
  repeat split; etrans; eauto.
Qed.

Lemma keeps_emit e w : keeps w (emit e w).
Proof. by repeat split. Qed.

Lemma silent_refl w : silent w w.
Proof. split; [apply keeps_refl | apply emits_refl]. Qed.

Lemma silent_trans w1 w2 w3 : silent w1 w2 → silent w2 w3 → silent w1 w3.
Proof.
  intros [K1 T1] [K2 T2]. split; [by eapply keeps_trans |].
  exact (emits_trans _ _ _ [] [] T1 T2).
Qed.

Lemma emits_silent_l w1 w2 w3 evs : silent w1 w2 → emits w2 w3 evs → emits w1 w3 evs.
Proof. intros [_ T1] T2. exact (emits_trans _ _ _ [] evs T1 T2). Qed.

Lemma emits_silent_r w1 w2 w3 evs : emits w1 w2 evs → silent w2 w3 → emits w1 w3 evs.
Proof.
  intros T1 [_ T2]. rewrite <- (app_nil_r evs). by eapply emits_trans.
Qed.

Lemma silent_intro w w' :
  xr_virtual_outputs w' = xr_virtual_outputs w → pScreen w' = pScreen w →
  pScreen_root w' = pScreen_root w → drmmode_glamor_gbm w' = drmmode_glamor_gbm w →
  glamor_egl_hook w' = glamor_egl_hook w → trace w' = trace w → silent w w'.
Proof. intros. split; [by repeat split |]. unfold emits. by rewrite app_nil_r. Qed.

Lemma silent_set_outputs m w : silent w (set_outputs m w).
Proof. by apply silent_intro. Qed.

Lemma silent_set_crtcs m w : silent w (set_crtcs m w).
Proof. by apply silent_intro. Qed.

Lemma silent_set_rr_props m w : silent w (set_rr_props m w).
Proof. by apply silent_intro. Qed.

Lemma silent_set_rr_modes m w : silent w (set_rr_modes m w).
Proof. by apply silent_intro. Qed.

Lemma silent_set_funcs_initialized b w : silent w (set_funcs_initialized b w).
Proof. by apply silent_intro. Qed.

Lemma silent_write_property ro prop v w : silent w (write_property ro prop v w).
Proof. apply silent_set_rr_props. Qed.

Lemma silent_RRConfigureOutputProperty E w ro prop :
  silent w (RRConfigureOutputProperty E w ro prop).2.
Proof.
  unfold RRConfigureOutputProperty.
  repeat case_match; simpl; auto using silent_refl, silent_write_property.
Qed.

Lemma silent_RRChangeOutputProperty E w ro prop v :
  silent w (RRChangeOutputProperty E w ro prop v).2.
Proof.
  unfold RRChangeOutputProperty.
  case_match; simpl; auto using silent_refl, silent_write_property.
Qed.

Lemma silent_create_property E w ro prop v : silent w (create_property E w ro prop v).
Proof.
  unfold create_property. case_match; [| apply silent_refl].
  eapply silent_trans;
    [apply silent_RRConfigureOutputProperty | apply silent_RRChangeOutputProperty].
Qed.

Lemma silent_update_property E w ro prop v : silent w (update_property E w ro prop v).
Proof.
  unfold update_property. case_match;
    [apply silent_RRChangeOutputProperty | apply silent_refl].
Qed.

Lemma silent_mark_virtual E w ro : silent w (mark_virtual E w ro).
Proof.
  unfold mark_virtual. repeat case_match; try apply silent_refl.
  - pose proof (silent_RRConfigureOutputProperty E w ro XR_VIRTUAL_OUTPUT_PROPERTY) as S1.
    match goal with H : RRConfigureOutputProperty _ _ _ _ = _ |- _ => rewrite H in S1 end.
    eapply silent_trans; [exact S1 | apply silent_RRChangeOutputProperty].
  - pose proof (silent_RRConfigureOutputProperty E w ro XR_VIRTUAL_OUTPUT_PROPERTY) as S1.
    match goal with H : RRConfigureOutputProperty _ _ _ _ = _ |- _ => rewrite H in S1 end.
    exact S1.
Qed.

Lemma silent_ensure_fb_id_property E w ro fb :
  silent w (drmmode_xr_virtual_ensure_fb_id_property E w ro fb).2.
Proof.
  unfold drmmode_xr_virtual_ensure_fb_id_property.
  repeat case_match; simpl;
    eauto using silent_refl, silent_trans, silent_RRConfigureOutputProperty,
      silent_RRChangeOutputProperty.
Qed.

Lemma silent_set_modes E w output width height refresh :
  silent w (drmmode_xr_virtual_set_modes E w output width height refresh).
Proof.
  unfold drmmode_xr_virtual_set_modes.
  repeat case_match; auto using silent_refl, silent_set_rr_modes.
Qed.

Lemma keeps_emit_r e w w' : keeps w w' → keeps w (emit e w').
Proof. intros K. eapply keeps_trans; [exact K | apply keeps_emit]. Qed.

Lemma keeps_silent_r w w' w'' : keeps w w' → silent w' w'' → keeps w w''.
Proof. intros K [K' _]. by eapply keeps_trans. Qed.

Lemma emits_emit_r e w w' evs : emits w w' evs → emits w (emit e w') (evs ++ [e]).
Proof. intros T. eapply emits_trans; [exact T | apply emits_emit]. Qed.

(** ** The events of the framebuffer *)

Lemma fb_calls_refl P w : fb_calls P w w.
Proof. split; [apply keeps_refl |]. exists []. split; [apply emits_refl | constructor]. Qed.

Lemma fb_calls_trans P w1 w2 w3 : fb_calls P w1 w2 → fb_calls P w2 w3 → fb_calls P w1 w3.
Proof.
  intros [K1 (e1 & T1 & F1)] [K2 (e2 & T2 & F2)].
  split; [by eapply keeps_trans |].
  exists (e1 ++ e2). split; [by eapply emits_trans | by apply Forall_app].
Qed.

Lemma fb_calls_emit P e w : P e = true → fb_calls P w (emit e w).
Proof.
  intros HP. split; [apply keeps_emit |].
  exists [e]. split; [apply emits_emit | by repeat constructor].
Qed.

Lemma fb_calls_silent P w w' : silent w w' → fb_calls P w w'.
Proof. intros [K T]. split; [done |]. exists []. by split. Qed.

Lemma fb_calls_mono (P Q : event → bool) w w' :
  (∀ e, P e = true → Q e = true) → fb_calls P w w' → fb_calls Q w w'.
Proof.
  intros HPQ [K (evs & T & F)]. split; [done |]. exists evs. split; [done |].
  eapply Forall_impl; [exact F | exact HPQ].
Qed.

Lemma teardown_is_framebuffer e :
  is_framebuffer_teardown e = true → is_framebuffer_event e = true.
Proof. by destruct e. Qed.

Lemma drmmode_bo_destroy_calls E w v :
  fb_calls is_framebuffer_teardown w (drmmode_bo_destroy E w v).1
  ∧ identity (drmmode_bo_destroy E w v).2 = identity v
  ∧ vout_framebuffer_id (drmmode_bo_destroy E w v).2 = vout_framebuffer_id v
  ∧ vout_pixmap (drmmode_bo_destroy E w v).2 = vout_pixmap v.
Proof.
  unfold drmmode_bo_destroy; simpl. split; [by apply fb_calls_emit | by repeat split].
Qed.

(** Destroying the framebuffer: only teardown calls, the list is kept, and
    the record ends with no identifier and a zeroed buffer object. *)
Lemma destroy_offscreen_framebuffer_spec E w v :
  let r := drmmode_xr_destroy_offscreen_framebuffer E w v in
  fb_calls is_framebuffer_teardown w r.1
  ∧ identity r.2 = identity v
  ∧ vout_framebuffer_id r.2 = 0
  ∧ vout_framebuffer_bo r.2 = bo_zero
  ∧ (pScreen w = true → vout_pixmap r.2 = None).
Proof.
  unfold drmmode_xr_destroy_offscreen_framebuffer, drmmode_bo_destroy.
  destruct (vout_pixmap v) as [p|] eqn:Hp; destruct (pScreen w) eqn:Hs;
    destruct (vout_framebuffer_id v =? 0) eqn:Hfb;
    destruct (bo_dumb (vout_framebuffer_bo v)) eqn:Hd;
    destruct (bo_gbm (vout_framebuffer_bo v)) eqn:Hg;
    simpl; rewrite ?Hfb; simpl; rewrite ?Hd, ?Hg; simpl; rewrite ?Hp;
    (split; [| by (repeat split; try done; try (by apply Z.eqb_eq))]);
    repeat first
      [ apply fb_calls_refl
      | eapply fb_calls_trans; [| by apply fb_calls_emit] ].
Qed.

(** ** Allocating the framebuffer *)

Lemma fb_unwind_spec E unmap w v :
  let r := fb_unwind E unmap w v in
  r.1.1 = false ∧ fb_calls is_framebuffer_event w r.1.2 ∧ identity r.2 = identity v.
Proof.
  unfold fb_unwind, drmmode_bo_destroy. destruct unmap; simpl;
    (split; [done |]); (split; [| done]);
    repeat first
      [ apply fb_calls_refl
      | eapply fb_calls_trans; [| by apply fb_calls_emit] ].
Qed.

Lemma fb_pixmap_created_spec E w v pixmap :
  let r := fb_pixmap_created E w v pixmap in
  r.1.1 = true ∧ silent w r.1.2
  ∧ r.2 = set_framebuffer (vout_framebuffer_bo v) (vout_framebuffer_id v) (Some pixmap) v
  ∧ ∀ ro, vout_randr_output v = Some ro →
      r.1.2 = (drmmode_xr_virtual_ensure_fb_id_property E w ro (vout_framebuffer_id v)).2.
Proof.
  unfold fb_pixmap_created. simpl. split; [done |]. split.
  - destruct (vout_randr_output v);
      [apply silent_ensure_fb_id_property | apply silent_refl].
  - split; [done |]. by intros ro ->.
Qed.

#[local] Arguments fb_pixmap_created : simpl never.
#[local] Arguments fb_unwind : simpl never.
#[local] Arguments fb_dumb_pixmap : simpl never.

(** A successful allocation always leaves through [pixmap_created]. *)
Lemma fb_dumb_pixmap_spec E w v pixmap_ptr :
  let r := fb_dumb_pixmap E w v pixmap_ptr in
  fb_calls is_framebuffer_event w r.1.2 ∧ identity r.2 = identity v
  ∧ (r.1.1 = true → ∃ w0 pixmap,
        fb_calls is_framebuffer_event w w0 ∧ r = fb_pixmap_created E w0 v pixmap).
Proof.
  unfold fb_dumb_pixmap.
  set (unmap := match pixmap_ptr with Some _ => _ | None => _ end).
  destruct (x_CreatePixmap E) as [pixmap|].
  - destruct (x_ModifyPixmapHeader E); cbv beta iota zeta delta [negb].
    + destruct (fb_pixmap_created_spec E (emit (Ev_CreatePixmap pixmap) w) v pixmap)
        as (_ & S & -> & _).
      split; [| split; [done |]].
      * eapply fb_calls_trans; [| by apply fb_calls_silent]. by apply fb_calls_emit.
      * intros _. exists (emit (Ev_CreatePixmap pixmap) w), pixmap.
        split; [by apply fb_calls_emit | done].
    + destruct (fb_unwind_spec E unmap (emit (Ev_DestroyPixmap pixmap)
                  (emit (Ev_CreatePixmap pixmap) w)) v) as (F & C & I).
      split; [| split; [done | by rewrite F]].
      eapply fb_calls_trans; [| exact C].
      eapply fb_calls_trans; [| by apply fb_calls_emit]. by apply fb_calls_emit.
  - destruct (fb_unwind_spec E unmap w v) as (F & C & I).
    split; [done | split; [done | by rewrite F]].
Qed.

Lemma fb_bo_created_spec E w v width height :
  let r := fb_bo_created E w v width height in
  fb_calls is_framebuffer_event w r.1.2 ∧ identity r.2 = identity v
  ∧ (r.1.1 = true → ∃ w0 pixmap,
        fb_calls is_framebuffer_event w w0
        ∧ (x_drmmode_bo_import E).1 = 0
        ∧ r = fb_pixmap_created E w0
                (set_framebuffer (vout_framebuffer_bo v) (x_drmmode_bo_import E).2
                   (vout_pixmap v) v) pixmap).
Proof.
  unfold fb_bo_created. destruct (x_drmmode_bo_import E) as [ret fb].
  cbv beta iota zeta.
  destruct (ret =? 0) eqn:Hret; cbv beta iota zeta delta [negb].
  2:{ split; [| split; [done | done]].
      unfold drmmode_bo_destroy. simpl. by apply fb_calls_emit. }
  change ((ret, fb).2) with fb. change ((ret, fb).1) with ret.
  apply Z.eqb_eq in Hret. subst ret.
  set (v1 := set_framebuffer (vout_framebuffer_bo v) fb (vout_pixmap v) v).
  set (w1 := emit (Ev_drmmode_bo_import fb) w).
  assert (fb_calls is_framebuffer_event w w1) as C1 by (by apply fb_calls_emit).
  assert (identity v1 = identity v) as I1 by done.
  (* the three ways on: unwind, dumb pixmap, pixmap created *)
  assert (∀ u w2, fb_calls is_framebuffer_event w w2 →
            let r := fb_unwind E u w2 v1 in
            fb_calls is_framebuffer_event w r.1.2 ∧ identity r.2 = identity v
            ∧ (r.1.1 = true → ∃ w0 pixmap, fb_calls is_framebuffer_event w w0
                 ∧ 0 = 0 ∧ r = fb_pixmap_created E w0 v1 pixmap)) as Hunwind.
  { intros u w2 C2. destruct (fb_unwind_spec E u w2 v1) as (F & C & I).
    split; [by eapply fb_calls_trans | split; [by rewrite I | by rewrite F]]. }
  assert (∀ ptr w2, fb_calls is_framebuffer_event w w2 →
            let r := fb_dumb_pixmap E w2 v1 ptr in
            fb_calls is_framebuffer_event w r.1.2 ∧ identity r.2 = identity v
            ∧ (r.1.1 = true → ∃ w0 pixmap, fb_calls is_framebuffer_event w w0
                 ∧ 0 = 0 ∧ r = fb_pixmap_created E w0 v1 pixmap)) as Hdumb.
  { intros ptr w2 C2. destruct (fb_dumb_pixmap_spec E w2 v1 ptr) as (C & I & S).
    split; [by eapply fb_calls_trans | split; [by rewrite I |]].
    intros Hok. destruct (S Hok) as (w0 & pixmap & C0 & ->).
    exists w0, pixmap. split; [by eapply fb_calls_trans | done]. }
  assert (∀ pixmap w2, fb_calls is_framebuffer_event w w2 →
            let r := fb_pixmap_created E w2 v1 pixmap in
            fb_calls is_framebuffer_event w r.1.2 ∧ identity r.2 = identity v
            ∧ (r.1.1 = true → ∃ w0 pixmap, fb_calls is_framebuffer_event w w0
                 ∧ 0 = 0 ∧ r = fb_pixmap_created E w0 v1 pixmap)) as Hcreated.
  { intros pixmap w2 C2.
    destruct (fb_pixmap_created_spec E w2 v1 pixmap) as (_ & S & Hr & _).
    split; [eapply fb_calls_trans; [exact C2 | by apply fb_calls_silent] |].
    split; [by rewrite Hr |]. intros _. by exists w2, pixmap. }
  assert (∀ e w2, is_framebuffer_event e = true →
            fb_calls is_framebuffer_event w w2 →
            fb_calls is_framebuffer_event w (emit e w2)) as Hemit.
  { intros e w2 He C2. eapply fb_calls_trans; [exact C2 | by apply fb_calls_emit]. }
  fold v1 w1.
  repeat case_match; cbv beta iota zeta delta [negb];
    first [ apply Hunwind | apply Hdumb | apply Hcreated | idtac ];
    auto using Hemit.
  all: simpl; split; [done | split; [done | done]].
Qed.

#[local] Arguments fb_bo_created : simpl never.

(** The allocation as a whole: only framebuffer calls, the list and the
    identity of the record kept; on success the record holds a buffer
    object of the requested size, the identifier the import returned and a
    pixmap, and the identifier has gone to the FRAMEBUFFER_ID property. *)
Lemma create_offscreen_framebuffer_spec E w v width height :
  let r := drmmode_xr_create_offscreen_framebuffer E w v width height in
  fb_calls is_framebuffer_event w r.1.2 ∧ identity r.2 = identity v
  ∧ (r.1.1 = true → ∃ w0 pixmap bo,
        fb_calls is_framebuffer_event w w0
        ∧ (x_drmmode_bo_import E).1 = 0
        ∧ bo_width bo = to_uint32 width ∧ bo_height bo = to_uint32 height
        ∧ (is_Some (bo_gbm bo) ∨ is_Some (bo_dumb bo))
        ∧ r = fb_pixmap_created E w0
                (set_framebuffer bo (x_drmmode_bo_import E).2 None v) pixmap).
Proof.
  unfold drmmode_xr_create_offscreen_framebuffer.
  assert (∀ e gbm dumb, is_framebuffer_event e = true →
            is_Some gbm ∨ is_Some dumb →
            let r := fb_bo_created E (emit e w)
                       (set_framebuffer
                          (bo_sized (to_uint32 width) (to_uint32 height) gbm dumb) 0 None
                          (set_framebuffer
                             (bo_sized (to_uint32 width) (to_uint32 height) None None)
                             0 None v))
                       width height in
            fb_calls is_framebuffer_event w r.1.2 ∧ identity r.2 = identity v
            ∧ (r.1.1 = true → ∃ w0 pixmap bo,
                 fb_calls is_framebuffer_event w w0
                 ∧ (x_drmmode_bo_import E).1 = 0
                 ∧ bo_width bo = to_uint32 width ∧ bo_height bo = to_uint32 height
                 ∧ (is_Some (bo_gbm bo) ∨ is_Some (bo_dumb bo))
                 ∧ r = fb_pixmap_created E w0
                         (set_framebuffer bo (x_drmmode_bo_import E).2 None v) pixmap))
    as Hbo.
  { intros e gbm dumb He Hsome.
    match goal with |- let r := fb_bo_created E ?w1 ?v1 _ _ in _ =>
      destruct (fb_bo_created_spec E w1 v1 width height) as (C & I & S) end.
    split; [eapply fb_calls_trans; [by apply fb_calls_emit | exact C] |].
    split; [by rewrite I |]. intros Hok.
    destruct (S Hok) as (w0 & pixmap & C0 & Hret & Hr).
    exists w0, pixmap, (bo_sized (to_uint32 width) (to_uint32 height) gbm dumb).
    split; [eapply fb_calls_trans; [by apply fb_calls_emit | exact C0] |].
    by repeat split. }
  repeat case_match; try (apply Hbo; [done | eauto]).
  all: simpl; split; [apply fb_calls_refl | split; [done | done]].
Qed.

(** Without a buffer object the allocation stops at once: nothing is
    called and the record is left with no identifier and no pixmap. *)
Lemma create_offscreen_framebuffer_no_bo E w v width height :
  (GLAMOR_HAS_GBM E && drmmode_glamor_gbm w = false ∨ x_gbm_bo_create E = None) →
  x_dumb_bo_create E = None →
  drmmode_xr_create_offscreen_framebuffer E w v width height
  = (false, w,
     set_framebuffer (bo_sized (to_uint32 width) (to_uint32 height) None None) 0 None v).
Proof.
  intros Hgbm Hdumb. unfold drmmode_xr_create_offscreen_framebuffer.
  rewrite Hdumb. destruct Hgbm as [-> | ->]; [done |].
  by destruct (GLAMOR_HAS_GBM E && drmmode_glamor_gbm w).
Qed.

(** What [pixmap_created] publishes. *)
Lemma RRQuery_write_property w ro prop v :
  RRQueryOutputProperty (write_property ro prop v w) ro prop = Some v.
Proof.
  unfold RRQueryOutputProperty, write_property. simpl.
  rewrite lookup_insert_eq. simpl. by rewrite lookup_insert_eq.
Qed.

Lemma RRQuery_write_property_ne w ro ro' prop prop' v :
  (ro, prop) ≠ (ro', prop') →
  RRQueryOutputProperty (write_property ro prop v w) ro' prop'
  = RRQueryOutputProperty w ro' prop'.
Proof.
  intros Hne. unfold RRQueryOutputProperty, write_property. simpl.
  destruct (decide (ro = ro')) as [<- | Hro].
  - rewrite lookup_insert_eq. simpl.
    rewrite lookup_insert_ne by congruence.
    by destruct (rr_props w !! ro).
  - by rewrite lookup_insert_ne.
Qed.


Lemma create_offscreen_framebuffer_failure E w v width height :
  let r := drmmode_xr_create_offscreen_framebuffer E w v width height in
  r.1.1 = false → vout_pixmap r.2 = None.
Proof.
  unfold drmmode_xr_create_offscreen_framebuffer, fb_bo_created, fb_dumb_pixmap,
    fb_unwind, fb_pixmap_created, drmmode_bo_destroy.
  destruct (x_drmmode_bo_import E) as [ret fb].
  repeat case_match; simpl; congruence.
Qed.

(** ** Resources and the steps of a teardown *)

Lemma all_released_no_acquire evs :
  Forall (λ e, acquires e = None) evs → all_released evs.
Proof. induction 1 as [| e rest He _ IH]; simpl; [done |]. by rewrite He. Qed.

Lemma all_released_app evs tail :
  all_released evs → Forall (λ e, acquires e = None) tail → all_released (evs ++ tail).
Proof.
  intros Hevs Htail. induction evs as [| e rest IH]; simpl in *.
  - by apply all_released_no_acquire.
  - destruct Hevs as [He Hrest]. split; [| by apply IH].
    destruct (acquires e); [| done]. apply Exists_app. by left.
Qed.

Lemma in_step_no_acquire evs : in_step Step_record evs → Forall (λ e, acquires e = None) evs.
Proof.
  intros H. eapply Forall_impl; [exact H |].
  intros e He. destruct e; try done.
Qed.

(** ** Destroying outputs and CRTCs *)

Lemma xf86CrtcDestroy_spec w crtc :
  keeps w (xf86CrtcDestroy w crtc) ∧ emits w (xf86CrtcDestroy w crtc) [Ev_xf86CrtcDestroy crtc].
Proof. by repeat split. Qed.

Lemma RROutputDestroy_spec w ro :
  keeps w (RROutputDestroy w ro) ∧ emits w (RROutputDestroy w ro) [Ev_RROutputDestroy ro].
Proof. by repeat split. Qed.

Ltac emits_explicit :=
  unfold emits; simpl; rewrite <- ?app_assoc; simpl;
  first [reflexivity | symmetry; apply app_nil_r].

(** The hook frees; it unlinks a record only if the list still has one
    for the output. *)
Lemma output_destroy_hook_spec w output :
  let w' := drmmode_xr_virtual_output_destroy w output in
  (∃ evs, emits w w' evs ∧ in_step Step_record evs)
  ∧ (find_by_output w output = None → keeps w w')
  ∧ (∀ i v, find_by_output w output = Some (i, v) →
       xr_virtual_outputs w' = delete i (xr_virtual_outputs w)).
Proof.
  unfold drmmode_xr_virtual_output_destroy, drmmode_xr_free_modes.
  destruct (find_by_output w output) as [[i v]|] eqn:Hfind; simpl.
  - destruct (vout_name v); simpl;
      destruct (outputs w !! output) as [orec|]; simpl;
      try destruct (out_driver_private orec); simpl;
      (split; [eexists; split; [emits_explicit | by repeat constructor] |]);
      (split; [done |]); intros i' v' [= <- <-]; reflexivity.
  - destruct (outputs w !! output) as [orec|]; simpl;
      try destruct (out_driver_private orec); simpl;
      (split; [eexists; split; [emits_explicit | by repeat constructor] |]);
      (split; [intros _; by repeat split | done]).
Qed.

Lemma xf86OutputDestroy_spec w output :
  let w' := xf86OutputDestroy w output in
  (∃ evs, emits w w' (Ev_xf86OutputDestroy output :: evs) ∧ in_step Step_record evs)
  ∧ (find_by_output w output = None → keeps w w')
  ∧ (∀ i v, find_by_output w output = Some (i, v) →
       xr_virtual_outputs w' = delete i (xr_virtual_outputs w)).
Proof.
  unfold xf86OutputDestroy.
  destruct (output_destroy_hook_spec (emit (Ev_xf86OutputDestroy output) w) output)
    as ((evs & T & S) & K & D).
  split; [| split].
  - exists evs. split; [| done].
    eapply emits_silent_r; [| apply silent_set_outputs].
    exact (emits_trans _ _ _ [_] evs (emits_emit _ w) T).
  - intros Hfind. eapply keeps_silent_r; [| apply silent_set_outputs].
    eapply keeps_trans; [apply keeps_emit | by apply K].
  - intros i v Hfind. simpl. by apply (D i v).
Qed.

(** ** Peeling a world term *)

Create HintDb frame discriminated.
#[local] Hint Resolve silent_set_outputs silent_set_crtcs silent_set_rr_props
  silent_set_rr_modes silent_set_funcs_initialized silent_write_property
  silent_create_property silent_update_property silent_mark_virtual
  silent_set_modes silent_ensure_fb_id_property : frame.

Ltac keeps_peel_rec :=
  first
    [ apply keeps_refl
    | eassumption
    | eapply keeps_trans; [| apply keeps_emit]; [keeps_peel_rec]
    | eapply keeps_silent_r; [| solve [eauto with frame]]; [keeps_peel_rec]
    | eapply keeps_trans; [| solve [eauto with frame]]; [keeps_peel_rec] ].

Ltac emits_peel_rec :=
  first
    [ apply emits_refl
    | eapply emits_trans; [| apply emits_emit]; [emits_peel_rec]
    | eapply emits_silent_r; [| solve [eauto with frame]]; [emits_peel_rec] ].

(** The peeling tactics compare world terms by their head symbol only. *)
Ltac with_opaque_world tac :=
  with_strategy opaque
    [emit set_outputs set_crtcs set_rr_props set_rr_modes set_funcs_initialized
     set_xr_virtual_outputs xf86OutputDestroy xf86CrtcDestroy RROutputDestroy
     drmmode_xr_free_modes drmmode_xr_virtual_output_destroy
     drmmode_xr_virtual_set_modes create_property update_property mark_virtual
     attach_randr_crtc write_property]
    tac.

Ltac keeps_peel := with_opaque_world keeps_peel_rec.
Ltac emits_peel := with_opaque_world emits_peel_rec.

Lemma find_by_output_keeps w w' output :
  keeps w w' → find_by_output w' output = find_by_output w output.
Proof. intros (R & _). unfold find_by_output. by rewrite R. Qed.

Lemma find_virtual_output_keeps w w' name :
  keeps w w' → drmmode_xr_find_virtual_output w' name = drmmode_xr_find_virtual_output w name.
Proof. intros (R & _). unfold drmmode_xr_find_virtual_output. by rewrite R. Qed.

(** ** Creating the CRTC *)

Lemma create_virtual_crtc_spec E w :
  let r := drmmode_xr_create_virtual_crtc E w in
  keeps w r.2
  ∧ match r.1 with
    | Some c =>
        x_xf86CrtcCreate E = Some c ∧ x_calloc_crtc_private E = true
        ∧ emits w r.2 [Ev_xf86CrtcCreate c]
    | None =>
        (x_xf86CrtcCreate E = None ∧ emits w r.2 [])
        ∨ (∃ c, x_xf86CrtcCreate E = Some c ∧ x_calloc_crtc_private E = false
             ∧ emits w r.2 [Ev_xf86CrtcCreate c; Ev_xf86CrtcDestroy c])
    end.
Proof.
  unfold drmmode_xr_create_virtual_crtc, xf86CrtcDestroy.
  destruct (x_xf86CrtcCreate E) as [c|]; simpl.
  - destruct (x_calloc_crtc_private E); simpl.
    + split; [keeps_peel |]. repeat split; try done; emits_explicit.
    + split; [keeps_peel |]. right. exists c. repeat split; try done; emits_explicit.
  - split; [apply keeps_refl |]. left. split; [done | apply emits_refl].
Qed.

Lemma attach_randr_crtc_keeps E w output ro crtc width height :
  keeps w (attach_randr_crtc E w output ro crtc width height).
Proof.
  unfold attach_randr_crtc. repeat case_match; keeps_peel.
Qed.

(** ** The steps of a creation *)

Lemma create_duplicate E w name width height refresh :
  is_Some (drmmode_xr_find_virtual_output w name) →
  drmmode_xr_create_virtual_output E w name width height refresh = (None, w).
Proof.
  intros [iv Hfind]. unfold drmmode_xr_create_virtual_output. by rewrite Hfind.
Qed.

Lemma keeps_xf86CrtcDestroy w crtc : keeps w (xf86CrtcDestroy w crtc).
Proof. apply xf86CrtcDestroy_spec. Qed.

Lemma keeps_RROutputDestroy w ro : keeps w (RROutputDestroy w ro).
Proof. apply RROutputDestroy_spec. Qed.

#[local] Hint Resolve keeps_xf86CrtcDestroy keeps_RROutputDestroy
  attach_randr_crtc_keeps : frame.

Ltac emits_by_peel :=
  lazymatch goal with
  | |- emits ?w ?w' ?l =>
      let H := fresh in
      assert (∃ evs, emits w w' evs ∧ evs = l) as H
        by (eexists; split; [emits_peel | reflexivity]);
      destruct H as (? & H & ->); exact H
  end.

(** ** The outcomes of a creation *)

Lemma xf86OutputDestroy_after w W output :
  keeps w W →
  xr_virtual_outputs (xf86OutputDestroy W output) `sublist_of` xr_virtual_outputs w
  ∧ (find_by_output w output = None → keeps w (xf86OutputDestroy W output)).
Proof.
  intros K. destruct (xf86OutputDestroy_spec W output) as (_ & Kp & D).
  rewrite (find_by_output_keeps _ _ _ K) in Kp, D. split.
  - destruct (find_by_output w output) as [[i v]|] eqn:Hfind.
    + rewrite (D i v eq_refl). destruct K as (-> & _). apply sublist_delete.
    + destruct (Kp eq_refl) as (-> & _). by destruct K as (-> & _).
  - intros Hfind. eapply keeps_trans; [exact K | by apply Kp].
Qed.

Lemma create_outcome E w name width height refresh :
  drmmode_xr_find_virtual_output w name = None →
  let r := drmmode_xr_create_virtual_output E w name width height refresh in
  match first_failure E with
  | Some step =>
      r.1 = None
      ∧ xr_virtual_outputs r.2 `sublist_of` xr_virtual_outputs w
      ∧ (fresh_output E w → keeps w r.2)
      ∧ (step ≠ Create_record → ∃ evs, emits w r.2 evs ∧ all_released evs)
  | None =>
      ∃ output crtc ro w0,
        x_xf86OutputCreate E = Some output ∧ x_xf86CrtcCreate E = Some crtc
        ∧ x_RROutputCreate E = Some ro ∧ keeps w w0
        ∧ let a := drmmode_xr_create_offscreen_framebuffer E w0
                     (record_before_framebuffer E name width height refresh
                        output crtc ro) width height in
          r = (Some a.2, set_xr_virtual_outputs (a.2 :: xr_virtual_outputs a.1.2) a.1.2)
  end.
Proof.
  intros Hfind. unfold drmmode_xr_create_virtual_output, first_failure.
  rewrite Hfind.
  destruct (x_xf86OutputCreate E) as [output|] eqn:Hout.
  2:{ simpl. split; [done |]. split; [done |]. split; [intros _; keeps_peel |].
      intros _. exists []. split; [emits_peel | done]. }
  assert (∀ W, keeps w W →
            xr_virtual_outputs (xf86OutputDestroy W output)
              `sublist_of` xr_virtual_outputs w
            ∧ (fresh_output E w → keeps w (xf86OutputDestroy W output))) as Hdestroy.
  { intros W K. destruct (xf86OutputDestroy_after w W output K) as [Sub Kp].
    split; [done |]. intros Hfresh. apply Kp. by apply Hfresh. }
  destruct (x_calloc_output_private E); cbv beta iota zeta delta [negb].
  2:{ match goal with |- context [xf86OutputDestroy ?w1 output] =>
        assert (keeps w w1) as K1 by keeps_peel;
        assert (emits w w1 [Ev_xf86OutputCreate output]) as T1 by emits_by_peel;
        set (W1 := w1) in *; clearbody W1;
        destruct (xf86OutputDestroy_spec W1 output) as ((evs & T & S) & _);
        destruct (Hdestroy W1 K1) as [Sub Kp] end.
      cbn [fst snd]. split; [done |]. split; [exact Sub |]. split; [exact Kp |].
      intros _. eexists. split; [exact (emits_trans _ _ _ _ _ T1 T) |].
      apply (all_released_app [_; _]); [| by apply in_step_no_acquire].
      simpl. repeat split. by apply Exists_cons_hd. }
  destruct (x_RROutputCreate E) as [ro|] eqn:Hro.
  2:{ match goal with |- context [xf86OutputDestroy ?w1 output] =>
        assert (keeps w w1) as K1 by keeps_peel;
        assert (emits w w1 [Ev_xf86OutputCreate output; Ev_calloc_output_private output;
                            Ev_free_output_private output]) as T1 by emits_by_peel;
        set (W1 := w1) in *; clearbody W1;
        destruct (xf86OutputDestroy_spec W1 output) as ((evs & T & S) & _);
        destruct (Hdestroy W1 K1) as [Sub Kp] end.
      cbn [fst snd]. split; [done |]. split; [exact Sub |]. split; [exact Kp |].
      intros _. eexists. split; [exact (emits_trans _ _ _ _ _ T1 T) |].
      apply (all_released_app [_; _; _; _]); [| by apply in_step_no_acquire].
      simpl. repeat split;
        repeat first [by apply Exists_cons_hd | apply Exists_cons_tl]. }
  match goal with |- context [drmmode_xr_create_virtual_crtc E ?w1] =>
    assert (keeps w w1) as K1 by keeps_peel;
    assert (emits w w1 [Ev_xf86OutputCreate output; Ev_calloc_output_private output;
                        Ev_RROutputCreate ro; Ev_RROutputSetConnection ro RR_Connected;
                        Ev_RROutputChanged ro; Ev_RRTellChanged]) as T1
      by emits_by_peel;
    set (W1 := w1) in *; clearbody W1;
    destruct (create_virtual_crtc_spec E W1) as (K2 & C);
    destruct (drmmode_xr_create_virtual_crtc E W1) as [oc w2] eqn:Hcrtc
  end.
  assert (keeps w w2) as K by (eapply keeps_trans; [exact K1 | exact K2]).
  simpl in C. clear K2 K1 Hcrtc.
  destruct oc as [crtc|].
  - destruct C as (Hc & Hp & T2). rewrite Hc, Hp.
    cbv beta iota zeta delta [negb].
    destruct (x_calloc_vout E); cbv beta iota zeta delta [negb].
    + match goal with
      | |- context [drmmode_xr_create_offscreen_framebuffer E ?w0 ?v0 _ _] =>
          exists output, crtc, ro, w0;
          change v0 with (record_before_framebuffer E name width height refresh
                            output crtc ro);
          assert (keeps w w0) as K0 by keeps_peel;
          set (W0 := w0) in *; clearbody W0
      end.
      split; [done |]. split; [done |]. split; [done |]. split; [done |].
      cbv zeta.
      by destruct (drmmode_xr_create_offscreen_framebuffer E W0
                     (record_before_framebuffer E name width height refresh
                        output crtc ro) width height) as [[ok w'] v'].
    + match goal with |- context [xf86OutputDestroy ?w3 output] =>
        assert (keeps w w3) as K3 by keeps_peel;
        set (W3 := w3) in *; clearbody W3;
        destruct (Hdestroy W3 K3) as [Sub Kp] end.
      cbn [fst snd]. split; [done |]. split; [exact Sub |]. split; [exact Kp | done].
  - match goal with |- context [xf86OutputDestroy ?w3 output] =>
      assert (keeps w w3) as K3 by keeps_peel;
      destruct (xf86OutputDestroy_spec w3 output) as ((evs & T3 & S3) & _);
      destruct (Hdestroy w3 K3) as [Sub Kp] end.
    assert (emits w2 (emit (Ev_free_output_private output) (RROutputDestroy w2 ro))
              [Ev_RROutputDestroy ro; Ev_free_output_private output]) as T by emits_explicit.
    set (W3 := emit (Ev_free_output_private output) (RROutputDestroy w2 ro)) in *.
    clearbody W3.
    destruct C as [[Hc T2] | (c & Hc & Hp & T2)]; rewrite Hc, ?Hp;
      cbv beta iota zeta delta [negb]; cbn [fst snd];
      (split; [done |]); (split; [exact Sub |]); (split; [exact Kp |]); intros _.
    + exists ([Ev_xf86OutputCreate output; Ev_calloc_output_private output;
               Ev_RROutputCreate ro; Ev_RROutputSetConnection ro RR_Connected;
               Ev_RROutputChanged ro; Ev_RRTellChanged;
               Ev_RROutputDestroy ro; Ev_free_output_private output;
               Ev_xf86OutputDestroy output] ++ evs).
      split.
      * unfold emits in *. rewrite T3, T, T2, T1. rewrite <- !app_assoc. reflexivity.
      * apply all_released_app; [| by apply in_step_no_acquire].
        simpl. repeat split;
          repeat first [by apply Exists_cons_hd | apply Exists_cons_tl].
    + exists ([Ev_xf86OutputCreate output; Ev_calloc_output_private output;
               Ev_RROutputCreate ro; Ev_RROutputSetConnection ro RR_Connected;
               Ev_RROutputChanged ro; Ev_RRTellChanged;
               Ev_xf86CrtcCreate c; Ev_xf86CrtcDestroy c;
               Ev_RROutputDestroy ro; Ev_free_output_private output;
               Ev_xf86OutputDestroy output] ++ evs).
      split.
      * unfold emits in *. rewrite T3, T, T2, T1. rewrite <- !app_assoc. reflexivity.
      * apply all_released_app; [| by apply in_step_no_acquire].
        simpl. repeat split;
          repeat first [by apply Exists_cons_hd | apply Exists_cons_tl].
Qed.

(** ** C1: what a failed step of the creation leaves behind *)


(** ** C7: deleting a name that is not registered *)

Lemma find_none_iff w name :
  drmmode_xr_find_virtual_output w name = None
  ↔ Forall (λ v, vout_name v ≠ Some name) (xr_virtual_outputs w).
Proof. unfold drmmode_xr_find_virtual_output. apply list_find_None. Qed.

(** C7.  When no record of the list has the name, the deletion returns
    [FALSE] and the world it returns is the world it was given: neither
    the list nor its length nor any record changes, and nothing is called.
    The same holds for the DELETE_XR_OUTPUT command of XR-Manager. *)
Theorem delete_unknown_is_noop E w name :
  Forall (λ v, vout_name v ≠ Some name) (xr_virtual_outputs w) →
  drmmode_xr_delete_virtual_output E w name = (false, w)
  ∧ ∀ value,
      is_string8 value = true → x_strndup E = true →
      CStr.strndup (v_data value) (v_size value) = name →
      drmmode_xr_manager_set_property E w (Some DELETE_XR_OUTPUT_PROPERTY) value
      = (false, w).
Proof.
  intros Hnone. apply find_none_iff in Hnone.
  assert (drmmode_xr_delete_virtual_output E w name = (false, w)) as Hdel.
  { unfold drmmode_xr_delete_virtual_output.
    unfold drmmode_xr_find_virtual_output in Hnone. by rewrite Hnone. }
  split; [exact Hdel |].
  intros value Hstr Hdup Hname. unfold drmmode_xr_manager_set_property.
  rewrite Hstr, Hdup, Hname. exact Hdel.
Qed.

Lemma delete_unknown_is_noop_witness :
  Forall (λ v, vout_name v ≠ Some "XR-1") (xr_virtual_outputs w_xr0)
  ∧ drmmode_xr_delete_virtual_output E_ok w_xr0 "XR-1" = (false, w_xr0)
  ∧ drmmode_xr_manager_set_property E_ok w_xr0 (Some DELETE_XR_OUTPUT_PROPERTY)
      (string_value "XR-1") = (false, w_xr0).
Proof.
  assert (Forall (λ v, vout_name v ≠ Some "XR-1") (xr_virtual_outputs w_xr0)) as H.
  { vm_compute. repeat constructor. discriminate. }
  split; [exact H |].
  destruct (delete_unknown_is_noop E_ok w_xr0 "XR-1" H) as [Hd Hm].
  split; [exact Hd |]. by apply Hm.
Defined.

(** ** C6: duplicate names *)

Lemma sublist_omap {A B} (f : A → option B) (l1 l2 : list A) :
  l1 `sublist_of` l2 → omap f l1 `sublist_of` omap f l2.
Proof.
  induction 1 as [| x l1 l2 _ IH | x l1 l2 _ IH]; simpl.
  - constructor.
  - destruct (f x); [by constructor | done].
  - destruct (f x); [by constructor | done].
Qed.

Lemma omap_insert_same {A B} (f : A → option B) (l : list A) i x y :
  l !! i = Some x → f y = f x → omap f (<[i:=y]> l) = omap f l.
Proof.
  revert i. induction l as [| a l IH]; intros [| i]; simpl; try done.
  - intros [= ->] ->. done.
  - intros Hi Hf. destruct (f a); [f_equal |]; by apply IH.
Qed.

Lemma names_sublist w w' :
  xr_virtual_outputs w' `sublist_of` xr_virtual_outputs w →
  NoDup (registered_names w) → NoDup (registered_names w').
Proof.
  intros Sub ND. exact (sublist_NoDup _ _ ND (sublist_omap _ _ _ Sub)).
Qed.

Lemma names_keeps w w' :
  keeps w w' → registered_names w' = registered_names w.
Proof. intros (R & _). unfold registered_names. by rewrite R. Qed.

Lemma find_registered w name :
  name ∈ registered_names w ↔ is_Some (drmmode_xr_find_virtual_output w name).
Proof.
  unfold registered_names, drmmode_xr_find_virtual_output. split.
  - intros (v & Hv & Hn)%list_elem_of_omap. by eapply list_find_elem_of.
  - intros [[i v] (Hi & Hn & _)%list_find_Some].
    apply list_elem_of_omap. exists v. split; [| done].
    by eapply list_elem_of_lookup_2.
Qed.

Lemma identity_name v v' : identity v' = identity v → vout_name v' = vout_name v.
Proof. by intros [= _ _ _ -> _ _ _ _]. Qed.

(** The creation keeps the names apart. *)
Lemma create_names E w name width height refresh :
  NoDup (registered_names w) →
  NoDup (registered_names
           (drmmode_xr_create_virtual_output E w name width height refresh).2).
Proof.
  intros ND.
  destruct (drmmode_xr_find_virtual_output w name) as [iv|] eqn:Hfind.
  { by rewrite create_duplicate. }
  pose proof (create_outcome E w name width height refresh Hfind) as H.
  cbv zeta in H. destruct (first_failure E).
  - destruct H as (_ & Sub & _). by eapply names_sublist.
  - destruct H as (output & crtc & ro & w0 & _ & _ & _ & K & ->).
    destruct (create_offscreen_framebuffer_spec E w0
                (record_before_framebuffer E name width height refresh output crtc ro)
                width height) as ((K' & _) & I & _).
    unfold registered_names. simpl.
    apply identity_name in I. rewrite I. simpl.
    destruct K' as (-> & _), K as (-> & _).
    destruct (x_strdup E); [| exact ND].
    apply NoDup_cons. split; [| exact ND].
    intros Hin%find_registered. rewrite Hfind in Hin. by destruct Hin.
Qed.

(** ** The order of a teardown *)

Lemma spans_nil lo hi : spans lo hi [].
Proof. split; constructor. Qed.

Lemma spans_cons lo hi e s evs :
  teardown_step_of e = Some s → (lo ≤ code_rank s)%nat → (code_rank s ≤ hi)%nat →
  spans (code_rank s) hi evs → spans lo hi (e :: evs).
Proof.
  intros He Hlo Hhi [Hord Hall]. split.
  - apply StronglySorted_cons. split; [| done].
    eapply Forall_impl; [exact Hall |]. intros e' (s' & He' & Hlo' & _).
    unfold before. by rewrite He, He'.
  - constructor; [by exists s |].
    eapply Forall_impl; [exact Hall |]. intros e' (s' & He' & Hlo' & Hhi').
    exists s'. split; [done |]. lia.
Qed.

Lemma spans_weaken lo hi lo' hi' evs :
  (lo' ≤ lo)%nat → (hi ≤ hi')%nat → spans lo hi evs → spans lo' hi' evs.
Proof.
  intros Hlo Hhi [Hord Hall]. split; [done |].
  eapply Forall_impl; [exact Hall |]. intros e (s & He & ? & ?).
  exists s. split; [done |]. lia.
Qed.

Lemma spans_app lo mid hi evs1 evs2 :
  (lo ≤ mid)%nat → (mid ≤ hi)%nat →
  spans lo mid evs1 → spans mid hi evs2 → spans lo hi (evs1 ++ evs2).
Proof.
  intros Hlo Hhi [Hord1 Hall1] [Hord2 Hall2]. split.
  - apply StronglySorted_app. split; [| done].
    intros e1 e2 Hin1 Hin2.
    rewrite Forall_forall in Hall1, Hall2.
    destruct (Hall1 e1 Hin1) as (s1 & He1 & _ & Hhi1).
    destruct (Hall2 e2 Hin2) as (s2 & He2 & Hlo2 & _).
    unfold before. rewrite He1, He2. lia.
  - apply Forall_app. split.
    + eapply Forall_impl; [exact Hall1 |]. intros e (s & He & ? & ?).
      exists s. split; [done |]. lia.
    + eapply Forall_impl; [exact Hall2 |]. intros e (s & He & ? & ?).
      exists s. split; [done |]. lia.
Qed.

Lemma shrinks_refl w : shrinks w w.
Proof. unfold shrinks. done. Qed.

Lemma shrinks_trans w1 w2 w3 : shrinks w1 w2 → shrinks w2 w3 → shrinks w1 w3.
Proof. unfold shrinks. intros H1 H2. by etrans. Qed.

Lemma shrinks_keeps_r w1 w2 w3 : shrinks w1 w2 → keeps w2 w3 → shrinks w1 w3.
Proof. unfold shrinks. intros H1 (-> & _). done. Qed.

Lemma shrinks_silent_r w1 w2 w3 : shrinks w1 w2 → silent w2 w3 → shrinks w1 w3.
Proof. intros H1 [K _]. by eapply shrinks_keeps_r. Qed.

Lemma shrinks_output_destroy_hook w output :
  shrinks w (drmmode_xr_virtual_output_destroy w output).
Proof.
  destruct (output_destroy_hook_spec w output) as (_ & K & D).
  destruct (find_by_output w output) as [[i v]|].
  - unfold shrinks. rewrite (D i v eq_refl). apply sublist_delete.
  - eapply shrinks_keeps_r; [apply shrinks_refl | by apply K].
Qed.

Lemma shrinks_xf86OutputDestroy w output : shrinks w (xf86OutputDestroy w output).
Proof. apply (xf86OutputDestroy_after w w output (keeps_refl w)). Qed.

Lemma keeps_free_modes w modes : keeps w (drmmode_xr_free_modes w modes).
Proof. apply keeps_emit. Qed.

#[local] Hint Resolve keeps_free_modes : frame.

Ltac shrinks_peel_rec :=
  first
    [ eassumption
    | apply shrinks_refl
    | eapply shrinks_trans; [| apply shrinks_xf86OutputDestroy]; [shrinks_peel_rec]
    | eapply shrinks_keeps_r; [| apply keeps_emit]; [shrinks_peel_rec]
    | eapply shrinks_silent_r; [| solve [eauto with frame]]; [shrinks_peel_rec]
    | eapply shrinks_keeps_r; [| solve [eauto with frame]]; [shrinks_peel_rec] ].

Ltac shrinks_peel := with_opaque_world shrinks_peel_rec.

Lemma spans_in_step s evs :
  in_step s evs → spans (code_rank s) (code_rank s) evs.
Proof.
  induction 1 as [| e evs He _ IH]; [apply spans_nil |].
  by eapply spans_cons.
Qed.

Lemma teardown_in_step_buffer evs :
  Forall (λ e, is_framebuffer_teardown e = true) evs → in_step Step_buffer evs.
Proof.
  intros H. eapply Forall_impl; [exact H |]. intros e He. by destruct e.
Qed.

(** ** The blocks of a deletion *)

Ltac emits_list l :=
  exists l; split; [emits_explicit |].

Ltac spans_explicit :=
  repeat first
    [ apply spans_nil
    | eapply spans_cons; [reflexivity | simpl; lia | simpl; lia | simpl] ].

Lemma delete_crtc_spec w vout :
  keeps w (delete_crtc w vout)
  ∧ ∃ evs, emits w (delete_crtc w vout) evs ∧ spans 1 1 evs.
Proof.
  unfold delete_crtc, xf86CrtcDestroy.
  destruct (vout_crtc vout) as [crtc|];
    [| split; [apply keeps_refl | exists []; split; [apply emits_refl | apply spans_nil]]].
  destruct (crtcs w !! crtc ≫= crtc_randr_crtc) as [rc|];
    destruct (vout_output vout) as [o|]; simpl.
  all: split; [by repeat split |].
  all: eexists; split; [emits_explicit | spans_explicit].
Qed.

Lemma delete_randr_output_spec w vout :
  keeps w (delete_randr_output w vout)
  ∧ ∃ evs, emits w (delete_randr_output w vout) evs ∧ spans 2 3 evs.
Proof.
  unfold delete_randr_output, RROutputDestroy.
  destruct (vout_randr_output vout) as [ro|];
    [| split; [apply keeps_refl | exists []; split; [apply emits_refl | apply spans_nil]]].
  destruct (vout_output vout) as [o|]; simpl.
  all: split; [by repeat split |].
  all: eexists; split; [emits_explicit | spans_explicit].
Qed.

Lemma delete_output_spec w vout :
  shrinks w (delete_output w vout)
  ∧ ∃ evs, emits w (delete_output w vout) evs ∧ spans 3 4 evs.
Proof.
  unfold delete_output.
  destruct (vout_output vout) as [o|];
    [| split; [apply shrinks_refl | exists []; split; [apply emits_refl | apply spans_nil]]].
  split; [apply shrinks_xf86OutputDestroy |].
  destruct (xf86OutputDestroy_spec w o) as ((evs & T & S) & _).
  exists (Ev_xf86OutputDestroy o :: evs). split; [exact T |].
  eapply spans_cons; [reflexivity | simpl; lia | simpl; lia |].
  simpl. eapply spans_weaken; [| | apply (spans_in_step Step_record evs S)]; simpl; lia.
Qed.

Lemma delete_record_spec w vout :
  keeps w (delete_record w vout)
  ∧ ∃ evs, emits w (delete_record w vout) evs ∧ spans 4 4 evs.
Proof.
  unfold delete_record, drmmode_xr_free_modes.
  destruct (vout_name vout); simpl.
  all: split; [by repeat split |].
  all: eexists; split; [emits_explicit | spans_explicit].
Qed.

Lemma destroy_offscreen_framebuffer_spans E w vout :
  ∃ evs, emits w (drmmode_xr_destroy_offscreen_framebuffer E w vout).1 evs
         ∧ spans 0 0 evs.
Proof.
  destruct (destroy_offscreen_framebuffer_spec E w vout) as ((_ & evs & T & F) & _).
  exists evs. split; [exact T |].
  apply (spans_in_step Step_buffer). by apply teardown_in_step_buffer.
Qed.

(** A deletion that finds the name: the record leaves the list, the
    list only shrinks, and the calls come in the order of the code. *)
Lemma delete_found E w name i vout :
  list_find (λ v, vout_name v = Some name) (xr_virtual_outputs w) = Some (i, vout) →
  let r := drmmode_xr_delete_virtual_output E w name in
  r.1 = true
  ∧ xr_virtual_outputs r.2 `sublist_of` delete i (xr_virtual_outputs w)
  ∧ ∃ evs, emits w r.2 evs ∧ spans 0 4 evs.
Proof.
  intros Hfind. unfold drmmode_xr_delete_virtual_output. rewrite Hfind.
  set (w1 := set_xr_virtual_outputs (delete i (xr_virtual_outputs w)) w).
  assert (emits w w1 []) as T1 by (unfold emits; simpl; by rewrite app_nil_r).
  assert (xr_virtual_outputs w1 = delete i (xr_virtual_outputs w)) as R1 by done.
  clearbody w1.
  cbv zeta.
  set (a := match output_drmmode w1 (vout_output vout) with
            | Some _ => drmmode_xr_destroy_offscreen_framebuffer E w1 vout
            | None => (w1, vout)
            end).
  assert (keeps w1 a.1 ∧ ∃ evs, emits w1 a.1 evs ∧ spans 0 0 evs) as (Ka & ea & Ta & Sa).
  { subst a. destruct (output_drmmode w1 (vout_output vout)).
    - split; [apply (destroy_offscreen_framebuffer_spec E w1 vout) |].
      apply destroy_offscreen_framebuffer_spans.
    - split; [apply keeps_refl |]. exists []. split; [apply emits_refl | apply spans_nil]. }
  clearbody a.
  destruct (delete_crtc_spec a.1 a.2) as (Kc & ec & Tc & Sc).
  set (w3 := delete_crtc a.1 a.2) in *. clearbody w3.
  destruct (delete_randr_output_spec w3 a.2) as (Kr & er & Tr & Sr).
  set (w4 := delete_randr_output w3 a.2) in *. clearbody w4.
  destruct (delete_output_spec w4 a.2) as (Ko & eo & To & So).
  set (w5 := delete_output w4 a.2) in *. clearbody w5.
  destruct (delete_record_spec w5 a.2) as (Kf & ef & Tf & Sf).
  set (w6 := delete_record w5 a.2) in *. clearbody w6.
  cbn [fst snd]. split; [done |]. split.
  - rewrite <- R1. destruct Kf as (-> & _). unfold shrinks in Ko.
    destruct Kr as (Rr & _), Kc as (Rc & _), Ka as (Ra & _).
    by rewrite Rr, Rc, Ra in Ko.
  - exists (ea ++ ec ++ er ++ eo ++ ef). split.
    + unfold emits in *. rewrite Tf, To, Tr, Tc, Ta, T1.
      rewrite <- !app_assoc. reflexivity.
    + apply (spans_app 0 0 4); [lia | lia | done |].
      apply (spans_app 0 1 4); [lia | lia | by eapply spans_weaken; [| | exact Sc]; lia |].
      apply (spans_app 1 3 4); [lia | lia | by eapply spans_weaken; [| | exact Sr]; lia |].
      apply (spans_app 3 4 4); [lia | lia | done | done].
Qed.

Lemma delete_shrinks E w name :
  shrinks w (drmmode_xr_delete_virtual_output E w name).2.
Proof.
  destruct (list_find (λ v, vout_name v = Some name) (xr_virtual_outputs w))
    as [[i vout]|] eqn:Hfind.
  - destruct (delete_found E w name i vout Hfind) as (_ & Sub & _).
    unfold shrinks. etrans; [exact Sub | apply sublist_delete].
  - unfold drmmode_xr_delete_virtual_output. rewrite Hfind. apply shrinks_refl.
Qed.

Lemma manager_set_property_names E w prop_name value :
  NoDup (registered_names w) →
  NoDup (registered_names (drmmode_xr_manager_set_property E w prop_name value).2).
Proof.
  intros ND. unfold drmmode_xr_manager_set_property.
  destruct prop_name as [prop_name|]; [| exact ND].
  destruct (negb _ && negb _); [exact ND |].
  destruct (negb (is_string8 value)); [exact ND |].
  destruct (negb (x_strndup E)); [exact ND |].
  destruct (String.eqb prop_name CREATE_XR_OUTPUT_PROPERTY).
  - destruct (parse_create_command _) as [[[name width] height] refresh].
    destruct name as [| c name]; [exact ND |].
    pose proof (create_names E w (String c name) width height refresh ND) as H.
    by destruct (drmmode_xr_create_virtual_output E w (String c name) width height
                   refresh) as [[v|] w'].
  - destruct (String.eqb prop_name DELETE_XR_OUTPUT_PROPERTY); [| exact ND].
    eapply names_sublist; [apply delete_shrinks | exact ND].
Qed.

(** ** C8: the order of the teardown *)

(** C8, against the claim: the deletion of "XR-0" succeeds, and its calls
    are not in the claimed order: the pixmap, the framebuffer, the buffer
    object and the CRTC are destroyed before the output is marked
    disconnected. *)
Lemma delete_xr0_not_in_claimed_order :
  (drmmode_xr_delete_virtual_output E_ok w_xr0 "XR-0").1 = true
  ∧ emits w_xr0 (drmmode_xr_delete_virtual_output E_ok w_xr0 "XR-0").2
      teardown_calls_xr0
  ∧ ¬ in_order claimed_rank teardown_calls_xr0.
Proof.
  split; [by vm_compute |]. split; [by vm_compute |].
  unfold in_order. apply (bool_decide_eq_false_1 _). by vm_compute.
Qed.

(** ** Resizing *)

Lemma rr_props_update_property E w ro prop v ro' prop' :
  prop ≠ prop' →
  RRQueryOutputProperty (update_property E w ro prop v) ro' prop'
  = RRQueryOutputProperty w ro' prop'.
Proof.
  intros Hne. unfold update_property, RRChangeOutputProperty.
  repeat case_match; simpl; try done.
  apply RRQuery_write_property_ne. congruence.
Qed.

Lemma rr_props_set_modes E w output width height refresh :
  rr_props (drmmode_xr_virtual_set_modes E w output width height refresh) = rr_props w.
Proof. unfold drmmode_xr_virtual_set_modes. by repeat case_match. Qed.

Lemma rr_modes_update_property E w ro prop v :
  rr_modes (update_property E w ro prop v) = rr_modes w.
Proof. unfold update_property, RRChangeOutputProperty. by repeat case_match. Qed.

(** What a resize does to a record that has its output and its RandR
    output: it writes the three dimensions into the record, sets the modes
    and the three properties anew and announces the change.  No other
    field of the record, no other record and no other property changes,
    and nothing of the framebuffer is called. *)
Lemma resize_spec E w i v output ro width height refresh :
  xr_virtual_outputs w !! i = Some v →
  vout_output v = Some output → vout_randr_output v = Some ro →
  let r := drmmode_xr_resize_virtual_output E w (Some i) width height refresh in
  let w1 := set_xr_virtual_outputs
              (<[i := set_dimensions width height refresh v]> (xr_virtual_outputs w)) w in
  r.1 = true
  ∧ xr_virtual_outputs r.2
    = <[i := set_dimensions width height refresh v]> (xr_virtual_outputs w)
  ∧ emits w r.2 [Ev_RROutputChanged ro; Ev_RRTellChanged]
  ∧ (∀ ro', published_fb_id r.2 ro' = published_fb_id w ro')
  ∧ rr_modes r.2
    = rr_modes (drmmode_xr_virtual_set_modes E w1 output width height refresh).
Proof.
  intros Hi Ho Hro. unfold drmmode_xr_resize_virtual_output. simpl.
  rewrite Hi. simpl. rewrite Ho, Hro.
  set (w1 := set_xr_virtual_outputs _ w).
  set (w2 := drmmode_xr_virtual_set_modes E w1 output width height refresh).
  assert (silent w1 w2) as [K2 T2] by apply silent_set_modes.
  assert (rr_props w2 = rr_props w) as P2 by (subst w2; by rewrite rr_props_set_modes).
  clearbody w2.
  set (w3 := update_property E w2 ro XR_WIDTH_PROPERTY (PropInteger width)).
  set (w4 := update_property E w3 ro XR_HEIGHT_PROPERTY (PropInteger height)).
  set (w5 := update_property E w4 ro XR_REFRESH_PROPERTY (PropInteger refresh)).
  assert (silent w2 w5) as [K5 T5].
  { eapply silent_trans; [| apply silent_update_property].
    eapply silent_trans; apply silent_update_property. }
  assert (∀ ro', published_fb_id w5 ro' = published_fb_id w ro') as P5.
  { intros ro'. unfold published_fb_id. subst w5 w4 w3.
    rewrite !rr_props_update_property by done.
    unfold RRQueryOutputProperty. by rewrite P2. }
  assert (rr_modes w5 = rr_modes w2) as M5.
  { subst w5 w4 w3. by rewrite !rr_modes_update_property. }
  clearbody w5. clear w3 w4.
  simpl. split; [done |]. split.
  { destruct K5 as (-> & _), K2 as (-> & _). done. }
  split.
  { unfold emits in *. simpl. rewrite T5, T2. simpl. by rewrite !app_nil_r, <- app_assoc. }
  split; [exact P5 | exact M5].
Qed.

Lemma resize_null_or_incomplete E w width height refresh :
  drmmode_xr_resize_virtual_output E w None width height refresh = (false, w).
Proof. done. Qed.


(** ** C2: a resize to other dimensions *)

(** C2, against the claim: "XR-0" is 1920x1080 with framebuffer 42.  It is
    resized to 3840x2160, once by [drmmode_xr_resize_virtual_output] and
    once by a write of XR_WIDTH = 3840.  Both resizes succeed and store
    the new size, and after both the framebuffer identifier of the record
    and the value of FRAMEBUFFER_ID are 42 as before. *)
Lemma resize_xr0_keeps_identifier :
  (∃ v, xr_virtual_outputs w_xr0 !! 0%nat = Some v
        ∧ (vout_width v, vout_height v) = (1920, 1080)
        ∧ vout_framebuffer_id v = 42
        ∧ published_fb_id w_xr0 2 = Some (PropInteger 42))
  ∧ (let r := drmmode_xr_resize_virtual_output E_ok w_xr0 (Some 0%nat) 3840 2160 60 in
     r.1 = true
     ∧ ∃ v', xr_virtual_outputs r.2 !! 0%nat = Some v'
             ∧ (vout_width v', vout_height v') = (3840, 2160)
             ∧ vout_framebuffer_id v' = 42
             ∧ published_fb_id r.2 2 = Some (PropInteger 42))
  ∧ (let r := drmmode_xr_virtual_set_property E_ok w_xr0 1 (Some XR_WIDTH_PROPERTY)
                (int32_value 3840) in
     r.1 = true
     ∧ ∃ v', xr_virtual_outputs r.2 !! 0%nat = Some v'
             ∧ (vout_width v', vout_height v') = (3840, 1080)
             ∧ vout_framebuffer_id v' = 42
             ∧ published_fb_id r.2 2 = Some (PropInteger 42)).
Proof.
  split; [eexists; split; [by vm_compute | by vm_compute] |].
  split; (split; [by vm_compute |]); eexists; (split; [by vm_compute | by vm_compute]).
Qed.

(** C2, as the code has it.  A resize of a record to any width, height and
    refresh rate, in particular to a size other than the current one,
    succeeds and stores the three numbers; it leaves the buffer object,
    the framebuffer identifier and the pixmap of the record and the value
    of FRAMEBUFFER_ID as they were, and calls nothing of the framebuffer:
    the identifier after the resize is the identifier before it. *)
Theorem resize_keeps_framebuffer E w i v output ro width height refresh :
  xr_virtual_outputs w !! i = Some v →
  vout_output v = Some output → vout_randr_output v = Some ro →
  (width, height) ≠ (vout_width v, vout_height v) →
  let r := drmmode_xr_resize_virtual_output E w (Some i) width height refresh in
  r.1 = true
  ∧ ∃ v', xr_virtual_outputs r.2 !! i = Some v'
          ∧ (vout_width v', vout_height v', vout_refresh v') = (width, height, refresh)
          ∧ vout_framebuffer_id v' = vout_framebuffer_id v
          ∧ vout_framebuffer_bo v' = vout_framebuffer_bo v
          ∧ vout_pixmap v' = vout_pixmap v
          ∧ published_fb_id r.2 ro = published_fb_id w ro
          ∧ ∃ evs, emits w r.2 evs ∧ Forall (λ e, is_framebuffer_event e = false) evs.
Proof.
  intros Hi Ho Hro _ r.
  destruct (resize_spec E w i v output ro width height refresh Hi Ho Hro)
    as (Hr & Hl & T & P & _).
  split; [exact Hr |]. exists (set_dimensions width height refresh v).
  split.
  { fold r in Hl. rewrite Hl. apply list_lookup_insert_eq. by eapply lookup_lt_Some. }
  split; [done |]. split; [done |]. split; [done |]. split; [done |].
  split; [apply P |]. eexists. split; [exact T |]. by repeat constructor.
Qed.

Lemma resize_keeps_framebuffer_witness :
  xr_virtual_outputs w_xr0 !! 0%nat
  = Some xr0_record
  ∧ (3840, 2160) ≠ (1920, 1080)
  ∧ (drmmode_xr_resize_virtual_output E_ok w_xr0 (Some 0%nat) 3840 2160 60).1 = true
  ∧ ∃ v', xr_virtual_outputs
            (drmmode_xr_resize_virtual_output E_ok w_xr0 (Some 0%nat) 3840 2160 60).2
            !! 0%nat = Some v'
          ∧ vout_framebuffer_id v' = 42.
Proof.
  assert (xr_virtual_outputs w_xr0 !! 0%nat
          = Some xr0_record)
    as Hi by (vm_compute; reflexivity).
  assert ((3840, 2160) ≠ (1920, 1080)) as Hne by (intros [=]).
  split; [exact Hi |]. split; [exact Hne |].
  destruct (resize_keeps_framebuffer E_ok w_xr0 0%nat _ 1 2 3840 2160 60
              Hi eq_refl eq_refl Hne)
    as (Hr & v' & Hv' & _ & Hfb & _).
  split; [exact Hr |]. exists v'. split; [exact Hv' | exact Hfb].
Defined.

(** ** Mode-set on a virtual CRTC *)

Lemma crtcs_ensure_fb_id_property E w ro fb :
  crtcs (drmmode_xr_virtual_ensure_fb_id_property E w ro fb).2 = crtcs w.
Proof.
  unfold drmmode_xr_virtual_ensure_fb_id_property, RRConfigureOutputProperty,
    RRChangeOutputProperty.
  by repeat case_match.
Qed.

Lemma crtcs_destroy_offscreen_framebuffer E w v :
  crtcs (drmmode_xr_destroy_offscreen_framebuffer E w v).1 = crtcs w.
Proof.
  unfold drmmode_xr_destroy_offscreen_framebuffer, drmmode_bo_destroy.
  destruct (vout_pixmap v) as [p|] eqn:Hp; destruct (pScreen w) eqn:Hs;
    destruct (vout_framebuffer_id v =? 0) eqn:Hfb;
    destruct (bo_dumb (vout_framebuffer_bo v)) eqn:Hd;
    destruct (bo_gbm (vout_framebuffer_bo v)) eqn:Hg;
    simpl; rewrite ?Hfb; simpl; rewrite ?Hd, ?Hg; simpl; reflexivity.
Qed.

Lemma crtcs_create_offscreen_framebuffer E w v width height :
  crtcs (drmmode_xr_create_offscreen_framebuffer E w v width height).1.2 = crtcs w.
Proof.
  unfold drmmode_xr_create_offscreen_framebuffer, fb_bo_created, fb_dumb_pixmap,
    fb_unwind, fb_pixmap_created, drmmode_bo_destroy.
  destruct (x_drmmode_bo_import E) as [ret fb].
  repeat case_match; simpl; rewrite ?crtcs_ensure_fb_id_property; reflexivity.
Qed.

Lemma set_mode_major_unfold E w crtc m rotation x y :
  drmmode_xr_virtual_crtc_set_mode_major E w crtc (Some m) rotation x y
  = let w1 :=
      match drmmode_xr_find_virtual_output_by_crtc w crtc with
      | Some (i, vout) =>
          if negb (vout_width vout =? HDisplay m) || negb (vout_height vout =? VDisplay m)
          then mode_set_resize E w i vout (HDisplay m) (VDisplay m)
          else w
      | None => w
      end in
    (true, set_crtcs (alter (crtc_set_mode m x y rotation) crtc (crtcs w1)) w1).
Proof.
  unfold drmmode_xr_virtual_crtc_set_mode_major, mode_set_resize. cbv zeta.
  destruct (drmmode_xr_find_virtual_output_by_crtc w crtc) as [[i vout]|]; [| done].
  destruct (negb _ || negb _); [| done].
  destruct (drmmode_xr_destroy_offscreen_framebuffer E w vout) as [w1 v1].
  cbn [fst snd].
  destruct (drmmode_xr_create_offscreen_framebuffer E w1 v1 (HDisplay m) (VDisplay m))
    as [[ok w2] v2].
  cbn [fst snd]. by destruct ok.
Qed.

Lemma mode_set_resize_spec E w i vout new_width new_height :
  xr_virtual_outputs w !! i = Some vout →
  let d := drmmode_xr_destroy_offscreen_framebuffer E w vout in
  let a := drmmode_xr_create_offscreen_framebuffer E d.1 d.2 new_width new_height in
  let w' := mode_set_resize E w i vout new_width new_height in
  crtcs w' = crtcs w
  ∧ (∃ evs_d evs_a,
       emits w d.1 evs_d ∧ Forall (λ e, is_framebuffer_teardown e = true) evs_d
       ∧ emits d.1 a.1.2 evs_a ∧ Forall (λ e, is_framebuffer_event e = true) evs_a
       ∧ emits w w' (evs_d ++ evs_a))
  ∧ vout_framebuffer_id d.2 = 0 ∧ vout_framebuffer_bo d.2 = bo_zero
  ∧ (a.1.1 = true →
     ∃ v', xr_virtual_outputs w' !! i = Some v'
           ∧ (vout_width v', vout_height v') = (new_width, new_height)
           ∧ has_framebuffer new_width new_height (x_drmmode_bo_import E).2 v')
  ∧ (a.1.1 = false →
     ∃ v', xr_virtual_outputs w' !! i = Some v'
           ∧ (vout_width v', vout_height v') = (vout_width vout, vout_height vout)
           ∧ vout_pixmap v' = None).
Proof.
  intros Hi d a w'.
  destruct (destroy_offscreen_framebuffer_spec E w vout)
    as ((Kd & evs_d & Td & Fd) & Id & Hfb0 & Hbo0 & _).
  fold d in Kd, Td, Id, Hfb0, Hbo0.
  pose proof (crtcs_destroy_offscreen_framebuffer E w vout) as Cd. fold d in Cd.
  destruct (create_offscreen_framebuffer_spec E d.1 d.2 new_width new_height)
    as ((Ka & evs_a & Ta & Fa) & Ia & Sa).
  fold a in Ka, Ta, Ia, Sa.
  pose proof (crtcs_create_offscreen_framebuffer E d.1 d.2 new_width new_height) as Ca.
  fold a in Ca.
  pose proof (create_offscreen_framebuffer_failure E d.1 d.2 new_width new_height) as Fl.
  cbv zeta in Fl. fold a in Fl.
  assert (i < length (xr_virtual_outputs a.1.2))%nat as Hlen.
  { destruct Ka as (-> & _), Kd as (-> & _). by eapply lookup_lt_Some. }
  assert (identity a.2 = identity vout) as I by (by rewrite Ia).
  subst w'. unfold mode_set_resize. cbv zeta. fold d. fold a. clearbody a. clearbody d.
  destruct (a.1.1) eqn:Hok.
  - set (w2 := match vout_randr_output a.2 with
               | Some ro => (drmmode_xr_virtual_ensure_fb_id_property E a.1.2 ro
                               (vout_framebuffer_id a.2)).2
               | None => a.1.2
               end).
    assert (silent a.1.2 w2) as [K2 T2].
    { subst w2. destruct (vout_randr_output a.2);
        [apply silent_ensure_fb_id_property | apply silent_refl]. }
    assert (crtcs w2 = crtcs a.1.2) as C2.
    { subst w2. destruct (vout_randr_output a.2);
        [apply crtcs_ensure_fb_id_property | done]. }
    clearbody w2. simpl.
    split; [by rewrite C2, Ca, Cd |]. split.
    { exists evs_d, evs_a. repeat split; try done.
      unfold emits in *. simpl. rewrite T2, Ta, Td. by rewrite app_nil_r, app_assoc. }
    split; [done |]. split; [done |]. split; [| done].
    intros _. eexists. split.
    { apply list_lookup_insert_eq. by destruct K2 as (-> & _). }
    split; [done |].
    destruct (Sa eq_refl) as (w0 & pixmap & bo & _ & _ & Hw & Hh & Hbo & Hr).
    destruct (fb_pixmap_created_spec E w0
                (set_framebuffer bo (x_drmmode_bo_import E).2 None d.2) pixmap)
      as (_ & _ & Hv & _).
    rewrite Hr, Hv. by repeat split.
  - simpl. split; [by rewrite Ca, Cd |]. split.
    { exists evs_d, evs_a. repeat split; try done.
      unfold emits in *. simpl. rewrite Ta, Td. by rewrite app_assoc. }
    split; [done |]. split; [done |]. split; [done |].
    intros _. exists a.2. split; [by apply list_lookup_insert_eq |].
    split; [| by apply Fl].
    by injection I as _ _ _ _ -> -> _ _.
Qed.

(** ** The names through the other entry points *)

Lemma names_insert_same w w' i v v' :
  xr_virtual_outputs w !! i = Some v → vout_name v' = vout_name v →
  xr_virtual_outputs w' = <[i := v']> (xr_virtual_outputs w) →
  registered_names w' = registered_names w.
Proof.
  intros Hi Hn Hl. unfold registered_names. rewrite Hl.
  by apply (omap_insert_same vout_name _ i v v').
Qed.

Lemma resize_names E w vout width height refresh :
  registered_names (drmmode_xr_resize_virtual_output E w vout width height refresh).2
  = registered_names w.
Proof.
  destruct vout as [i|]; [| done].
  destruct (xr_virtual_outputs w !! i) as [v|] eqn:Hi.
  2:{ unfold drmmode_xr_resize_virtual_output. simpl. by rewrite Hi. }
  destruct (vout_output v) as [output|] eqn:Ho.
  2:{ unfold drmmode_xr_resize_virtual_output. simpl. rewrite Hi. simpl. by rewrite Ho. }
  destruct (vout_randr_output v) as [ro|] eqn:Hro.
  2:{ unfold drmmode_xr_resize_virtual_output. simpl. rewrite Hi. simpl.
      by rewrite Ho, Hro. }
  destruct (resize_spec E w i v output ro width height refresh Hi Ho Hro)
    as (_ & Hl & _).
  cbv zeta in Hl.
  exact (names_insert_same w _ i v (set_dimensions width height refresh v) Hi eq_refl Hl).
Qed.

Lemma virtual_set_property_names E w output prop_name value :
  registered_names (drmmode_xr_virtual_set_property E w output prop_name value).2
  = registered_names w.
Proof.
  unfold drmmode_xr_virtual_set_property.
  destruct prop_name as [prop_name|]; [| done].
  destruct (find_by_output w output) as [[i vout]|] eqn:Hfind; [| done].
  apply list_find_Some in Hfind as (Hi & _).
  destruct (negb (is_int32_single value)); [done |].
  destruct (String.eqb prop_name XR_MODES_PROPERTY).
  { destruct (negb (is_string8 value)); [done |].
    destruct (negb (x_strndup E)); [done |]. cbn [snd].
    match goal with |- registered_names (drmmode_xr_virtual_set_modes E ?w1 _ _ _ _) = _ =>
      rewrite (names_keeps w1) by apply silent_set_modes end.
    eapply names_insert_same; [exact Hi | | reflexivity]. done. }
  cbv zeta.
  repeat (case_match; try done); apply resize_names.
Qed.

Lemma mode_set_resize_names E w i vout new_width new_height :
  xr_virtual_outputs w !! i = Some vout →
  registered_names (mode_set_resize E w i vout new_width new_height)
  = registered_names w.
Proof.
  intros Hi.
  destruct (destroy_offscreen_framebuffer_spec E w vout) as ((Kd & _) & Id & _).
  destruct (create_offscreen_framebuffer_spec E
              (drmmode_xr_destroy_offscreen_framebuffer E w vout).1
              (drmmode_xr_destroy_offscreen_framebuffer E w vout).2
              new_width new_height) as ((Ka & _) & Ia & _).
  unfold mode_set_resize. cbv zeta.
  set (d := drmmode_xr_destroy_offscreen_framebuffer E w vout) in *.
  set (a := drmmode_xr_create_offscreen_framebuffer E d.1 d.2 new_width new_height) in *.
  assert (vout_name a.2 = vout_name vout) as Hn.
  { apply identity_name. by rewrite Ia. }
  clearbody a. clearbody d.
  destruct (a.1.1).
  - set (w2 := match vout_randr_output a.2 with
               | Some ro => (drmmode_xr_virtual_ensure_fb_id_property E a.1.2 ro
                               (vout_framebuffer_id a.2)).2
               | None => a.1.2
               end).
    assert (silent a.1.2 w2) as [K2 _].
    { subst w2. destruct (vout_randr_output a.2);
        [apply silent_ensure_fb_id_property | apply silent_refl]. }
    clearbody w2.
    eapply (names_insert_same w _ i vout); [exact Hi | | simpl].
    2:{ destruct K2 as (-> & _), Ka as (-> & _), Kd as (-> & _). reflexivity. }
    done.
  - eapply (names_insert_same w _ i vout); [exact Hi | exact Hn | simpl].
    destruct Ka as (-> & _), Kd as (-> & _). reflexivity.
Qed.

Lemma set_mode_major_names E w crtc mode rotation x y :
  registered_names (drmmode_xr_virtual_crtc_set_mode_major E w crtc mode rotation x y).2
  = registered_names w.
Proof.
  destruct mode as [m|]; [| done].
  rewrite set_mode_major_unfold. cbv zeta. cbn [snd].
  rewrite (names_keeps _ _ (proj1 (silent_set_crtcs _ _))).
  destruct (drmmode_xr_find_virtual_output_by_crtc w crtc) as [[i vout]|] eqn:Hfind;
    [| done].
  destruct (negb _ || negb _); [| done].
  apply list_find_Some in Hfind as (Hi & _).
  by apply mode_set_resize_names.
Qed.

(** Names are unique in every world the driver reaches. *)
Lemma reachable_names_unique w : reachable w → NoDup (registered_names w).
Proof.
  induction 1 as [w Hw | E w q _ IH].
  - unfold registered_names. rewrite Hw. constructor.
  - destruct q as [prop_name value | output prop_name value | crtc mode rotation x y
                   | crtc mode | output]; simpl.
    + by apply manager_set_property_names.
    + by rewrite virtual_set_property_names.
    + by rewrite set_mode_major_names.
    + exact IH.
    + eapply names_sublist; [apply shrinks_output_destroy_hook | exact IH].
Qed.

(** C6.  In every world the driver reaches the names of the records are
    pairwise different.  A creation under a name that is registered
    returns [NULL] and the world it returns is the world it was given, so
    the width, height, refresh rate and framebuffer of the existing output
    and the value of its FRAMEBUFFER_ID property are what they were; the
    CREATE_XR_OUTPUT command with that name returns [FALSE] in the same
    way. *)
Theorem duplicate_name_rejected w :
  reachable w →
  NoDup (registered_names w)
  ∧ ∀ E name width height refresh,
      name ∈ registered_names w →
      drmmode_xr_create_virtual_output E w name width height refresh = (None, w)
      ∧ ∀ value,
          is_string8 value = true → x_strndup E = true →
          parse_create_command (CStr.strndup (v_data value) (v_size value))
          = (name, width, height, refresh) →
          drmmode_xr_manager_set_property E w (Some CREATE_XR_OUTPUT_PROPERTY) value
          = (false, w).
Proof.
  intros Hreach. split; [by apply reachable_names_unique |].
  intros E name width height refresh Hin%find_registered.
  pose proof (create_duplicate E w name width height refresh Hin) as Hdup.
  split; [exact Hdup |].
  intros value Hstr Hndup Hparse. unfold drmmode_xr_manager_set_property.
  rewrite Hstr, Hndup, Hparse. simpl.
  destruct name; [done |]. by rewrite Hdup.
Qed.

Lemma w_xr0_reachable : reachable w_xr0.
Proof.
  assert (w_xr0 = serve E_ok w_init
                    (Manager_set_property (Some CREATE_XR_OUTPUT_PROPERTY)
                       (string_value "XR-0:1920:1080:60"))) as ->
    by (vm_compute; reflexivity).
  apply reachable_serve, reachable_init. reflexivity.
Defined.

Lemma duplicate_name_rejected_witness :
  reachable w_xr0
  ∧ NoDup (registered_names w_xr0)
  ∧ "XR-0" ∈ registered_names w_xr0
  ∧ drmmode_xr_create_virtual_output E_ok w_xr0 "XR-0" 3840 2160 60 = (None, w_xr0)
  ∧ drmmode_xr_manager_set_property E_ok w_xr0 (Some CREATE_XR_OUTPUT_PROPERTY)
      (string_value "XR-0:3840:2160:60") = (false, w_xr0).
Proof.
  destruct (duplicate_name_rejected w_xr0 w_xr0_reachable) as [ND H].
  assert ("XR-0" ∈ registered_names w_xr0) as Hin by (vm_compute; left).
  destruct (H E_ok "XR-0" 3840 2160 60 Hin) as [Hc Hm].
  split; [exact w_xr0_reachable |]. split; [exact ND |]. split; [exact Hin |].
  split; [exact Hc |]. apply Hm; reflexivity.
Defined.

(** ** C10: a CREATE_XR_OUTPUT command with a name only *)

Lemma parse_create_name_only command :
  CStr.strchr_split ":"%char command = None →
  parse_create_command command = (command, 1920, 1080, 60).
Proof. intros H. unfold parse_create_command. by rewrite H. Qed.

(** A creation whose five steps succeed adds the record at the head of the
    list, with the name, the three dimensions and the handles it was given. *)
Lemma create_success E w name width height refresh :
  drmmode_xr_find_virtual_output w name = None →
  first_failure E = None →
  ∃ v w',
    drmmode_xr_create_virtual_output E w name width height refresh = (Some v, w')
    ∧ xr_virtual_outputs w' = v :: xr_virtual_outputs w
    ∧ vout_name v = (if x_strdup E then Some name else None)
    ∧ (vout_width v, vout_height v, vout_refresh v) = (width, height, refresh)
    ∧ (vout_output v, vout_crtc v, vout_randr_output v)
      = (x_xf86OutputCreate E, x_xf86CrtcCreate E, x_RROutputCreate E).
Proof.
  intros Hfind Hok.
  pose proof (create_outcome E w name width height refresh Hfind) as H.
  cbv zeta in H. rewrite Hok in H.
  destruct H as (output & crtc & ro & w0 & Ho & Hc & Hro & K & ->).
  destruct (create_offscreen_framebuffer_spec E w0
              (record_before_framebuffer E name width height refresh output crtc ro)
              width height) as ((K' & _) & I & _).
  eexists _, _. split; [reflexivity |]. simpl.
  split; [by destruct K' as (-> & _), K as (-> & _) |].
  injection I as -> -> -> -> -> -> -> _. simpl. by rewrite Ho, Hc, Hro.
Qed.

(** C10.  A CREATE_XR_OUTPUT value that holds a non-empty name without a
    colon, the name not being registered and the five steps of the creation
    succeeding, makes the handler return [TRUE] and puts a record at the
    head of the list that has this name and is 1920 wide, 1080 high, at
    60 Hz; the name is found from then on. *)
Theorem create_name_only_uses_defaults E w value name :
  is_string8 value = true → x_strndup E = true →
  CStr.strndup (v_data value) (v_size value) = name →
  CStr.strchr_split ":"%char name = None →
  name ≠ "" →
  drmmode_xr_find_virtual_output w name = None →
  first_failure E = None → x_strdup E = true →
  ∃ v w',
    drmmode_xr_manager_set_property E w (Some CREATE_XR_OUTPUT_PROPERTY) value
    = (true, w')
    ∧ xr_virtual_outputs w' = v :: xr_virtual_outputs w
    ∧ vout_name v = Some name
    ∧ (vout_width v, vout_height v, vout_refresh v) = (1920, 1080, 60)
    ∧ drmmode_xr_find_virtual_output w' name = Some (0%nat, v).
Proof.
  intros Hstr Hndup Hcmd Hcolon Hne Hfind Hok Hdup.
  destruct (create_success E w name 1920 1080 60 Hfind Hok)
    as (v & w' & Hcreate & Hl & Hn & Hdim & _).
  rewrite Hdup in Hn.
  exists v, w'. unfold drmmode_xr_manager_set_property.
  rewrite Hstr, Hndup, Hcmd, (parse_create_name_only name Hcolon). simpl.
  destruct name as [| c name]; [done |]. rewrite Hcreate.
  split; [done |]. split; [exact Hl |]. split; [exact Hn |]. split; [exact Hdim |].
  unfold drmmode_xr_find_virtual_output. rewrite Hl. simpl.
  by rewrite decide_True.
Qed.

Lemma create_name_only_uses_defaults_witness :
  ∃ v w',
    drmmode_xr_manager_set_property E_ok w_init (Some CREATE_XR_OUTPUT_PROPERTY)
      (string_value "XR-0") = (true, w')
    ∧ xr_virtual_outputs w' = v :: xr_virtual_outputs w_init
    ∧ vout_name v = Some "XR-0"
    ∧ (vout_width v, vout_height v, vout_refresh v) = (1920, 1080, 60)
    ∧ drmmode_xr_find_virtual_output w' "XR-0" = Some (0%nat, v).
Proof.
  apply (create_name_only_uses_defaults E_ok w_init (string_value "XR-0") "XR-0");
    try reflexivity.
  discriminate.
Defined.

(** ** C3: the bounds on a creation *)

(** The handler of a virtual output checks the bounds before it resizes. *)
Lemma set_property_validates E w output i v value :
  find_by_output w output = Some (i, v) →
  is_int32_single value = true →
  in_bounds (CStr.read_INT32 (v_data value)) (vout_height v) (vout_refresh v) = false →
  drmmode_xr_virtual_set_property E w output (Some XR_WIDTH_PROPERTY) value = (false, w).
Proof.
  intros Hfind Hint Hb. unfold drmmode_xr_virtual_set_property.
  rewrite Hfind, Hint. simpl. by rewrite Hb.
Qed.

(** C3, the code at the failing input.  The command "XR-0:10:10:5000" asks
    for a width and a height below 64 and a refresh rate above 1000.
    Neither the handler of XR-Manager nor the creation looks at the
    bounds: the handler returns [TRUE] and the list holds a record of
    10x10 at 5000 Hz.  The handler of a virtual output refuses the same
    width for an output that exists. *)
Theorem create_out_of_bounds_accepted :
  in_bounds 10 10 5000 = false
  ∧ parse_create_command "XR-0:10:10:5000" = ("XR-0", 10, 10, 5000)
  ∧ (∃ v w',
       drmmode_xr_manager_set_property E_ok w_init (Some CREATE_XR_OUTPUT_PROPERTY)
         (string_value "XR-0:10:10:5000") = (true, w')
       ∧ xr_virtual_outputs w' = [v]
       ∧ vout_name v = Some "XR-0"
       ∧ (vout_width v, vout_height v, vout_refresh v) = (10, 10, 5000))
  ∧ drmmode_xr_virtual_set_property E_ok w_xr0 1 (Some XR_WIDTH_PROPERTY) (int32_value 10)
    = (false, w_xr0).
Proof.
  split; [reflexivity |]. split; [reflexivity |]. split.
  - eexists _, _. split; [vm_compute; reflexivity |]. by vm_compute.
  - apply (set_property_validates E_ok w_xr0 1 0%nat xr0_record); by vm_compute.
Qed.

(** No bound enters the creation: whatever the three numbers are, a
    creation whose calls succeed stores them. *)
Lemma create_ignores_bounds E w name width height refresh :
  drmmode_xr_find_virtual_output w name = None →
  first_failure E = None →
  ∃ v w',
    drmmode_xr_create_virtual_output E w name width height refresh = (Some v, w')
    ∧ (vout_width v, vout_height v, vout_refresh v) = (width, height, refresh).
Proof.
  intros Hfind Hok.
  destruct (create_success E w name width height refresh Hfind Hok)
    as (v & w' & Hc & _ & _ & Hd & _).
  by exists v, w'.
Qed.

(** ** What the property handler of a virtual output accepts *)

Lemma is_int32_single_not_string8 value :
  is_int32_single value = true → is_string8 value = false.
Proof. unfold is_int32_single, is_string8. by destruct (v_type value). Qed.

Lemma resize_incomplete E w i v width height refresh :
  xr_virtual_outputs w !! i = Some v →
  vout_output v = None ∨ vout_randr_output v = None →
  drmmode_xr_resize_virtual_output E w (Some i) width height refresh = (false, w).
Proof.
  intros Hi Hnone. unfold drmmode_xr_resize_virtual_output. simpl. rewrite Hi. simpl.
  destruct Hnone as [-> | Hro]; [done |]. rewrite Hro. by destruct (vout_output v).
Qed.

(** The handler either refuses and returns the world it was given, or
    gives one record new dimensions that are within the bounds. *)
Lemma virtual_set_property_cases E w output prop_name value :
  let r := drmmode_xr_virtual_set_property E w output prop_name value in
  r = (false, w)
  ∨ ∃ i v width height refresh,
      find_by_output w output = Some (i, v)
      ∧ r.1 = true
      ∧ in_bounds width height refresh = true
      ∧ xr_virtual_outputs r.2
        = <[i := set_dimensions width height refresh v]> (xr_virtual_outputs w).
Proof.
  unfold drmmode_xr_virtual_set_property.
  destruct prop_name as [prop_name|]; [| by left].
  destruct (find_by_output w output) as [[i vout]|] eqn:Hfind; [| by left].
  pose proof Hfind as (Hi & Ho & _)%list_find_Some.
  destruct (is_int32_single value) eqn:Hint; [| by left]. cbn [negb].
  destruct (String.eqb prop_name XR_MODES_PROPERTY).
  { rewrite (is_int32_single_not_string8 _ Hint). by left. }
  cbv zeta.
  assert (∀ width height refresh,
            in_bounds width height refresh = true →
            let r := drmmode_xr_resize_virtual_output E w (Some i) width height refresh in
            r = (false, w)
            ∨ ∃ i0 v0 width0 height0 refresh0,
                Some (i, vout) = Some (i0, v0) ∧ r.1 = true
                ∧ in_bounds width0 height0 refresh0 = true
                ∧ xr_virtual_outputs r.2
                  = <[i0 := set_dimensions width0 height0 refresh0 v0]>
                      (xr_virtual_outputs w)) as Hresize.
  { intros width height refresh Hb. cbv zeta.
    destruct (vout_randr_output vout) as [ro|] eqn:Hro.
    2:{ left. apply (resize_incomplete E w i vout); [done | by right]. }
    destruct (resize_spec E w i vout output ro width height refresh Hi Ho Hro)
      as (Ht & Hl & _).
    right. by exists i, vout, width, height, refresh. }
  destruct (String.eqb prop_name XR_WIDTH_PROPERTY).
  { destruct (in_bounds _ _ _) eqn:Hb; [by apply Hresize | by left]. }
  destruct (String.eqb prop_name XR_HEIGHT_PROPERTY).
  { destruct (in_bounds _ _ _) eqn:Hb; [by apply Hresize | by left]. }
  destruct (String.eqb prop_name XR_REFRESH_PROPERTY); [| by left].
  destruct (in_bounds _ _ _) eqn:Hb; [by apply Hresize | by left].
Qed.

(** A write to XR_MODES is never handled.  The handler first requires one
    32-bit INTEGER item for every property; the XR_MODES branch then
    requires a STRING of format 8, which such a value never is.  The
    handler returns [FALSE] and the world it was given: no mode list is
    freed, parsed or installed. *)
Theorem xr_modes_write_never_handled E w output value :
  drmmode_xr_virtual_set_property E w output (Some XR_MODES_PROPERTY) value = (false, w).
Proof.
  unfold drmmode_xr_virtual_set_property.
  destruct (find_by_output w output) as [[i vout]|]; [| done].
  destruct (is_int32_single value) eqn:Hint; [| done]. simpl.
  by rewrite (is_int32_single_not_string8 _ Hint).
Qed.

(** A property write on a virtual output is all or nothing.  Either the
    handler returns [FALSE] and nothing at all has changed, or it returns
    [TRUE] and exactly the record of that output has changed: its width,
    height and refresh rate are within [64,16384] and [1,1000], and its
    output, CRTC, RandR output, name, mode list and framebuffer are what
    they were. *)
Theorem virtual_set_property_all_or_nothing E w output prop_name value :
  let r := drmmode_xr_virtual_set_property E w output prop_name value in
  r = (false, w)
  ∨ ∃ i v v',
      find_by_output w output = Some (i, v)
      ∧ r.1 = true
      ∧ xr_virtual_outputs r.2 = <[i := v']> (xr_virtual_outputs w)
      ∧ in_bounds (vout_width v') (vout_height v') (vout_refresh v') = true
      ∧ (vout_output v', vout_crtc v', vout_randr_output v', vout_name v', vout_modes v')
        = (vout_output v, vout_crtc v, vout_randr_output v, vout_name v, vout_modes v)
      ∧ (vout_framebuffer_bo v', vout_framebuffer_id v', vout_pixmap v')
        = (vout_framebuffer_bo v, vout_framebuffer_id v, vout_pixmap v).
Proof.
  destruct (virtual_set_property_cases E w output prop_name value)
    as [Hno | (i & v & width & height & refresh & Hfind & Ht & Hb & Hl)].
  - by left.
  - right. exists i, v, (set_dimensions width height refresh v). by repeat split.
Qed.

(** An output whose width and height are both outside [64,16384] cannot be
    resized: whatever property is written with whatever value, one of the
    two stored dimensions enters the check as it is, the handler returns
    [FALSE] and nothing changes. *)
Theorem out_of_range_output_cannot_be_resized E w output i v prop_name value :
  find_by_output w output = Some (i, v) →
  out_of_range (vout_width v) → out_of_range (vout_height v) →
  drmmode_xr_virtual_set_property E w output prop_name value = (false, w).
Proof.
  intros Hfind Hw Hh.
  assert (∀ a b c, out_of_range a ∨ out_of_range b → in_bounds a b c = false) as Hout.
  { intros a b c H. unfold in_bounds, out_of_range in *.
    apply not_true_is_false. intros Hb.
    repeat (apply andb_true_iff in Hb as [Hb ?]). lia. }
  unfold drmmode_xr_virtual_set_property.
  destruct prop_name as [prop_name|]; [| done].
  rewrite Hfind.
  destruct (is_int32_single value) eqn:Hint; [| done]. cbn [negb].
  destruct (String.eqb prop_name XR_MODES_PROPERTY).
  { by rewrite (is_int32_single_not_string8 _ Hint). }
  cbv zeta.
  rewrite !Hout by (by left + by right).
  cbn [negb]. by repeat case_match.
Qed.

Lemma out_of_range_output_cannot_be_resized_witness :
  drmmode_xr_virtual_set_property E_ok w_tiny 1 (Some XR_WIDTH_PROPERTY)
    (int32_value 1920) = (false, w_tiny).
Proof.
  eapply (out_of_range_output_cannot_be_resized E_ok w_tiny 1 0%nat).
  - vm_compute. reflexivity.
  - left. reflexivity.
  - left. reflexivity.
Defined.

(** ** Invariants of the records in the list *)

Lemma sublist_Forall {A} (P : A → Prop) (l1 l2 : list A) :
  l1 `sublist_of` l2 → Forall P l2 → Forall P l1.
Proof.
  induction 1 as [| x l1 l2 _ IH | x l1 l2 _ IH]; intros H.
  - constructor.
  - apply Forall_cons in H as [Hx H]. constructor; [done | by apply IH].
  - apply Forall_cons in H as [_ H]. by apply IH.
Qed.

Lemma Forall_shrinks (P : xr_virtual_output_rec → Prop) w w' :
  shrinks w w' → Forall P (xr_virtual_outputs w) → Forall P (xr_virtual_outputs w').
Proof. unfold shrinks. apply sublist_Forall. Qed.

Section RecordInvariant.

Variable P : xr_virtual_output_rec → Prop.

(** [P] does not look at the framebuffer of a record, *)
Hypothesis P_identity : ∀ v v', identity v' = identity v → P v → P v'.

(** nor at its dimensions, *)
Hypothesis P_dimensions :
  ∀ v width height refresh, P v → P (set_dimensions width height refresh v).

(** and holds of a record as the creation fills it in. *)
Hypothesis P_new :
  ∀ E name width height refresh output crtc ro,
    P (record_before_framebuffer E name width height refresh output crtc ro).

Lemma invariant_create E w name width height refresh :
  Forall P (xr_virtual_outputs w) →
  Forall P (xr_virtual_outputs
              (drmmode_xr_create_virtual_output E w name width height refresh).2).
Proof.
  intros HP.
  destruct (drmmode_xr_find_virtual_output w name) as [iv|] eqn:Hfind.
  { by rewrite create_duplicate. }
  pose proof (create_outcome E w name width height refresh Hfind) as H.
  cbv zeta in H. destruct (first_failure E).
  - destruct H as (_ & Sub & _). by eapply sublist_Forall.
  - destruct H as (output & crtc & ro & w0 & _ & _ & _ & K & ->).
    destruct (create_offscreen_framebuffer_spec E w0
                (record_before_framebuffer E name width height refresh output crtc ro)
                width height) as ((K' & _) & I & _).
    simpl. destruct K' as (-> & _), K as (-> & _).
    constructor; [| exact HP].
    eapply P_identity; [exact I | apply P_new].
Qed.

Lemma invariant_manager_set_property E w prop_name value :
  Forall P (xr_virtual_outputs w) →
  Forall P (xr_virtual_outputs
              (drmmode_xr_manager_set_property E w prop_name value).2).
Proof.
  intros HP. unfold drmmode_xr_manager_set_property.
  destruct prop_name as [prop_name|]; [| exact HP].
  destruct (negb _ && negb _); [exact HP |].
  destruct (negb (is_string8 value)); [exact HP |].
  destruct (negb (x_strndup E)); [exact HP |].
  destruct (String.eqb prop_name CREATE_XR_OUTPUT_PROPERTY).
  - destruct (parse_create_command _) as [[[name width] height] refresh].
    destruct name as [| c name]; [exact HP |].
    pose proof (invariant_create E w (String c name) width height refresh HP) as H.
    by destruct (drmmode_xr_create_virtual_output E w (String c name) width height
                   refresh) as [[v|] w'].
  - destruct (String.eqb prop_name DELETE_XR_OUTPUT_PROPERTY); [| exact HP].
    eapply Forall_shrinks; [apply delete_shrinks | exact HP].
Qed.

Lemma invariant_virtual_set_property E w output prop_name value :
  Forall P (xr_virtual_outputs w) →
  Forall P (xr_virtual_outputs
              (drmmode_xr_virtual_set_property E w output prop_name value).2).
Proof.
  intros HP.
  destruct (virtual_set_property_cases E w output prop_name value)
    as [-> | (i & v & width & height & refresh & Hfind & _ & _ & ->)]; [exact HP |].
  apply list_find_Some in Hfind as (Hi & _).
  apply Forall_insert; [exact HP |].
  apply P_dimensions. by eapply (Forall_lookup_1 P).
Qed.

Lemma invariant_mode_set_resize E w i vout new_width new_height :
  xr_virtual_outputs w !! i = Some vout →
  Forall P (xr_virtual_outputs w) →
  Forall P (xr_virtual_outputs (mode_set_resize E w i vout new_width new_height)).
Proof.
  intros Hi HP.
  assert (P vout) as Hv by (by eapply (Forall_lookup_1 P)).
  destruct (destroy_offscreen_framebuffer_spec E w vout) as ((Kd & _) & Id & _).
  destruct (create_offscreen_framebuffer_spec E
              (drmmode_xr_destroy_offscreen_framebuffer E w vout).1
              (drmmode_xr_destroy_offscreen_framebuffer E w vout).2
              new_width new_height) as ((Ka & _) & Ia & _).
  unfold mode_set_resize. cbv zeta.
  set (d := drmmode_xr_destroy_offscreen_framebuffer E w vout) in *.
  set (a := drmmode_xr_create_offscreen_framebuffer E d.1 d.2 new_width new_height) in *.
  assert (P a.2) as Ha.
  { eapply P_identity; [exact Ia |]. eapply P_identity; [exact Id | exact Hv]. }
  clearbody a. clearbody d.
  destruct (a.1.1).
  - set (w2 := match vout_randr_output a.2 with
               | Some ro => (drmmode_xr_virtual_ensure_fb_id_property E a.1.2 ro
                               (vout_framebuffer_id a.2)).2
               | None => a.1.2
               end).
    assert (silent a.1.2 w2) as [K2 _].
    { subst w2. destruct (vout_randr_output a.2);
        [apply silent_ensure_fb_id_property | apply silent_refl]. }
    clearbody w2. simpl.
    destruct K2 as (-> & _), Ka as (-> & _), Kd as (-> & _).
    apply Forall_insert; [exact HP | by apply P_dimensions].
  - simpl. destruct Ka as (-> & _), Kd as (-> & _).
    by apply Forall_insert.
Qed.

Lemma invariant_set_mode_major E w crtc mode rotation x y :
  Forall P (xr_virtual_outputs w) →
  Forall P (xr_virtual_outputs
              (drmmode_xr_virtual_crtc_set_mode_major E w crtc mode rotation x y).2).
Proof.
  intros HP. destruct mode as [m|]; [| exact HP].
  rewrite set_mode_major_unfold. cbv zeta. cbn [snd].
  destruct (drmmode_xr_find_virtual_output_by_crtc w crtc) as [[i vout]|] eqn:Hfind;
    [| exact HP].
  destruct (negb _ || negb _); [| exact HP].
  apply list_find_Some in Hfind as (Hi & _).
  by apply invariant_mode_set_resize.
Qed.

(** [P] holds of every record in every world the driver reaches. *)
Lemma reachable_invariant w : reachable w → Forall P (xr_virtual_outputs w).
Proof.
  induction 1 as [w Hw | E w q _ IH].
  - rewrite Hw. constructor.
  - destruct q as [prop_name value | output prop_name value | crtc mode rotation x y
                   | crtc mode | output]; simpl.
    + by apply invariant_manager_set_property.
    + by apply invariant_virtual_set_property.
    + by apply invariant_set_mode_major.
    + exact IH.
    + eapply Forall_shrinks; [apply shrinks_output_destroy_hook | exact IH].
Qed.

End RecordInvariant.

(** No record ever has custom modes.  In every world the driver reaches
    through its entry points the mode list [vout->modes] of every record
    is empty: the creation leaves it [NULL] and the one place that would
    fill it, the XR_MODES branch of the property handler, is never
    entered. *)
Theorem reachable_no_custom_modes w :
  reachable w → Forall (λ v, vout_modes v = []) (xr_virtual_outputs w).
Proof.
  apply reachable_invariant.
  - intros v v' I Hv. injection I as _ _ _ _ _ _ _ ->. exact Hv.
  - done.
  - done.
Qed.

Lemma reachable_no_custom_modes_witness :
  Forall (λ v, vout_modes v = []) (xr_virtual_outputs w_xr0).
Proof. exact (reachable_no_custom_modes w_xr0 w_xr0_reachable). Defined.

(** Every record is complete.  In every world the driver reaches each
    record of the list has its output, its CRTC and its RandR output set,
    so the guards of the resize and of the deletion against [NULL] fields
    never take their early exits. *)
Theorem reachable_records_complete w :
  reachable w →
  Forall (λ v, is_Some (vout_output v) ∧ is_Some (vout_crtc v)
               ∧ is_Some (vout_randr_output v)) (xr_virtual_outputs w).
Proof.
  apply reachable_invariant.
  - intros v v' I Hv. injection I as -> -> -> _ _ _ _ _. exact Hv.
  - done.
  - intros. simpl. by repeat split.
Qed.

Lemma reachable_records_complete_witness :
  Forall (λ v, is_Some (vout_output v) ∧ is_Some (vout_crtc v)
               ∧ is_Some (vout_randr_output v)) (xr_virtual_outputs w_xr0).
Proof. exact (reachable_records_complete w_xr0 w_xr0_reachable). Defined.

(** ** The value of a 32-bit INTEGER property *)

Lemma byte_at_0 z rest :
  CStr.byte_at (String (CStr.byte_of z) rest) 0 = z mod 256.
Proof.
  unfold CStr.byte_at, CStr.byte_of. simpl.
  rewrite nat_ascii_embedding.
  - rewrite Z2Nat.id; [done |]. apply Z.mod_pos_bound. lia.
  - apply Nat2Z.inj_lt. rewrite Z2Nat.id by (apply Z.mod_pos_bound; lia).
    change (Z.of_nat 256) with 256. apply Z.mod_pos_bound. lia.
Qed.

Lemma byte_at_S c rest i :
  CStr.byte_at (String c rest) (S i) = CStr.byte_at rest i.
Proof. done. Qed.

(** What a client stores as the four bytes of an [INT32] is what the
    handler reads through [*(INT32 * )value->data]. *)
Lemma read_INT32_bytes z :
  -2147483648 ≤ z < 2147483648 → CStr.read_INT32 (CStr.INT32_bytes z) = z.
Proof.
  intros Hz. unfold CStr.read_INT32, CStr.INT32_bytes. cbv zeta.
  set (u := z mod 4294967296).
  assert (0 ≤ u < 4294967296) as Hu by (apply Z.mod_pos_bound; lia).
  rewrite ?byte_at_S, ?byte_at_0.
  replace (u mod 256 + 256 * (u / 256 mod 256) + 65536 * (u / 65536 mod 256)
           + 16777216 * (u / 16777216 mod 256)) with u.
  - unfold CStr.to_int. rewrite (Z.mod_small u) by lia.
    subst u. destruct (z mod 4294967296 <? 2147483648) eqn:Hlt.
    + apply Z.ltb_lt in Hlt. 
      destruct (Z_lt_dec z 0); [| by rewrite Z.mod_small by lia].
      rewrite <- (Z_mod_plus_full z 1) in Hlt. rewrite Z.mod_small in Hlt by lia. lia.
    + apply Z.ltb_ge in Hlt.
      destruct (Z_lt_dec z 0).
      * rewrite <- (Z_mod_plus_full z 1). rewrite Z.mod_small by lia. lia.
      * rewrite Z.mod_small in Hlt by lia. lia.
  - clearbody u. Z.to_euclidean_division_equations. lia.
Qed.

Lemma RRQuery_update_property E w ro prop v :
  x_MakeAtom E prop = true → x_RRChangeOutputProperty E prop = 0 →
  RRQueryOutputProperty (update_property E w ro prop v) ro prop = Some v.
Proof.
  intros Ha Hc. unfold update_property, RRChangeOutputProperty.
  rewrite Ha, Hc. simpl. apply RRQuery_write_property.
Qed.

Lemma RRQuery_emit e w ro prop :
  RRQueryOutputProperty (emit e w) ro prop = RRQueryOutputProperty w ro prop.
Proof. done. Qed.

(** After a resize the three properties of the RandR output show the new
    width, height and refresh rate, each when its atom exists and its
    [RRChangeOutputProperty] succeeds. *)
Lemma resize_publishes E w i v output ro width height refresh :
  xr_virtual_outputs w !! i = Some v →
  vout_output v = Some output → vout_randr_output v = Some ro →
  let r := drmmode_xr_resize_virtual_output E w (Some i) width height refresh in
  ∀ prop z,
    (prop, z) = (XR_WIDTH_PROPERTY, width) ∨ (prop, z) = (XR_HEIGHT_PROPERTY, height)
    ∨ (prop, z) = (XR_REFRESH_PROPERTY, refresh) →
    x_MakeAtom E prop = true → x_RRChangeOutputProperty E prop = 0 →
    RRQueryOutputProperty r.2 ro prop = Some (PropInteger z).
Proof.
  intros Hi Ho Hro r prop z Hprop Ha Hc. subst r.
  unfold drmmode_xr_resize_virtual_output. simpl.
  rewrite Hi. simpl. rewrite Ho, Hro. cbn [snd].
  rewrite !RRQuery_emit.
  set (w2 := drmmode_xr_virtual_set_modes E _ output width height refresh).
  clearbody w2.
  destruct Hprop as [[= -> ->] | [[= -> ->] | [= -> ->]]].
  - rewrite !rr_props_update_property by done. by apply RRQuery_update_property.
  - rewrite !rr_props_update_property by done. by apply RRQuery_update_property.
  - by apply RRQuery_update_property.
Qed.

(** A client that writes the 32-bit value [z] to XR_WIDTH, XR_HEIGHT or
    XR_REFRESH of a virtual output, with the resulting width, height and
    refresh rate within the bounds, gets [TRUE]; the record then holds
    [z] in that field and the other two as they were, and the property
    reads back [z] when its atom exists and [RRChangeOutputProperty]
    succeeds. *)
Theorem set_property_stores_written_value E w output i v ro prop z :
  find_by_output w output = Some (i, v) →
  vout_randr_output v = Some ro →
  -2147483648 ≤ z < 2147483648 →
  let dims :=
    if String.eqb prop XR_WIDTH_PROPERTY then Some (z, vout_height v, vout_refresh v)
    else if String.eqb prop XR_HEIGHT_PROPERTY then Some (vout_width v, z, vout_refresh v)
    else if String.eqb prop XR_REFRESH_PROPERTY then Some (vout_width v, vout_height v, z)
    else None in
  ∀ width height refresh,
    dims = Some (width, height, refresh) →
    in_bounds width height refresh = true →
    let r := drmmode_xr_virtual_set_property E w output (Some prop) (int32_value z) in
    r.1 = true
    ∧ xr_virtual_outputs r.2
      = <[i := set_dimensions width height refresh v]> (xr_virtual_outputs w)
    ∧ (x_MakeAtom E prop = true → x_RRChangeOutputProperty E prop = 0 →
       RRQueryOutputProperty r.2 ro prop = Some (PropInteger z)).
Proof.
  intros Hfind Hro Hz dims width height refresh Hdims Hb r.
  pose proof Hfind as (Hi & Ho & _)%list_find_Some.
  pose proof (resize_spec E w i v output ro width height refresh Hi Ho Hro)
    as (Ht & Hl & _).
  pose proof (resize_publishes E w i v output ro width height refresh Hi Ho Hro) as Hp.
  cbv zeta in Hp.
  assert (r = drmmode_xr_resize_virtual_output E w (Some i) width height refresh
          ∧ ((prop, z) = (XR_WIDTH_PROPERTY, width)
             ∨ (prop, z) = (XR_HEIGHT_PROPERTY, height)
             ∨ (prop, z) = (XR_REFRESH_PROPERTY, refresh))) as [-> Hprop].
  { subst r dims. unfold drmmode_xr_virtual_set_property. rewrite Hfind.
    change (is_int32_single (int32_value z)) with true. cbn [negb].
    change (v_data (int32_value z)) with (CStr.INT32_bytes z).
    rewrite (read_INT32_bytes z Hz). cbv zeta.
    destruct (String.eqb prop XR_MODES_PROPERTY) eqn:Hm.
    { apply String.eqb_eq in Hm as ->. by vm_compute in Hdims. }
    destruct (String.eqb prop XR_WIDTH_PROPERTY) eqn:Hw.
    { apply String.eqb_eq in Hw as ->. injection Hdims as <- <- <-.
      rewrite Hb. cbn [negb]. split; [done | by left]. }
    destruct (String.eqb prop XR_HEIGHT_PROPERTY) eqn:Hh.
    { apply String.eqb_eq in Hh as ->. injection Hdims as <- <- <-.
      rewrite Hb. cbn [negb]. split; [done | right; by left]. }
    destruct (String.eqb prop XR_REFRESH_PROPERTY) eqn:Hr; [| done].
    apply String.eqb_eq in Hr as ->. injection Hdims as <- <- <-.
    rewrite Hb. cbn [negb]. split; [done | right; by right]. }
  split; [exact Ht |]. split; [exact Hl |].
  intros Ha Hc. by apply Hp.
Qed.

Lemma set_property_stores_written_value_witness :
  let r := drmmode_xr_virtual_set_property E_ok w_xr0 1 (Some XR_HEIGHT_PROPERTY)
             (int32_value 1440) in
  r.1 = true
  ∧ xr_virtual_outputs r.2 = [set_dimensions 1920 1440 60 xr0_record]
  ∧ RRQueryOutputProperty r.2 2 XR_HEIGHT_PROPERTY = Some (PropInteger 1440).
Proof.
  assert (find_by_output w_xr0 1 = Some (0%nat, xr0_record)) as Hfind
    by (vm_compute; reflexivity).
  destruct (set_property_stores_written_value E_ok w_xr0 1 0%nat xr0_record 2
              XR_HEIGHT_PROPERTY 1440 Hfind eq_refl ltac:(lia)
              1920 1440 60 eq_refl eq_refl) as (Ht & Hl & Hp).
  split; [exact Ht |]. split; [exact Hl |]. by apply Hp.
Defined.

(** ** Reading a CREATE_XR_OUTPUT command *)

Lemma strchr_split_app c name rest :
  CStr.strchr_split c name = None →
  CStr.strchr_split c (name ++ String c rest) = Some (name, rest).
Proof.
  induction name as [| d name IH]; simpl.
  - intros _. by rewrite Ascii.eqb_refl.
  - destruct (Ascii.eqb d c); [done |].
    destruct (CStr.strchr_split c name) as [[b a]|]; [done |].
    intros _. by rewrite IH.
Qed.

Lemma append_String c s t : (String c s ++ t)%string = String c (s ++ t)%string.
Proof. reflexivity. Qed.

Lemma append_EmptyString t : (EmptyString ++ t)%string = t.
Proof. reflexivity. Qed.

Lemma digits_string_of_uint d acc rest :
  0 ≤ acc → no_digit_ahead rest →
  CStr.digits acc (NilEmpty.string_of_uint d ++ rest)
  = (Z.of_nat (Nat.of_uint_acc d (Z.to_nat acc)), rest).
Proof.
  intros Hacc Hrest. revert acc Hacc.
  induction d as [| d IH | d IH | d IH | d IH | d IH | d IH | d IH | d IH | d IH | d IH];
    intros acc Hacc.
  { cbn [NilEmpty.string_of_uint Nat.of_uint_acc].
    rewrite append_EmptyString, Z2Nat.id by done.
    destruct rest as [| c rest]; [done |]. simpl in *. by rewrite Hrest. }
  all: cbn [NilEmpty.string_of_uint Nat.of_uint_acc].
  all: rewrite append_String; cbn [CStr.digits].
  all: match goal with
       | |- context [CStr.digit ?c] =>
           let k := eval vm_compute in (CStr.digit c) in
           change (CStr.digit c) with k
       end.
  all: cbv beta iota.
  all: rewrite IH by lia; f_equal; f_equal; f_equal.
  all: rewrite Nat.tail_mul_spec; lia.
Qed.

Lemma string_of_uint_head d :
  d ≠ Decimal.Nil →
  ∃ c s, NilEmpty.string_of_uint d = String c s ∧ is_Some (CStr.digit c)
         ∧ CStr.isspace c = false ∧ c ≠ "-"%char ∧ c ≠ "+"%char.
Proof.
  destruct d; [done | ..]; intros _; eexists _, _; (split; [reflexivity |]);
    (split; [by eexists |]); (split; [reflexivity |]); split; discriminate.
Qed.

(** [strtol] reads a decimal text back. *)
Lemma strtol_decimal n rest :
  Z.of_nat n ≤ CStr.LONG_MAX → no_digit_ahead rest →
  CStr.strtol (decimal n ++ rest) = (Z.of_nat n, rest).
Proof.
  intros Hn Hrest. unfold decimal.
  assert (∃ d, d ≠ Decimal.Nil ∧ Nat.of_uint d = n
               ∧ NilZero.string_of_uint (Nat.to_uint n) = NilEmpty.string_of_uint d)
    as (d & Hd & Hof & ->).
  { destruct (Nat.to_uint n) as [| | | | | | | | | |] eqn:Hto.
    1:{ exists (Decimal.D0 Decimal.Nil). split; [done |]. split; [| done].
        rewrite <- (Unsigned.of_to n), Hto. reflexivity. }
    all: eexists; split; [| split; [| reflexivity]]; [done |];
      rewrite <- Hto; apply Unsigned.of_to. }
  destruct (string_of_uint_head d Hd) as (c & s & Hs & [k Hk] & Hsp & Hm & Hp).
  pose proof (digits_string_of_uint d 0 rest ltac:(lia) Hrest) as Hdig.
  change (Nat.of_uint_acc d (Z.to_nat 0)) with (Nat.of_uint d) in Hdig.
  rewrite Hof in Hdig.
  unfold CStr.strtol. rewrite Hs in *. rewrite append_String in *.
  cbn [CStr.skip_space]. rewrite Hsp.
  destruct c as [[] [] [] [] [] [] [] []]; try done;
    rewrite ?Hk; rewrite Hdig;
    unfold CStr.clamp_long, CStr.LONG_MIN, CStr.LONG_MAX in *;
    repeat case_match; try done; f_equal; lia.
Qed.

Lemma to_int_small z : 0 ≤ z < 2147483648 → CStr.to_int z = z.
Proof.
  intros Hz. unfold CStr.to_int. rewrite Z.mod_small by lia.
  destruct (z <? 2147483648) eqn:Hlt; [done |]. apply Z.ltb_ge in Hlt. lia.
Qed.

Lemma append_nil_r s : (s ++ "")%string = s.
Proof. induction s as [| c s IH]; [done |]. by rewrite append_String, IH. Qed.

Lemma strtol_decimal_int n rest :
  Z.of_nat n < 2147483648 → no_digit_ahead rest →
  CStr.strtol (decimal n ++ rest) = (Z.of_nat n, rest)
  ∧ CStr.to_int (Z.of_nat n) = Z.of_nat n.
Proof.
  intros Hn Hrest. split.
  - apply strtol_decimal; [unfold CStr.LONG_MAX; lia | done].
  - apply to_int_small. lia.
Qed.

Lemma parse_width_only name (width : nat) :
  CStr.strchr_split ":"%char name = None →
  Z.of_nat width < 2147483648 →
  parse_create_command (name ++ ":" ++ decimal width) = (name, Z.of_nat width, 1080, 60).
Proof.
  intros Hname Hw. unfold parse_create_command.
  rewrite append_String, append_EmptyString, (strchr_split_app _ _ _ Hname).
  rewrite <- (append_nil_r (decimal width)).
  destruct (strtol_decimal_int width "" Hw I) as [-> ->]. done.
Qed.

Lemma parse_width_height name (width height : nat) :
  CStr.strchr_split ":"%char name = None →
  Z.of_nat width < 2147483648 → Z.of_nat height < 2147483648 →
  parse_create_command (name ++ ":" ++ decimal width ++ ":" ++ decimal height)
  = (name, Z.of_nat width, Z.of_nat height, 60).
Proof.
  intros Hname Hw Hh. unfold parse_create_command.
  rewrite !append_String, !append_EmptyString, (strchr_split_app _ _ _ Hname).
  destruct (strtol_decimal_int width (String ":" (decimal height)) Hw eq_refl)
    as [-> ->].
  rewrite <- (append_nil_r (decimal height)).
  destruct (strtol_decimal_int height "" Hh I) as [-> ->]. done.
Qed.

Lemma parse_full name (width height refresh : nat) :
  CStr.strchr_split ":"%char name = None →
  Z.of_nat width < 2147483648 → Z.of_nat height < 2147483648 →
  Z.of_nat refresh < 2147483648 →
  parse_create_command
    (name ++ ":" ++ decimal width ++ ":" ++ decimal height ++ ":" ++ decimal refresh)
  = (name, Z.of_nat width, Z.of_nat height, Z.of_nat refresh).
Proof.
  intros Hname Hw Hh Hr. unfold parse_create_command.
  rewrite !append_String, !append_EmptyString, (strchr_split_app _ _ _ Hname).
  destruct (strtol_decimal_int width
              (String ":" (decimal height ++ String ":" (decimal refresh))) Hw eq_refl)
    as [-> ->].
  destruct (strtol_decimal_int height (String ":" (decimal refresh)) Hh eq_refl)
    as [-> ->].
  rewrite <- (append_nil_r (decimal refresh)).
  destruct (strtol_decimal_int refresh "" Hr I) as [-> Hto]. cbn [fst].
  by rewrite Hto.
Qed.

(** The parse of a CREATE_XR_OUTPUT command reads back what was written.
    For a name without a colon and numbers below 2^31 written in decimal,
    "NAME:W:H:R" gives the name and the three numbers, "NAME:W:H" gives
    the refresh rate 60, and "NAME:W" gives the height 1080 and the
    refresh rate 60. *)
Theorem parse_create_command_round_trip name (width height refresh : nat) :
  CStr.strchr_split ":"%char name = None →
  Z.of_nat width < 2147483648 → Z.of_nat height < 2147483648 →
  Z.of_nat refresh < 2147483648 →
  parse_create_command
    (name ++ ":" ++ decimal width ++ ":" ++ decimal height ++ ":" ++ decimal refresh)
  = (name, Z.of_nat width, Z.of_nat height, Z.of_nat refresh)
  ∧ parse_create_command (name ++ ":" ++ decimal width ++ ":" ++ decimal height)
    = (name, Z.of_nat width, Z.of_nat height, 60)
  ∧ parse_create_command (name ++ ":" ++ decimal width) = (name, Z.of_nat width, 1080, 60).
Proof.
  intros Hname Hw Hh Hr. split; [by apply parse_full |].
  split; [by apply parse_width_height | by apply parse_width_only].
Qed.

Lemma parse_create_command_round_trip_witness :
  parse_create_command "XR-1:2560:1440:90" = ("XR-1", 2560, 1440, 90)
  ∧ parse_create_command "XR-1:2560:1440" = ("XR-1", 2560, 1440, 60)
  ∧ parse_create_command "XR-1:2560" = ("XR-1", 2560, 1080, 60).
Proof.
  exact (parse_create_command_round_trip "XR-1" 2560 1440 90 eq_refl
           ltac:(lia) ltac:(lia) ltac:(lia)).
Defined.

Lemma strtol_no_number rest :
  no_number_ahead rest → CStr.strtol rest = (0, rest).
Proof.
  destruct rest as [| c rest]; [done |].
  intros (Hd & Hs & Hm & Hp & _). unfold CStr.strtol.
  cbn [CStr.skip_space]. rewrite Hs.
  destruct c as [[] [] [] [] [] [] [] []]; try done; by rewrite Hd.
Qed.

(** A field that is no number reads as 0, not as the default.  When the
    text after the first colon of a CREATE_XR_OUTPUT command is empty or
    starts with a character that is neither a digit, a sign, white space
    nor a colon, the width is 0; the height and the refresh rate keep
    their defaults 1080 and 60. *)
Theorem parse_create_command_without_number name rest :
  CStr.strchr_split ":"%char name = None →
  no_number_ahead rest →
  parse_create_command (name ++ ":" ++ rest) = (name, 0, 1080, 60).
Proof.
  intros Hname Hrest. unfold parse_create_command.
  rewrite append_String, append_EmptyString, (strchr_split_app _ _ _ Hname).
  rewrite (strtol_no_number rest Hrest).
  destruct rest as [| c rest]; [done |].
  destruct Hrest as (_ & _ & _ & _ & Hc).
  destruct c as [[] [] [] [] [] [] [] []]; done.
Qed.

Lemma parse_create_command_without_number_witness :
  parse_create_command "XR-0:wide" = ("XR-0", 0, 1080, 60).
Proof.
  apply (parse_create_command_without_number "XR-0" "wide"); [reflexivity |].
  by repeat split.
Defined.

(** ** CREATE_XR_OUTPUT commands through the handler of XR-Manager *)

Lemma take_length s : CStr.take (String.length s) s = s.
Proof. induction s as [| c s IH]; [done |]. simpl. by rewrite IH. Qed.

Lemma strndup_string_value s :
  CStr.strndup (v_data (string_value s)) (v_size (string_value s)) = CStr.c_str s.
Proof. unfold CStr.strndup. simpl. by rewrite Nat2Z.id, take_length. Qed.

Lemma c_str_app a b :
  CStr.c_str a = a → CStr.c_str (a ++ b) = (a ++ CStr.c_str b)%string.
Proof.
  induction a as [| c a IH]; [done |]. rewrite !append_String. simpl.
  destruct (Ascii.eqb c CStr.NUL); [done |]. intros [= H]. by rewrite IH.
Qed.

Lemma c_str_string_of_uint d :
  CStr.c_str (NilEmpty.string_of_uint d) = NilEmpty.string_of_uint d.
Proof. induction d; simpl; by rewrite ?IHd. Qed.

Lemma c_str_decimal n : CStr.c_str (decimal n) = decimal n.
Proof.
  unfold decimal, NilZero.string_of_uint.
  destruct (Nat.to_uint n) eqn:H; [done | ..]; rewrite <- H; apply c_str_string_of_uint.
Qed.

(** The handler creates what the parse of the command gives. *)
Lemma manager_create_as_parsed E w value name width height refresh :
  is_string8 value = true → x_strndup E = true →
  parse_create_command (CStr.strndup (v_data value) (v_size value))
  = (name, width, height, refresh) →
  name ≠ "" →
  drmmode_xr_find_virtual_output w name = None →
  first_failure E = None → x_strdup E = true →
  ∃ v w',
    drmmode_xr_manager_set_property E w (Some CREATE_XR_OUTPUT_PROPERTY) value
    = (true, w')
    ∧ xr_virtual_outputs w' = v :: xr_virtual_outputs w
    ∧ vout_name v = Some name
    ∧ (vout_width v, vout_height v, vout_refresh v) = (width, height, refresh)
    ∧ drmmode_xr_find_virtual_output w' name = Some (0%nat, v).
Proof.
  intros Hstr Hndup Hparse Hne Hfind Hok Hdup.
  destruct (create_success E w name width height refresh Hfind Hok)
    as (v & w' & Hcreate & Hl & Hn & Hdim & _).
  rewrite Hdup in Hn.
  exists v, w'. unfold drmmode_xr_manager_set_property.
  rewrite Hstr, Hndup, Hparse. simpl.
  destruct name as [| c name]; [done |]. rewrite Hcreate.
  split; [done |]. split; [exact Hl |]. split; [exact Hn |]. split; [exact Hdim |].
  unfold drmmode_xr_find_virtual_output. rewrite Hl. simpl.
  by rewrite decide_True.
Qed.

(** A CREATE_XR_OUTPUT command is carried out as written.  When a client
    writes "NAME:W:H:R" with a new, non-empty name that holds no colon
    and no NUL byte and with decimal numbers below 2^31, and no step of
    the construction fails, the handler of XR-Manager returns [TRUE], the
    new record is the head of the list, it has that name, width, height
    and refresh rate, and a look-up of the name finds it. *)
Theorem create_command_registers_as_written E w name (width height refresh : nat) :
  name ≠ "" → CStr.c_str name = name →
  CStr.strchr_split ":"%char name = None →
  Z.of_nat width < 2147483648 → Z.of_nat height < 2147483648 →
  Z.of_nat refresh < 2147483648 →
  drmmode_xr_find_virtual_output w name = None →
  first_failure E = None → x_strndup E = true → x_strdup E = true →
  ∃ v w',
    drmmode_xr_manager_set_property E w (Some CREATE_XR_OUTPUT_PROPERTY)
      (string_value
         (name ++ ":" ++ decimal width ++ ":" ++ decimal height ++ ":" ++ decimal refresh))
    = (true, w')
    ∧ xr_virtual_outputs w' = v :: xr_virtual_outputs w
    ∧ vout_name v = Some name
    ∧ (vout_width v, vout_height v, vout_refresh v)
      = (Z.of_nat width, Z.of_nat height, Z.of_nat refresh)
    ∧ drmmode_xr_find_virtual_output w' name = Some (0%nat, v).
Proof.
  intros Hne Hnul Hcolon Hw Hh Hr Hfind Hok Hndup Hdup.
  apply manager_create_as_parsed; try done.
  rewrite strndup_string_value.
  rewrite (c_str_app name) by done.
  rewrite (c_str_app ":") by done.
  rewrite (c_str_app (decimal width)) by apply c_str_decimal.
  rewrite (c_str_app ":") by done.
  rewrite (c_str_app (decimal height)) by apply c_str_decimal.
  rewrite (c_str_app ":") by done.
  rewrite c_str_decimal.
  by apply parse_full.
Qed.

Lemma create_command_registers_as_written_witness :
  ∃ v w',
    drmmode_xr_manager_set_property E_ok w_init (Some CREATE_XR_OUTPUT_PROPERTY)
      (string_value "XR-1:2560:1440:90") = (true, w')
    ∧ xr_virtual_outputs w' = v :: xr_virtual_outputs w_init
    ∧ vout_name v = Some "XR-1"
    ∧ (vout_width v, vout_height v, vout_refresh v) = (2560, 1440, 90)
    ∧ drmmode_xr_find_virtual_output w' "XR-1" = Some (0%nat, v).
Proof.
  apply (create_command_registers_as_written E_ok w_init "XR-1" 2560 1440 90);
    try reflexivity; try lia.
  discriminate.
Defined.

(** A CREATE_XR_OUTPUT command without a name is refused.  When the
    command is empty or starts with a colon, the handler of XR-Manager
    returns [FALSE] and the world it was given: nothing is created. *)
Theorem create_command_without_name_refused E w value rest :
  CStr.strndup (v_data value) (v_size value) = ""
  ∨ CStr.strndup (v_data value) (v_size value) = String ":" rest →
  drmmode_xr_manager_set_property E w (Some CREATE_XR_OUTPUT_PROPERTY) value
  = (false, w).
Proof.
  intros Hcmd. unfold drmmode_xr_manager_set_property.
  change (negb (String.eqb CREATE_XR_OUTPUT_PROPERTY CREATE_XR_OUTPUT_PROPERTY)
          && negb (String.eqb CREATE_XR_OUTPUT_PROPERTY DELETE_XR_OUTPUT_PROPERTY))
    with false. cbv iota.
  destruct (negb (is_string8 value)); [done |].
  destruct (negb (x_strndup E)); [done |].
  change (String.eqb CREATE_XR_OUTPUT_PROPERTY CREATE_XR_OUTPUT_PROPERTY) with true.
  cbv iota zeta.
  destruct Hcmd as [-> | ->]; [done |].
  unfold parse_create_command. cbn [CStr.strchr_split Ascii.eqb Bool.eqb].
  by repeat case_match.
Qed.

Lemma create_command_without_name_refused_witness :
  drmmode_xr_manager_set_property E_ok w_init (Some CREATE_XR_OUTPUT_PROPERTY)
    (string_value ":1920:1080:60") = (false, w_init).
Proof.
  apply (create_command_without_name_refused E_ok w_init _ "1920:1080:60").
  right. reflexivity.
Defined.

(** ** What a creation does to the list *)

Lemma create_result E w name width height refresh v w' :
  drmmode_xr_create_virtual_output E w name width height refresh = (Some v, w') →
  drmmode_xr_find_virtual_output w name = None
  ∧ first_failure E = None
  ∧ xr_virtual_outputs w' = v :: xr_virtual_outputs w
  ∧ identity v
    = (x_xf86OutputCreate E, x_xf86CrtcCreate E, x_RROutputCreate E,
       (if x_strdup E then Some name else None), width, height, refresh, []).
Proof.
  intros Hc.
  destruct (drmmode_xr_find_virtual_output w name) as [iv|] eqn:Hfind.
  { rewrite create_duplicate in Hc by done. discriminate. }
  split; [done |].
  pose proof (create_outcome E w name width height refresh Hfind) as H.
  cbv zeta in H. rewrite Hc in H. destruct (first_failure E).
  { by destruct H as ([=] & _). }
  split; [done |].
  destruct H as (output & crtc & ro & w0 & Ho & Hcr & Hro & K & [= Hv Hw]).
  destruct (create_offscreen_framebuffer_spec E w0
              (record_before_framebuffer E name width height refresh output crtc ro)
              width height) as ((K' & _) & I & _).
  rewrite <- Hv in I. rewrite Hw, I, Ho, Hcr, Hro. simpl.
  destruct K' as (-> & _), K as (-> & _). by rewrite Hv.
Qed.

(** A creation that succeeds puts the new record in front of the list
    and leaves the others where they were: the name was not registered
    before, the new record is the head with the requested width, height
    and refresh rate and no custom modes, and a look-up of any other name
    finds the record it found before, one place further. *)
Theorem create_success_frame E w name width height refresh v w' :
  drmmode_xr_create_virtual_output E w name width height refresh = (Some v, w') →
  drmmode_xr_find_virtual_output w name = None
  ∧ xr_virtual_outputs w' = v :: xr_virtual_outputs w
  ∧ (vout_width v, vout_height v, vout_refresh v, vout_modes v)
    = (width, height, refresh, [])
  ∧ ∀ name',
      name' ≠ name →
      drmmode_xr_find_virtual_output w' name'
      = prod_map S id <$> drmmode_xr_find_virtual_output w name'.
Proof.
  intros Hc. destruct (create_result _ _ _ _ _ _ _ _ Hc) as (Hfind & _ & Hl & I).
  split; [exact Hfind |]. split; [exact Hl |].
  injection I as _ _ _ Hn -> -> -> ->. split; [done |].
  intros name' Hne. unfold drmmode_xr_find_virtual_output. rewrite Hl. simpl.
  rewrite decide_False; [done |].
  rewrite Hn. destruct (x_strdup E); congruence.
Qed.

Lemma create_success_frame_witness :
  drmmode_xr_find_virtual_output w_init "XR-0" = None
  ∧ xr_virtual_outputs w_xr0 = xr0_record :: xr_virtual_outputs w_init
  ∧ (vout_width xr0_record, vout_height xr0_record, vout_refresh xr0_record,
     vout_modes xr0_record) = (1920, 1080, 60, [])
  ∧ ∀ name',
      name' ≠ "XR-0" →
      drmmode_xr_find_virtual_output w_xr0 name'
      = prod_map S id <$> drmmode_xr_find_virtual_output w_init name'.
Proof.
  apply (create_success_frame E_ok w_init "XR-0" 1920 1080 60 xr0_record w_xr0).
  vm_compute. reflexivity.
Defined.

(** A record whose name could not be copied is out of reach.  When
    [strdup] fails the creation still succeeds and links a record without
    a name: a look-up of the name finds nothing, a deletion under the
    name returns [FALSE] and changes nothing, and the duplicate check of
    a second creation under the same name does not see the record. *)
Theorem create_without_name_is_out_of_reach E w name width height refresh v w' :
  drmmode_xr_create_virtual_output E w name width height refresh = (Some v, w') →
  x_strdup E = false →
  vout_name v = None
  ∧ v ∈ xr_virtual_outputs w'
  ∧ drmmode_xr_find_virtual_output w' name = None
  ∧ ∀ E', drmmode_xr_delete_virtual_output E' w' name = (false, w').
Proof.
  intros Hc Hdup. destruct (create_result _ _ _ _ _ _ _ _ Hc) as (Hfind & _ & Hl & I).
  injection I as _ _ _ Hn _ _ _ _. rewrite Hdup in Hn.
  assert (drmmode_xr_find_virtual_output w' name = None) as Hfind'.
  { unfold drmmode_xr_find_virtual_output in *. rewrite Hl. simpl.
    rewrite decide_False by (by rewrite Hn). by rewrite Hfind. }
  split; [exact Hn |]. split; [rewrite Hl; apply list_elem_of_here |].
  split; [exact Hfind' |].
  intros E'. unfold drmmode_xr_delete_virtual_output.
  unfold drmmode_xr_find_virtual_output in Hfind'. by rewrite Hfind'.
Qed.

Lemma create_without_name_is_out_of_reach_witness :
  let r := drmmode_xr_create_virtual_output E_no_strdup w_init "XR-0" 1920 1080 60 in
  ∃ v, r.1 = Some v
       ∧ vout_name v = None
       ∧ v ∈ xr_virtual_outputs r.2
       ∧ drmmode_xr_find_virtual_output r.2 "XR-0" = None
       ∧ ∀ E', drmmode_xr_delete_virtual_output E' r.2 "XR-0" = (false, r.2).
Proof.
  eexists. split; [vm_compute; reflexivity |].
  eapply (create_without_name_is_out_of_reach E_no_strdup w_init "XR-0" 1920 1080 60).
  - vm_compute. reflexivity.
  - reflexivity.
Defined.

(** ** What the framebuffer code acquires and releases *)

Section Balanced.

Context {R : Type} (acq rel : event → option R).

Lemma balanced_no_acquire evs :
  Forall (λ e, acq e = None) evs → balanced acq rel evs.
Proof. induction 1 as [| e evs He _ IH]; simpl; [done |]. by rewrite He. Qed.

Lemma balanced_app evs1 evs2 :
  balanced acq rel evs1 → balanced acq rel evs2 → balanced acq rel (evs1 ++ evs2).
Proof.
  induction evs1 as [| e evs1 IH]; simpl; [done |].
  intros [He H1] H2. split; [| by apply IH].
  destruct (acq e); [| done]. apply Exists_app. by left.
Qed.

Lemma balanced_wrap e e' r evs :
  acq e = Some r → rel e' = Some r → acq e' = None →
  balanced acq rel evs → balanced acq rel (e :: evs ++ [e']).
Proof.
  intros He He' Hn H. simpl. rewrite He. split.
  - apply Exists_app. right. by apply Exists_cons_hd.
  - apply balanced_app; [done |]. simpl. by rewrite Hn.
Qed.

Lemma balanced_cons e evs :
  acq e = None → balanced acq rel evs → balanced acq rel (e :: evs).
Proof. intros He H. simpl. by rewrite He. Qed.

End Balanced.

Lemma teardown_no_fb_acquire evs :
  Forall (λ e, is_framebuffer_teardown e = true) evs →
  Forall (λ e, fb_acquires e = None) evs.
Proof. intros H. eapply Forall_impl; [exact H |]. by intros []. Qed.

Lemma fb_unwind_events E unmap w v :
  let r := fb_unwind E unmap w v in
  r.1.1 = false
  ∧ vout_framebuffer_id r.2 = vout_framebuffer_id v
  ∧ ∃ evs, emits w r.1.2
             (evs ++ [Ev_drmModeRmFB (vout_framebuffer_id v); Ev_drmmode_bo_destroy])
           ∧ balanced fb_acquires fb_releases evs.
Proof.
  unfold fb_unwind, drmmode_bo_destroy. destruct unmap as [d|]; simpl.
  - split; [done |]. split; [done |]. exists [Ev_munmap d]. split; [emits_explicit | done].
  - split; [done |]. split; [done |]. exists []. split; [emits_explicit | done].
Qed.

Lemma fb_dumb_pixmap_events E w v pixmap_ptr :
  let r := fb_dumb_pixmap E w v pixmap_ptr in
  (r.1.1 = false
   ∧ vout_framebuffer_id r.2 = vout_framebuffer_id v
   ∧ ∃ evs, emits w r.1.2
              (evs ++ [Ev_drmModeRmFB (vout_framebuffer_id v); Ev_drmmode_bo_destroy])
            ∧ balanced fb_acquires fb_releases evs)
  ∨ (r.1.1 = true
     ∧ ∃ p, emits w r.1.2 [Ev_CreatePixmap p]
            ∧ r.2 = set_framebuffer (vout_framebuffer_bo v) (vout_framebuffer_id v)
                      (Some p) v).
Proof.
  unfold fb_dumb_pixmap.
  set (unmap := match pixmap_ptr with Some _ => _ | None => _ end).
  destruct (x_CreatePixmap E) as [p|].
  - destruct (x_ModifyPixmapHeader E); cbv beta iota zeta delta [negb].
    + right.
      destruct (fb_pixmap_created_spec E (emit (Ev_CreatePixmap p) w) v p)
        as (Ht & [_ T] & Hr & _).
      split; [done |]. exists p. split; [| done].
      exact (emits_trans _ _ _ [_] [] (emits_emit _ w) T).
    + left.
      destruct (fb_unwind_events E unmap
                  (emit (Ev_DestroyPixmap p) (emit (Ev_CreatePixmap p) w)) v)
        as (Hf & Hid & evs & T & B).
      split; [done |]. split; [done |].
      exists ([Ev_CreatePixmap p; Ev_DestroyPixmap p] ++ evs). split.
      * unfold emits in *. rewrite T. simpl. by rewrite <- !app_assoc.
      * apply balanced_app; [| done]. simpl. repeat split. by apply Exists_cons_hd.
  - left. apply fb_unwind_events.
Qed.

Lemma fb_bo_created_events E w v width height :
  is_Some (if GLAMOR_HAS_GBM E then bo_gbm (vout_framebuffer_bo v) else None)
  ∨ is_Some (bo_dumb (vout_framebuffer_bo v)) →
  let r := fb_bo_created E w v width height in
  let fb := (x_drmmode_bo_import E).2 in
  (r.1.1 = false
   ∧ ∃ evs, emits w r.1.2 (evs ++ [Ev_drmmode_bo_destroy])
            ∧ balanced fb_acquires fb_releases evs
            ∧ ((x_drmmode_bo_import E).1 ≠ 0
               ∧ vout_framebuffer_id r.2 = vout_framebuffer_id v
               ∨ (x_drmmode_bo_import E).1 = 0
                 ∧ vout_framebuffer_id r.2 = fb ∧ Ev_drmModeRmFB fb ∈ evs))
  ∨ (r.1.1 = true
     ∧ ∃ evs p, emits w r.1.2 evs
                ∧ balanced fb_acquires fb_releases
                    (evs ++ [Ev_DestroyPixmap p; Ev_drmModeRmFB fb])
                ∧ vout_pixmap r.2 = Some p
                ∧ vout_framebuffer_id r.2 = fb
                ∧ vout_framebuffer_bo r.2 = vout_framebuffer_bo v).
Proof.
  intros Hbo. unfold fb_bo_created. destruct (x_drmmode_bo_import E) as [ret fb].
  cbv beta iota zeta.
  change ((ret, fb).2) with fb. change ((ret, fb).1) with ret.
  destruct (ret =? 0) eqn:Hret; cbv beta iota zeta delta [negb].
  2:{ left. apply Z.eqb_neq in Hret. unfold drmmode_bo_destroy. simpl.
      split; [done |]. exists []. split; [emits_explicit |]. split; [done |]. by left. }
  apply Z.eqb_eq in Hret. subst ret.
  set (v1 := set_framebuffer (vout_framebuffer_bo v) fb (vout_pixmap v) v).
  set (w1 := emit (Ev_drmmode_bo_import fb) w).
  assert (vout_framebuffer_bo v1 = vout_framebuffer_bo v) as Hbo1 by done.
  assert (vout_framebuffer_id v1 = fb) as Hid1 by done.
  rewrite Hbo1.
  (* the ways on from the import *)
  assert (∀ u w2 evs0, emits w1 w2 evs0 → balanced fb_acquires fb_releases evs0 →
            let r := fb_unwind E u w2 v1 in
            r.1.1 = false
            ∧ ∃ evs, emits w r.1.2 (evs ++ [Ev_drmmode_bo_destroy])
                     ∧ balanced fb_acquires fb_releases evs
                     ∧ (0 ≠ 0 ∧ vout_framebuffer_id r.2 = vout_framebuffer_id v
                        ∨ 0 = 0 ∧ vout_framebuffer_id r.2 = fb ∧ Ev_drmModeRmFB fb ∈ evs))
    as Hunwind.
  { intros u w2 evs0 T0 B0.
    destruct (fb_unwind_events E u w2 v1) as (Hf & Hid & evs & T & B).
    split; [done |].
    exists (Ev_drmmode_bo_import fb :: (evs0 ++ evs) ++ [Ev_drmModeRmFB fb]).
    split; [| split].
    - unfold emits in *. rewrite T, T0. subst w1. simpl. rewrite ?Hid1.
      rewrite <- !app_assoc. reflexivity.
    - apply (balanced_wrap _ _ _ _ (Fb_framebuffer fb)); try done.
      by apply balanced_app.
    - right. split; [done |]. split; [by rewrite Hid |].
      apply list_elem_of_further, elem_of_app. right. apply list_elem_of_here. }
  assert (∀ ptr w2 evs0, emits w1 w2 evs0 → balanced fb_acquires fb_releases evs0 →
            let r := fb_dumb_pixmap E w2 v1 ptr in
            (r.1.1 = false
             ∧ ∃ evs, emits w r.1.2 (evs ++ [Ev_drmmode_bo_destroy])
                      ∧ balanced fb_acquires fb_releases evs
                      ∧ (0 ≠ 0 ∧ vout_framebuffer_id r.2 = vout_framebuffer_id v
                         ∨ 0 = 0 ∧ vout_framebuffer_id r.2 = fb
                           ∧ Ev_drmModeRmFB fb ∈ evs))
            ∨ (r.1.1 = true
               ∧ ∃ evs p, emits w r.1.2 evs
                          ∧ balanced fb_acquires fb_releases
                              (evs ++ [Ev_DestroyPixmap p; Ev_drmModeRmFB fb])
                          ∧ vout_pixmap r.2 = Some p
                          ∧ vout_framebuffer_id r.2 = fb
                          ∧ vout_framebuffer_bo r.2 = vout_framebuffer_bo v))
    as Hdumb.
  { intros ptr w2 evs0 T0 B0.
    destruct (fb_dumb_pixmap_events E w2 v1 ptr)
      as [(Hf & Hid & evs & T & B) | (Ht & p & T & Hr)].
    - left. split; [done |].
      exists (Ev_drmmode_bo_import fb :: (evs0 ++ evs) ++ [Ev_drmModeRmFB fb]).
      split; [| split].
      + unfold emits in *. rewrite T, T0. subst w1. simpl. rewrite ?Hid1.
        rewrite <- !app_assoc. reflexivity.
      + apply (balanced_wrap _ _ _ _ (Fb_framebuffer fb)); try done.
        by apply balanced_app.
      + right. split; [done |]. split; [by rewrite Hid |].
        apply list_elem_of_further, elem_of_app. right. apply list_elem_of_here.
    - right. split; [done |].
      exists (Ev_drmmode_bo_import fb :: evs0 ++ [Ev_CreatePixmap p]), p.
      split; [| split; [| by rewrite Hr]].
      + unfold emits in *. rewrite T, T0. subst w1. simpl.
        rewrite <- !app_assoc. reflexivity.
      + change (balanced fb_acquires fb_releases
                  (Ev_drmmode_bo_import fb
                   :: (evs0 ++ [Ev_CreatePixmap p]) ++ [Ev_DestroyPixmap p] ++ [Ev_drmModeRmFB fb])).
        rewrite app_assoc.
        apply (balanced_wrap _ _ _ _ (Fb_framebuffer fb)); try done.
        rewrite <- app_assoc. apply balanced_app; [done |].
        simpl. repeat split. by apply Exists_cons_hd. }
  destruct (GLAMOR_HAS_GBM E) eqn:HG.
  - destruct (bo_gbm (vout_framebuffer_bo v)) as [g|] eqn:Hg.
    + destruct (glamor_egl_hook w1).
      * destruct (x_CreatePixmap_gbm E) as [p|].
        -- destruct (x_egl_create_textured_pixmap E); cbv beta iota zeta delta [negb].
           ++ right.
              destruct (fb_pixmap_created_spec E
                          (emit (Ev_egl_create_textured_pixmap p)
                             (emit (Ev_CreatePixmap p) w1)) v1 p)
                as (Ht & [_ T] & Hr & _).
              split; [done |].
              exists [Ev_drmmode_bo_import fb; Ev_CreatePixmap p;
                      Ev_egl_create_textured_pixmap p], p.
              split; [| split; [| by rewrite Hr]].
              ** unfold emits in *. rewrite T. subst w1. simpl.
                 rewrite <- !app_assoc. rewrite app_nil_r. reflexivity.
              ** simpl. repeat split;
                   repeat first [by apply Exists_cons_hd | apply Exists_cons_tl].
           ++ apply (Hdumb None _ [Ev_CreatePixmap p; Ev_DestroyPixmap p]);
                [emits_explicit |].
              simpl. repeat split. by apply Exists_cons_hd.
        -- left. apply (Hunwind None w1 []); [apply emits_refl | done].
      * apply (Hdumb None w1 []); [apply emits_refl | done].
    + destruct Hbo as [[? [=]] | [d Hd]]. rewrite Hd.
      destruct (x_dumb_bo_map E =? 0); cbv beta iota zeta delta [negb].
      * apply (Hdumb (Some d) _ [Ev_dumb_bo_map d]); [emits_explicit | done].
      * left. apply (Hunwind None w1 []); [apply emits_refl | done].
  - destruct Hbo as [[? [=]] | [d Hd]]. rewrite Hd.
    destruct (x_dumb_bo_map E =? 0); cbv beta iota zeta delta [negb].
    + apply (Hdumb (Some d) _ [Ev_dumb_bo_map d]); [emits_explicit | done].
    + left. apply (Hunwind None w1 []); [apply emits_refl | done].
Qed.

Lemma create_offscreen_framebuffer_events E w v width height :
  let r := drmmode_xr_create_offscreen_framebuffer E w v width height in
  let fb := (x_drmmode_bo_import E).2 in
  (r.1.1 = false
   ∧ ∃ evs, emits w r.1.2 evs
            ∧ balanced fb_acquires fb_releases evs
            ∧ (buffer_object_created E w → (x_drmmode_bo_import E).1 = 0 →
               vout_framebuffer_id r.2 = fb ∧ Ev_drmModeRmFB fb ∈ evs))
  ∨ (r.1.1 = true
     ∧ ∃ evs p, emits w r.1.2 evs
                ∧ balanced fb_acquires fb_releases
                    (evs ++ [Ev_DestroyPixmap p; Ev_drmModeRmFB fb; Ev_drmmode_bo_destroy])
                ∧ vout_pixmap r.2 = Some p
                ∧ vout_framebuffer_id r.2 = fb
                ∧ (is_Some (bo_gbm (vout_framebuffer_bo r.2))
                   ∨ is_Some (bo_dumb (vout_framebuffer_bo r.2)))).
Proof.
  unfold drmmode_xr_create_offscreen_framebuffer. cbv zeta.
  set (v0 := set_framebuffer (bo_sized (to_uint32 width) (to_uint32 height) None None)
               0 None v).
  assert (∀ e gbm dumb,
            fb_acquires e = Some Fb_buffer_object →
            is_Some (if GLAMOR_HAS_GBM E then gbm else None) ∨ is_Some dumb →
            let r := fb_bo_created E (emit e w)
                       (set_framebuffer
                          (bo_sized (to_uint32 width) (to_uint32 height) gbm dumb)
                          0 None v0)
                       width height in
            let fb := (x_drmmode_bo_import E).2 in
            (r.1.1 = false
             ∧ ∃ evs, emits w r.1.2 evs
                      ∧ balanced fb_acquires fb_releases evs
                      ∧ (buffer_object_created E w → (x_drmmode_bo_import E).1 = 0 →
                         vout_framebuffer_id r.2 = fb ∧ Ev_drmModeRmFB fb ∈ evs))
            ∨ (r.1.1 = true
               ∧ ∃ evs p, emits w r.1.2 evs
                          ∧ balanced fb_acquires fb_releases
                              (evs ++ [Ev_DestroyPixmap p; Ev_drmModeRmFB fb;
                                       Ev_drmmode_bo_destroy])
                          ∧ vout_pixmap r.2 = Some p
                          ∧ vout_framebuffer_id r.2 = fb
                          ∧ (is_Some (bo_gbm (vout_framebuffer_bo r.2))
                             ∨ is_Some (bo_dumb (vout_framebuffer_bo r.2))))) as Hbo.
  { intros e gbm dumb He Hsome. cbv zeta.
    set (v1 := set_framebuffer (bo_sized (to_uint32 width) (to_uint32 height) gbm dumb)
                 0 None v0).
    destruct (fb_bo_created_events E (emit e w) v1 width height Hsome)
      as [(Hf & evs & T & B & Hid) | (Ht & evs & p & T & B & Hp & Hid & Hb)].
    - left. split; [done |]. exists (e :: evs ++ [Ev_drmmode_bo_destroy]).
      split; [| split].
      + unfold emits in *. rewrite T. simpl. by rewrite <- !app_assoc.
      + by apply (balanced_wrap _ _ _ _ Fb_buffer_object).
      + intros _ Hret. destruct Hid as [[Hne _] | (_ & Hid & Hin)]; [done |].
        split; [done |]. apply list_elem_of_further, elem_of_app. by left.
    - right. split; [done |]. exists (e :: evs), p.
      split; [| split; [| split; [done | split; [done |]]]].
      + unfold emits in *. rewrite T. simpl. by rewrite <- !app_assoc.
      + rewrite <- app_comm_cons.
        rewrite (app_assoc evs [Ev_DestroyPixmap p; Ev_drmModeRmFB _]
                   [Ev_drmmode_bo_destroy] : evs ++ [_; _; _] = _).
        by apply (balanced_wrap _ _ _ _ Fb_buffer_object).
      + rewrite Hb. subst v1. simpl.
        destruct Hsome as [Hg | Hd]; [left | by right].
        by destruct (GLAMOR_HAS_GBM E). }
  destruct (GLAMOR_HAS_GBM E && drmmode_glamor_gbm w) eqn:HG.
  - destruct (x_gbm_bo_create E) as [g|] eqn:Hg.
    + apply Hbo; [done |]. left. apply andb_true_iff in HG as [-> _]. done.
    + destruct (x_dumb_bo_create E) as [d|] eqn:Hd.
      * apply Hbo; [done | by right].
      * left. split; [done |]. exists []. split; [apply emits_refl |]. split; [done |].
        unfold buffer_object_created. rewrite Hg, Hd.
        intros [[_ [? [=]]] | [? [=]]].
  - destruct (x_dumb_bo_create E) as [d|] eqn:Hd.
    + apply Hbo; [done | by right].
    + left. split; [done |]. exists []. split; [apply emits_refl |]. split; [done |].
      unfold buffer_object_created. rewrite HG, Hd.
      intros [[[=] _] | [? [=]]].
Qed.

Lemma destroy_offscreen_framebuffer_events E w v p :
  pScreen w = true → vout_pixmap v = Some p → vout_framebuffer_id v ≠ 0 →
  is_Some (bo_gbm (vout_framebuffer_bo v)) ∨ is_Some (bo_dumb (vout_framebuffer_bo v)) →
  emits w (drmmode_xr_destroy_offscreen_framebuffer E w v).1
    [Ev_DestroyPixmap p; Ev_drmModeRmFB (vout_framebuffer_id v); Ev_drmmode_bo_destroy].
Proof.
  intros Hs Hp Hid Hbo.
  unfold drmmode_xr_destroy_offscreen_framebuffer, drmmode_bo_destroy.
  rewrite Hp, Hs. simpl.
  apply Z.eqb_neq in Hid. rewrite Hid. simpl.
  destruct Hbo as [[g Hg] | [d Hd]].
  - rewrite Hg. destruct (bo_dumb (vout_framebuffer_bo v)); simpl; emits_explicit.
  - rewrite Hd. simpl. emits_explicit.
Qed.

(** ** The framebuffer: what is held and what is given back *)

(** Destroying a framebuffer twice is destroying it once.  After
    [drmmode_xr_destroy_offscreen_framebuffer] the record has the
    identifier 0 and a zeroed buffer object, and a second call on it makes
    no call and leaves world and record as they are. *)
Theorem destroy_offscreen_framebuffer_idempotent E E' w v :
  let d := drmmode_xr_destroy_offscreen_framebuffer E w v in
  drmmode_xr_destroy_offscreen_framebuffer E' d.1 d.2 = d.
Proof.
  unfold drmmode_xr_destroy_offscreen_framebuffer, drmmode_bo_destroy.
  destruct (vout_pixmap v) as [p|] eqn:Hp; destruct (pScreen w) eqn:Hs;
    destruct (vout_framebuffer_id v =? 0) eqn:Hfb;
    destruct (bo_dumb (vout_framebuffer_bo v)) eqn:Hd;
    destruct (bo_gbm (vout_framebuffer_bo v)) eqn:Hg;
    simpl; rewrite ?Hfb; simpl; rewrite ?Hd, ?Hg; simpl; rewrite ?Hp, ?Hs;
    simpl; rewrite ?Hfb; simpl; reflexivity.
Qed.

(** An allocation that fails gives back what it took.  When
    [drmmode_xr_create_offscreen_framebuffer] returns [FALSE], every
    buffer object, DRM framebuffer and pixmap that the call acquired has
    been released by a later call of the same run, and the record has no
    pixmap. *)
Theorem failed_allocation_releases_everything E w v width height :
  (drmmode_xr_create_offscreen_framebuffer E w v width height).1.1 = false →
  vout_pixmap (drmmode_xr_create_offscreen_framebuffer E w v width height).2 = None
  ∧ ∃ evs,
      emits w (drmmode_xr_create_offscreen_framebuffer E w v width height).1.2 evs
      ∧ balanced fb_acquires fb_releases evs.
Proof.
  intros Hf. split; [by apply create_offscreen_framebuffer_failure |].
  destruct (create_offscreen_framebuffer_events E w v width height)
    as [(_ & evs & T & B & _) | (Ht & _)].
  - by exists evs.
  - congruence.
Qed.

Lemma failed_allocation_releases_everything_witness :
  emits w_init
    (drmmode_xr_create_offscreen_framebuffer E_no_pixmap w_init xr0_bare 1920 1080).1.2
    [Ev_dumb_bo_create 5; Ev_drmmode_bo_import 42; Ev_dumb_bo_map 5;
     Ev_munmap 5; Ev_drmModeRmFB 42; Ev_drmmode_bo_destroy]
  ∧ vout_pixmap
      (drmmode_xr_create_offscreen_framebuffer E_no_pixmap w_init xr0_bare 1920 1080).2
    = None
  ∧ ∃ evs,
      emits w_init
        (drmmode_xr_create_offscreen_framebuffer E_no_pixmap w_init xr0_bare
           1920 1080).1.2 evs
      ∧ balanced fb_acquires fb_releases evs.
Proof.
  split; [vm_compute; reflexivity |].
  apply (failed_allocation_releases_everything E_no_pixmap w_init xr0_bare 1920 1080).
  vm_compute. reflexivity.
Defined.

(** An allocation followed by a destruction holds nothing.  On a screen
    that exists and with a kernel that never names a framebuffer 0,
    [drmmode_xr_create_offscreen_framebuffer] followed by
    [drmmode_xr_destroy_offscreen_framebuffer] releases every buffer
    object, DRM framebuffer and pixmap that was acquired, whether the
    allocation succeeded or not, and leaves the record without pixmap,
    identifier and buffer object. *)
Theorem allocation_then_destroy_releases_everything E E' w v width height :
  pScreen w = true → (x_drmmode_bo_import E).2 ≠ 0 →
  let a := drmmode_xr_create_offscreen_framebuffer E w v width height in
  let d := drmmode_xr_destroy_offscreen_framebuffer E' a.1.2 a.2 in
  (vout_pixmap d.2, vout_framebuffer_id d.2, vout_framebuffer_bo d.2) = (None, 0, bo_zero)
  ∧ ∃ evs, emits w d.1 evs ∧ balanced fb_acquires fb_releases evs.
Proof.
  intros Hs Hfb a d.
  destruct (create_offscreen_framebuffer_spec E w v width height) as ((K & _) & _).
  fold a in K.
  assert (pScreen a.1.2 = true) as Hs'.
  { destruct K as (_ & -> & _). exact Hs. }
  destruct (destroy_offscreen_framebuffer_spec E' a.1.2 a.2)
    as ((_ & evs_d & Td & Fd) & _ & Hid & Hbo & Hp).
  fold d in Td, Hid, Hbo, Hp.
  split; [by rewrite Hid, Hbo, (Hp Hs') |].
  destruct (create_offscreen_framebuffer_events E w v width height)
    as [(_ & evs & T & B & _) | (_ & evs & p & T & B & Hpix & Hfbid & Hsome)];
    fold a in T.
  - exists (evs ++ evs_d). split; [by eapply emits_trans |].
    apply balanced_app; [done |].
    by apply balanced_no_acquire, teardown_no_fb_acquire.
  - fold a in Hpix, Hfbid, Hsome.
    assert (vout_framebuffer_id a.2 ≠ 0) as Hne by (by rewrite Hfbid).
    pose proof (destroy_offscreen_framebuffer_events E' a.1.2 a.2 p Hs' Hpix Hne Hsome)
      as T'.
    fold d in T'. rewrite Hfbid in T'.
    eexists. split; [by eapply emits_trans | exact B].
Qed.

Lemma allocation_then_destroy_releases_everything_witness :
  let a := drmmode_xr_create_offscreen_framebuffer E_ok w_init xr0_bare 1920 1080 in
  let d := drmmode_xr_destroy_offscreen_framebuffer E_ok a.1.2 a.2 in
  (vout_pixmap d.2, vout_framebuffer_id d.2, vout_framebuffer_bo d.2) = (None, 0, bo_zero)
  ∧ ∃ evs, emits w_init d.1 evs ∧ balanced fb_acquires fb_releases evs.
Proof.
  apply (allocation_then_destroy_releases_everything E_ok E_ok w_init xr0_bare 1920 1080).
  - reflexivity.
  - discriminate.
Defined.

Lemma destroy_offscreen_framebuffer_removes E w v :
  vout_framebuffer_id v ≠ 0 →
  ∃ evs, emits w (drmmode_xr_destroy_offscreen_framebuffer E w v).1 evs
         ∧ Ev_drmModeRmFB (vout_framebuffer_id v) ∈ evs.
Proof.
  intros Hid%Z.eqb_neq.
  unfold drmmode_xr_destroy_offscreen_framebuffer, drmmode_bo_destroy.
  destruct (vout_pixmap v) as [p|] eqn:Hp; destruct (pScreen w) eqn:Hs;
    destruct (bo_dumb (vout_framebuffer_bo v)) eqn:Hd;
    destruct (bo_gbm (vout_framebuffer_bo v)) eqn:Hg;
    simpl; rewrite ?Hid; simpl; rewrite ?Hd, ?Hg; simpl;
    eexists; (split; [emits_explicit |]);
    repeat first [apply list_elem_of_here | apply list_elem_of_further].
Qed.

(** An allocation that fails after the import leaves the identifier of
    the removed framebuffer in the record.  When a buffer object was
    created and imported under the identifier [fb], not 0, and a later
    step fails, the call removes the framebuffer [fb] and returns [FALSE]
    with [vout->framebuffer_id] still [fb]; the next
    [drmmode_xr_destroy_offscreen_framebuffer] of the record, at the
    deletion of the output or at its next mode-set, calls [drmModeRmFB]
    on [fb] a second time. *)
Theorem failed_allocation_keeps_removed_identifier E E' w v width height :
  buffer_object_created E w →
  (x_drmmode_bo_import E).1 = 0 → (x_drmmode_bo_import E).2 ≠ 0 →
  (drmmode_xr_create_offscreen_framebuffer E w v width height).1.1 = false →
  let a := drmmode_xr_create_offscreen_framebuffer E w v width height in
  let fb := (x_drmmode_bo_import E).2 in
  vout_framebuffer_id a.2 = fb
  ∧ vout_pixmap a.2 = None
  ∧ (∃ evs, emits w a.1.2 evs ∧ Ev_drmModeRmFB fb ∈ evs)
  ∧ ∃ evs', emits a.1.2 (drmmode_xr_destroy_offscreen_framebuffer E' a.1.2 a.2).1 evs'
            ∧ Ev_drmModeRmFB fb ∈ evs'.
Proof.
  intros Hbo Hret Hfb Hf a fb.
  destruct (create_offscreen_framebuffer_events E w v width height)
    as [(_ & evs & T & B & Hid) | (Ht & _)]; [| congruence].
  destruct (Hid Hbo Hret) as [Hid' Hin]. fold a in Hid', T.
  split; [exact Hid' |].
  split; [by apply create_offscreen_framebuffer_failure |].
  split; [by exists evs |].
  subst fb. rewrite <- Hid'. apply destroy_offscreen_framebuffer_removes. by rewrite Hid'.
Qed.

Lemma failed_allocation_keeps_removed_identifier_witness :
  let a := drmmode_xr_create_offscreen_framebuffer E_no_pixmap w_init xr0_bare 1920 1080 in
  vout_framebuffer_id a.2 = 42
  ∧ vout_pixmap a.2 = None
  ∧ (∃ evs, emits w_init a.1.2 evs ∧ Ev_drmModeRmFB 42 ∈ evs)
  ∧ ∃ evs', emits a.1.2 (drmmode_xr_destroy_offscreen_framebuffer E_ok a.1.2 a.2).1 evs'
            ∧ Ev_drmModeRmFB 42 ∈ evs'.
Proof.
  apply (failed_allocation_keeps_removed_identifier E_no_pixmap E_ok w_init xr0_bare
           1920 1080).
  - right. by eexists.
  - reflexivity.
  - discriminate.
  - vm_compute. reflexivity.
Defined.

(** ** The FRAMEBUFFER_ID property through a mode-set *)

Lemma rr_props_destroy_offscreen_framebuffer E w v :
  rr_props (drmmode_xr_destroy_offscreen_framebuffer E w v).1 = rr_props w.
Proof.
  unfold drmmode_xr_destroy_offscreen_framebuffer, drmmode_bo_destroy.
  destruct (vout_pixmap v) as [p|] eqn:Hp; destruct (pScreen w) eqn:Hs;
    destruct (vout_framebuffer_id v =? 0) eqn:Hfb;
    destruct (bo_dumb (vout_framebuffer_bo v)) eqn:Hd;
    destruct (bo_gbm (vout_framebuffer_bo v)) eqn:Hg;
    simpl; rewrite ?Hfb; simpl; rewrite ?Hd, ?Hg; simpl; reflexivity.
Qed.

(** An allocation that fails has not touched the properties. *)
Lemma rr_props_create_offscreen_framebuffer_failure E w v width height :
  (drmmode_xr_create_offscreen_framebuffer E w v width height).1.1 = false →
  rr_props (drmmode_xr_create_offscreen_framebuffer E w v width height).1.2 = rr_props w.
Proof.
  unfold drmmode_xr_create_offscreen_framebuffer, fb_bo_created, fb_dumb_pixmap,
    fb_unwind, fb_pixmap_created, drmmode_bo_destroy.
  destruct (x_drmmode_bo_import E) as [ret fb].
  repeat case_match; simpl; done.
Qed.

(** A mode-set whose reallocation fails leaves a dangling identifier.
    When the mode-set of a virtual CRTC finds the output at another size
    with a framebuffer [fb], not 0, and the allocation at the new size
    fails, it still returns [TRUE]; [drmModeRmFB] has been called on [fb],
    and the FRAMEBUFFER_ID property of every output reads what it read
    before, so a client that was given [fb] still is. *)
Theorem mode_set_failure_leaves_dangling_identifier E w crtc m rotation x y i vout :
  drmmode_xr_find_virtual_output_by_crtc w crtc = Some (i, vout) →
  vout_width vout ≠ HDisplay m ∨ vout_height vout ≠ VDisplay m →
  vout_framebuffer_id vout ≠ 0 →
  (drmmode_xr_create_offscreen_framebuffer E
     (drmmode_xr_destroy_offscreen_framebuffer E w vout).1
     (drmmode_xr_destroy_offscreen_framebuffer E w vout).2
     (HDisplay m) (VDisplay m)).1.1 = false →
  let r := drmmode_xr_virtual_crtc_set_mode_major E w crtc (Some m) rotation x y in
  r.1 = true
  ∧ (∃ evs, emits w r.2 evs ∧ Ev_drmModeRmFB (vout_framebuffer_id vout) ∈ evs)
  ∧ ∀ ro, published_fb_id r.2 ro = published_fb_id w ro.
Proof.
  intros Hfind Hdiff Hid Hfail r. subst r.
  rewrite set_mode_major_unfold. cbv zeta. rewrite Hfind.
  replace (negb (vout_width vout =? HDisplay m) || negb (vout_height vout =? VDisplay m))
    with true.
  2:{ symmetry. apply orb_true_iff.
      destruct Hdiff as [H | H]; [left | right]; apply negb_true_iff; by apply Z.eqb_neq. }
  split; [done |]. cbn [snd].
  unfold mode_set_resize. cbv zeta.
  set (d := drmmode_xr_destroy_offscreen_framebuffer E w vout) in *.
  set (a := drmmode_xr_create_offscreen_framebuffer E d.1 d.2 (HDisplay m) (VDisplay m))
    in *.
  rewrite Hfail.
  destruct (destroy_offscreen_framebuffer_removes E w vout Hid) as (evs_d & Td & Hin).
  fold d in Td.
  destruct (create_offscreen_framebuffer_spec E d.1 d.2 (HDisplay m) (VDisplay m))
    as ((_ & evs_a & Ta & _) & _).
  fold a in Ta.
  pose proof (rr_props_create_offscreen_framebuffer_failure E d.1 d.2
                (HDisplay m) (VDisplay m) Hfail) as Pa.
  fold a in Pa.
  pose proof (rr_props_destroy_offscreen_framebuffer E w vout) as Pd. fold d in Pd.
  clearbody a. clearbody d.
  split.
  - exists (evs_d ++ evs_a). split.
    + unfold emits in *. simpl. rewrite Ta, Td. by rewrite app_assoc.
    + apply elem_of_app. by left.
  - intros ro. unfold published_fb_id, RRQueryOutputProperty. simpl.
    by rewrite Pa, Pd.
Qed.

Lemma mode_set_failure_leaves_dangling_identifier_witness :
  let r := drmmode_xr_virtual_crtc_set_mode_major E_no_pixmap w_xr0 3 (Some mode_1440p)
             1 0 0 in
  published_fb_id w_xr0 2 = Some (PropInteger 42)
  ∧ r.1 = true
  ∧ (∃ evs, emits w_xr0 r.2 evs ∧ Ev_drmModeRmFB 42 ∈ evs)
  ∧ ∀ ro, published_fb_id r.2 ro = published_fb_id w_xr0 ro.
Proof.
  split; [vm_compute; reflexivity |].
  apply (mode_set_failure_leaves_dangling_identifier E_no_pixmap w_xr0 3 mode_1440p
           1 0 0 0%nat xr0_record).
  - vm_compute. reflexivity.
  - left. discriminate.
  - discriminate.
  - vm_compute. reflexivity.
Defined.

(** ** The mode list of a virtual output *)


Lemma add_rrmode_refused E nm a b r :
  no_mode_available E → add_rrmode E nm a b r [] = [].
Proof.
  intros [H | [H | H]]; unfold add_rrmode.
  - by rewrite H.
  - destruct (x_xf86CVTMode E a b r); [| done]. by rewrite H.
  - destruct (x_xf86CVTMode E a b r); [| done]. rewrite H. by destruct (x_RRModeGet E _).
Qed.



(** When no mode can be built the mode list stays as it is.  If
    [xf86CVTMode], [RRModeGet] or the [realloc] of the array fails every
    time, [drmmode_xr_virtual_set_modes] does not call [RROutputSetModes]:
    it returns the world it was given, with the modes the RandR output
    had. *)
Theorem set_modes_without_modes_keeps_list E w output width height refresh :
  no_mode_available E →
  drmmode_xr_virtual_set_modes E w output width height refresh = w.
Proof.
  intros Hno. unfold drmmode_xr_virtual_set_modes.
  destruct (outputs w !! output ≫= out_randr_output) as [ro|]; [| done].
  assert (common_rrmodes E refresh = []) as Hcommon.
  { unfold common_rrmodes, common_widths, common_heights. cbn [fold_left].
    by rewrite !add_rrmode_refused. }
  assert (∀ modes, custom_rrmodes E modes = []) as Hcustom.
  { intros modes. unfold custom_rrmodes.
    induction modes as [| m modes IH]; [done |]. cbn [fold_left].
    by rewrite add_rrmode_refused. }
  destruct (find_by_output w output) as [[i v]|].
  - destruct (vout_modes v); [by rewrite Hcommon | by rewrite Hcustom].
  - by rewrite Hcommon.
Qed.

Lemma set_modes_without_modes_keeps_list_witness :
  drmmode_xr_virtual_set_modes E_no_cvt w_xr0 1 2560 1440 60 = w_xr0.
Proof.
  apply (set_modes_without_modes_keeps_list E_no_cvt w_xr0 1 2560 1440 60).
  left. reflexivity.
Defined.

(** ** The private data of an output on the error exits of the creation *)

(** The error exit after a failed [RROutputCreate] frees the private data
    of the output twice.  The creation has stored the pointer in
    [output->driver_private]; on the failure it calls [free] on it and
    then [xf86OutputDestroy], whose [destroy] hook
    [drmmode_xr_virtual_output_destroy] finds [driver_private] still set
    and calls [free] on it again.  The calls of the run are exactly:
    create the output, allocate the private data, free it, destroy the
    output, free it. *)
Theorem create_failure_frees_private_data_twice E w name width height refresh output :
  drmmode_xr_find_virtual_output w name = None →
  x_xf86OutputCreate E = Some output →
  find_by_output w output = None →
  x_calloc_output_private E = true →
  x_RROutputCreate E = None →
  let r := drmmode_xr_create_virtual_output E w name width height refresh in
  r.1 = None
  ∧ xr_virtual_outputs r.2 = xr_virtual_outputs w
  ∧ emits w r.2
      [Ev_xf86OutputCreate output; Ev_calloc_output_private output;
       Ev_free_output_private output; Ev_xf86OutputDestroy output;
       Ev_free_output_private output].
Proof.
  intros Hfind Hout Hfresh Hpriv Hro. unfold drmmode_xr_create_virtual_output.
  rewrite Hfind, Hout, Hpriv, Hro. cbv beta iota zeta delta [negb].
  unfold xf86OutputDestroy, drmmode_xr_virtual_output_destroy.
  unfold find_by_output in *. simpl. rewrite Hfresh. simpl.
  rewrite lookup_insert_eq. simpl.
  split; [done |]. split; [done |]. emits_explicit.
Qed.

Lemma create_failure_frees_private_data_twice_witness :
  let r := drmmode_xr_create_virtual_output E_no_randr_output w_init "XR-0" 1920 1080 60 in
  r.1 = None
  ∧ xr_virtual_outputs r.2 = xr_virtual_outputs w_init
  ∧ emits w_init r.2
      [Ev_xf86OutputCreate 1; Ev_calloc_output_private 1;
       Ev_free_output_private 1; Ev_xf86OutputDestroy 1;
       Ev_free_output_private 1].
Proof.
  by apply (create_failure_frees_private_data_twice E_no_randr_output w_init
              "XR-0" 1920 1080 60 1).
Defined.

(** ** What a deletion does to the list *)

Lemma list_find_delete_other {A} (P : A → Prop) `{∀ x, Decision (P x)} l i x :
  l !! i = Some x → ¬ P x →
  snd <$> list_find P (delete i l) = snd <$> list_find P l.
Proof.
  revert i. induction l as [| a l IH]; intros [| i] Hi Hx; simpl in *; try done.
  - injection Hi as ->. rewrite decide_False by done.
    by destruct (list_find P l) as [[j y]|].
  - destruct (decide (P a)); [done |].
    specialize (IH i Hi Hx).
    destruct (list_find P (delete i l)) as [[j y]|], (list_find P l) as [[j' y']|];
      simpl in *; congruence.
Qed.

Lemma omap_NoDup_delete {A B} (f : A → option B) l i x y :
  NoDup (omap f l) → l !! i = Some x → f x = Some y →
  Forall (λ z, f z ≠ Some y) (delete i l).
Proof.
  revert i. induction l as [| a l IH]; intros [| i] ND Hi Hx; simpl in *; try done.
  - injection Hi as ->. rewrite Hx in ND. apply NoDup_cons in ND as [Hnin _].
    apply Forall_forall. intros z Hz Hfz. apply Hnin.
    apply list_elem_of_omap. by exists z.
  - destruct (f a) as [b|] eqn:Hfa.
    + apply NoDup_cons in ND as [Hnin ND]. constructor; [| by eapply IH].
      rewrite Hfa. intros [= ->]. apply Hnin.
      apply list_elem_of_omap. exists x. split; [| done].
      by eapply list_elem_of_lookup_2.
    + constructor; [by rewrite Hfa | by eapply IH].
Qed.

(** A deletion that finds the name keeps the list apart from the record
    it unlinks, when no other record has the output of that record. *)
Lemma delete_found_list E w name i vout :
  list_find (λ v, vout_name v = Some name) (xr_virtual_outputs w) = Some (i, vout) →
  (∀ o, vout_output vout = Some o →
        list_find (λ v, vout_output v = Some o) (delete i (xr_virtual_outputs w)) = None) →
  xr_virtual_outputs (drmmode_xr_delete_virtual_output E w name).2
  = delete i (xr_virtual_outputs w).
Proof.
  intros Hfind Hother. unfold drmmode_xr_delete_virtual_output. rewrite Hfind.
  set (w1 := set_xr_virtual_outputs (delete i (xr_virtual_outputs w)) w).
  assert (xr_virtual_outputs w1 = delete i (xr_virtual_outputs w)) as R1 by done.
  clearbody w1. cbv zeta.
  set (a := match output_drmmode w1 (vout_output vout) with
            | Some _ => drmmode_xr_destroy_offscreen_framebuffer E w1 vout
            | None => (w1, vout)
            end).
  assert (keeps w1 a.1 ∧ identity a.2 = identity vout) as (Ka & Ia).
  { subst a. destruct (output_drmmode w1 (vout_output vout)); [| by split].
    destruct (destroy_offscreen_framebuffer_spec E w1 vout) as ((K & _) & I & _).
    by split. }
  clearbody a. cbn [snd].
  destruct (delete_crtc_spec a.1 a.2) as (Kc & _).
  set (w2 := delete_crtc a.1 a.2) in *. clearbody w2.
  destruct (delete_randr_output_spec w2 a.2) as (Kr & _).
  set (w3 := delete_randr_output w2 a.2) in *. clearbody w3.
  destruct (delete_record_spec (delete_output w3 a.2) a.2) as (Kd & _).
  destruct Kd as (-> & _).
  assert (keeps w1 w3) as K3.
  { eapply keeps_trans; [| exact Kr]. eapply keeps_trans; [exact Ka | exact Kc]. }
  assert (vout_output a.2 = vout_output vout) as Ho by (by injection Ia as ->).
  unfold delete_output. rewrite Ho.
  destruct (vout_output vout) as [o|] eqn:Hvo.
  - destruct (xf86OutputDestroy_spec w3 o) as (_ & K & _).
    destruct K as (-> & _).
    + unfold find_by_output. destruct K3 as (-> & _). rewrite R1. by apply Hother.
    + destruct K3 as (-> & _). exact R1.
  - destruct K3 as (-> & _). exact R1.
Qed.

(** A deletion takes out the record it names and no other.  When the
    name is found at position [i] and no other record has the output of
    that record, [drmmode_xr_delete_virtual_output] returns [TRUE] and
    the list is the old list without position [i]; a look-up of any other
    name finds the record it found before; and when the names of the
    list are pairwise different, a look-up of the deleted name finds
    nothing. *)
Theorem delete_removes_the_named_record E w name i v :
  drmmode_xr_find_virtual_output w name = Some (i, v) →
  (∀ j v', xr_virtual_outputs w !! j = Some v' → j ≠ i →
           vout_output v' ≠ vout_output v ∨ vout_output v = None) →
  let r := drmmode_xr_delete_virtual_output E w name in
  r.1 = true
  ∧ xr_virtual_outputs r.2 = delete i (xr_virtual_outputs w)
  ∧ (∀ name', name' ≠ name →
       snd <$> drmmode_xr_find_virtual_output r.2 name'
       = snd <$> drmmode_xr_find_virtual_output w name')
  ∧ (NoDup (registered_names w) → drmmode_xr_find_virtual_output r.2 name = None).
Proof.
  intros Hfind Hother r. unfold drmmode_xr_find_virtual_output in *.
  pose proof Hfind as (Hi & Hn & _)%list_find_Some.
  destruct (delete_found E w name i v Hfind) as (Ht & _).
  assert (xr_virtual_outputs r.2 = delete i (xr_virtual_outputs w)) as Hl.
  { apply (delete_found_list E w name i v); [done |]. intros o Ho.
    apply list_find_None, Forall_forall. intros v' Hin Hv'.
    apply list_elem_of_lookup in Hin as [j Hj].
    destruct (decide (j < i)%nat) as [Hlt | Hge].
    - rewrite list_lookup_delete_lt in Hj by done.
      destruct (Hother j v' Hj ltac:(lia)) as [H | H]; congruence.
    - rewrite list_lookup_delete_ge in Hj by lia.
      destruct (Hother (S j) v' Hj ltac:(lia)) as [H | H]; congruence. }
  split; [exact Ht |]. split; [exact Hl |]. split.
  - intros name' Hne. rewrite Hl.
    apply (list_find_delete_other _ _ i v); [done |]. rewrite Hn. congruence.
  - intros ND. rewrite Hl. apply list_find_None.
    by apply (omap_NoDup_delete vout_name _ i v name).
Qed.

Lemma delete_removes_the_named_record_witness :
  let r := drmmode_xr_delete_virtual_output E_ok w_xr0 "XR-0" in
  r.1 = true
  ∧ xr_virtual_outputs r.2 = []
  ∧ (∀ name', name' ≠ "XR-0" →
       snd <$> drmmode_xr_find_virtual_output r.2 name'
       = snd <$> drmmode_xr_find_virtual_output w_xr0 name')
  ∧ (NoDup (registered_names w_xr0) → drmmode_xr_find_virtual_output r.2 "XR-0" = None).
Proof.
  apply (delete_removes_the_named_record E_ok w_xr0 "XR-0" 0%nat xr0_record).
  - vm_compute. reflexivity.
  - intros [| j] v' Hj Hne; [done |]. vm_compute in Hj. discriminate.
Defined.

(** ** Setting XR-Manager up *)

(** What [drmmode_xr_virtual_output_init] leaves.  Called without a
    manager output, it either returns [TRUE] with a manager output that
    is disconnected, not a desktop output and without RandR output, with
    an empty list of virtual outputs, and any further call returns [TRUE]
    and changes nothing; or it returns [FALSE] with no manager output,
    and the output it may have created has been destroyed again. *)
Theorem init_outcome E d :
  ms_xr_manager_output d = None →
  let r := drmmode_xr_virtual_output_init E d in
  (r.1 = true
   ∧ ∃ output,
       ms_xr_manager_output r.2 = Some output
       ∧ outputs (ms_world r.2) !! output = Some manager_configured
       ∧ xr_virtual_outputs (ms_world r.2) = []
       ∧ ∀ E', drmmode_xr_virtual_output_init E' r.2 = (true, r.2))
  ∨ (r.1 = false
     ∧ ms_xr_manager_output r.2 = None
     ∧ ∃ evs, emits (ms_world d) (ms_world r.2) evs ∧ all_released evs).
Proof.
  intros Hnone. unfold drmmode_xr_virtual_output_init. rewrite Hnone.
  destruct (x_xf86OutputCreate E) as [output|].
  2:{ right. simpl. split; [done |]. split; [done |]. exists []. split; [apply emits_refl | done]. }
  destruct (x_calloc_output_private E); cbv beta iota zeta delta [negb].
  - left. split; [done |]. exists output. simpl.
    split; [done |]. split; [by rewrite lookup_insert_eq |]. split; [done | done].
  - right. cbn [fst snd]. split; [done |]. split; [done |].
    match goal with |- context [xf86OutputDestroy ?w1 output] =>
      assert (emits (ms_world d) w1 [Ev_xf86OutputCreate output]) as T1
        by emits_explicit;
      set (W1 := w1) in *; clearbody W1;
      destruct (xf86OutputDestroy_spec W1 output) as ((evs & T & S) & _)
    end.
    eexists. split; [exact (emits_trans _ _ _ _ _ T1 T) |].
    apply (all_released_app [_; _]); [| by apply in_step_no_acquire].
    simpl. repeat split. by apply Exists_cons_hd.
Qed.

Lemma init_outcome_witness :
  let r := drmmode_xr_virtual_output_init E_manager (driver_of w_init) in
  r.1 = true
  ∧ ms_xr_manager_output r.2 = Some 10
  ∧ outputs (ms_world r.2) !! 10 = Some manager_configured.
Proof.
  destruct (init_outcome E_manager (driver_of w_init) eq_refl)
    as [(Ht & output & Hm & Ho & _) | (Hf & _)].
  - split; [exact Ht |]. split; [vm_compute; reflexivity | vm_compute; reflexivity].
  - vm_compute in Hf. discriminate.
Defined.

Lemma register_command_property_refused E w ro prop :
  x_MakeAtom E prop = false ∨ x_RRConfigureOutputProperty E prop ≠ 0 →
  RRQueryOutputProperty w ro prop = None →
  register_command_property E w ro prop = w.
Proof.
  intros Hno Hq. unfold register_command_property, RRConfigureOutputProperty.
  destruct (x_MakeAtom E prop); [| done]. rewrite Hq.
  destruct Hno as [[=] | Hne]. apply Z.eqb_neq in Hne. cbv zeta.
  rewrite Hne. cbv beta iota. by rewrite Hne.
Qed.

Lemma register_command_property_registered E w ro prop :
  x_MakeAtom E prop = true → x_RRConfigureOutputProperty E prop = 0 →
  x_RRChangeOutputProperty E prop = 0 →
  RRQueryOutputProperty w ro prop = None →
  RRQueryOutputProperty (register_command_property E w ro prop) ro prop
  = Some (PropString "").
Proof.
  intros Ha Hc Hch Hq.
  unfold register_command_property, RRConfigureOutputProperty, RRChangeOutputProperty.
  rewrite Ha, Hq, Hc, Hch. simpl. apply RRQuery_write_property.
Qed.

Lemma register_command_property_other E w ro prop ro' prop' :
  prop ≠ prop' →
  RRQueryOutputProperty (register_command_property E w ro prop) ro' prop'
  = RRQueryOutputProperty w ro' prop'.
Proof.
  intros Hne.
  unfold register_command_property, RRConfigureOutputProperty, RRChangeOutputProperty.
  destruct (x_MakeAtom E prop); [| done].
  destruct (RRQueryOutputProperty w ro prop) eqn:Hq; [done |].
  cbv zeta.
  destruct (x_RRConfigureOutputProperty E prop =? 0) eqn:Hc; cbv beta iota;
    rewrite Hc; [| done].
  destruct (x_RRChangeOutputProperty E prop =? 0); simpl;
    rewrite ?RRQuery_write_property_ne by congruence; done.
Qed.

(** A property that has a value keeps it. *)
Lemma register_command_property_keeps E w ro prop ro' prop' v :
  RRQueryOutputProperty w ro' prop' = Some v →
  RRQueryOutputProperty (register_command_property E w ro prop) ro' prop' = Some v.
Proof.
  intros Hv.
  destruct (decide ((ro, prop) = (ro', prop'))) as [[= <- <-] | Hne].
  - unfold register_command_property. rewrite Hv. by destruct (x_MakeAtom E prop).
  - unfold register_command_property, RRConfigureOutputProperty, RRChangeOutputProperty.
    destruct (x_MakeAtom E prop); [| done].
    destruct (RRQueryOutputProperty w ro prop) eqn:Hq; [done |].
    cbv zeta.
    destruct (x_RRConfigureOutputProperty E prop =? 0) eqn:Hc; cbv beta iota;
      rewrite Hc; [| done].
    destruct (x_RRChangeOutputProperty E prop =? 0); simpl;
      rewrite ?RRQuery_write_property_ne by done; done.
Qed.

Lemma silent_register_command_property E w ro prop :
  silent w (register_command_property E w ro prop).
Proof.
  unfold register_command_property.
  destruct (x_MakeAtom E prop); [| apply silent_refl].
  destruct (RRQueryOutputProperty w ro prop); [apply silent_refl |].
  pose proof (silent_RRConfigureOutputProperty E w ro prop) as S1.
  destruct (RRConfigureOutputProperty E w ro prop) as [err w1]. simpl in S1.
  destruct (err =? 0); [| done].
  eapply silent_trans; [exact S1 | apply silent_RRChangeOutputProperty].
Qed.

Lemma outputs_register_command_property E w ro prop :
  outputs (register_command_property E w ro prop) = outputs w.
Proof.
  unfold register_command_property, RRConfigureOutputProperty, RRChangeOutputProperty.
  destruct (x_MakeAtom E prop); [| done].
  destruct (RRQueryOutputProperty w ro prop); [done |].
  cbv zeta.
  destruct (x_RRConfigureOutputProperty E prop =? 0) eqn:Hc; cbv beta iota;
    rewrite Hc; [| done].
  by destruct (x_RRChangeOutputProperty E prop =? 0).
Qed.

(** The first [drmmode_xr_virtual_output_post_screen_init] gives
    XR-Manager its command properties.  When the manager output has no
    RandR output yet, [RROutputCreate] returns one and the two properties
    can be registered, the call returns [TRUE]; the manager output points
    to the new RandR output, which is marked disconnected and not a
    desktop output, and CREATE_XR_OUTPUT and DELETE_XR_OUTPUT both exist
    on it with the empty string as value. *)
Theorem post_screen_init_registers_commands E d output orec ro :
  ms_xr_manager_output d = Some output →
  outputs (ms_world d) !! output = Some orec →
  out_randr_output orec = None →
  x_RROutputCreate E = Some ro →
  command_properties_ok E →
  let r := drmmode_xr_virtual_output_post_screen_init E d in
  r.1 = true
  ∧ outputs (ms_world r.2) !! output = Some (out_set_randr_output (Some ro) orec)
  ∧ RRQueryOutputProperty (ms_world r.2) ro CREATE_XR_OUTPUT_PROPERTY
    = Some (PropString "")
  ∧ RRQueryOutputProperty (ms_world r.2) ro DELETE_XR_OUTPUT_PROPERTY
    = Some (PropString "")
  ∧ rr_non_desktop r.2 !! ro = Some true
  ∧ emits (ms_world d) (ms_world r.2)
      [Ev_RROutputCreate ro; Ev_RROutputSetConnection ro RR_Disconnected].
Proof.
  intros Hm Ho Hnone Hro Hok.
  destruct (Hok CREATE_XR_OUTPUT_PROPERTY ltac:(by left)) as (Ha1 & Hc1 & Hch1).
  destruct (Hok DELETE_XR_OUTPUT_PROPERTY ltac:(by right)) as (Ha2 & Hc2 & Hch2).
  unfold drmmode_xr_virtual_output_post_screen_init. rewrite Hm. cbv zeta.
  rewrite Ho. cbn [mbind option_bind]. rewrite Hnone, Hro.
  cbn [fst snd ms_world set_ms_world RROutputSetNonDesktop rr_non_desktop].
  set (w1 := emit (Ev_RROutputSetConnection ro RR_Disconnected) _).
  assert (emits (ms_world d) w1
            [Ev_RROutputCreate ro; Ev_RROutputSetConnection ro RR_Disconnected]) as T1
    by (subst w1; emits_explicit).
  assert (outputs w1 !! output = Some (out_set_randr_output (Some ro) orec)) as O1.
  { subst w1. simpl. by rewrite lookup_alter_eq, Ho. }
  assert (∀ prop, RRQueryOutputProperty w1 ro prop = None) as Q1.
  { intros prop. subst w1. unfold RRQueryOutputProperty. simpl.
    by rewrite lookup_insert_eq. }
  clearbody w1.
  split; [done |]. split.
  { by rewrite !outputs_register_command_property. }
  split.
  { rewrite register_command_property_other by done.
    by apply register_command_property_registered. }
  split.
  { apply register_command_property_registered; try done.
    by rewrite register_command_property_other. }
  split; [by rewrite lookup_insert_eq |].
  eapply emits_silent_r; [| apply silent_register_command_property].
  eapply emits_silent_r; [exact T1 | apply silent_register_command_property].
Qed.

Lemma post_screen_init_registers_commands_witness :
  let r := drmmode_xr_virtual_output_post_screen_init E_manager
             (drmmode_xr_virtual_output_init E_manager (driver_of w_init)).2 in
  r.1 = true
  ∧ outputs (ms_world r.2) !! 10
    = Some (out_set_randr_output (Some 11) manager_configured)
  ∧ RRQueryOutputProperty (ms_world r.2) 11 CREATE_XR_OUTPUT_PROPERTY
    = Some (PropString "")
  ∧ RRQueryOutputProperty (ms_world r.2) 11 DELETE_XR_OUTPUT_PROPERTY
    = Some (PropString "")
  ∧ rr_non_desktop r.2 !! 11 = Some true
  ∧ emits (ms_world (drmmode_xr_virtual_output_init E_manager (driver_of w_init)).2)
      (ms_world r.2)
      [Ev_RROutputCreate 11; Ev_RROutputSetConnection 11 RR_Disconnected].
Proof.
  apply (post_screen_init_registers_commands E_manager
           (drmmode_xr_virtual_output_init E_manager (driver_of w_init)).2
           10 manager_configured 11); try reflexivity.
  intros prop _. by repeat split.
Defined.

(** A later [drmmode_xr_virtual_output_post_screen_init] overwrites
    nothing.  When the manager output already has its RandR output, the
    call marks it disconnected and not a desktop output once more,
    returns [TRUE], and every property of every RandR output that had a
    value has the same value: a command that a client has written to
    CREATE_XR_OUTPUT or DELETE_XR_OUTPUT stays. *)
Theorem post_screen_init_keeps_existing_values E d output ro :
  ms_xr_manager_output d = Some output →
  outputs (ms_world d) !! output ≫= out_randr_output = Some ro →
  let r := drmmode_xr_virtual_output_post_screen_init E d in
  r.1 = true
  ∧ (∀ ro' prop v,
       RRQueryOutputProperty (ms_world d) ro' prop = Some v →
       RRQueryOutputProperty (ms_world r.2) ro' prop = Some v)
  ∧ rr_non_desktop r.2 !! ro = Some true
  ∧ emits (ms_world d) (ms_world r.2) [Ev_RROutputSetConnection ro RR_Disconnected].
Proof.
  intros Hm Hro.
  unfold drmmode_xr_virtual_output_post_screen_init. rewrite Hm. cbv zeta.
  rewrite Hro.
  cbn [fst snd ms_world set_ms_world RROutputSetNonDesktop rr_non_desktop].
  split; [done |]. split.
  { intros ro' prop v Hv. by do 2 apply register_command_property_keeps. }
  split; [by rewrite lookup_insert_eq |].
  eapply emits_silent_r; [| apply silent_register_command_property].
  eapply emits_silent_r; [apply emits_emit | apply silent_register_command_property].
Qed.

Lemma post_screen_init_keeps_existing_values_witness :
  let r := drmmode_xr_virtual_output_post_screen_init E_manager d_manager in
  r.1 = true
  ∧ (∀ ro' prop v,
       RRQueryOutputProperty (ms_world d_manager) ro' prop = Some v →
       RRQueryOutputProperty (ms_world r.2) ro' prop = Some v)
  ∧ rr_non_desktop r.2 !! 11 = Some true
  ∧ emits (ms_world d_manager) (ms_world r.2)
      [Ev_RROutputSetConnection 11 RR_Disconnected].
Proof.
  apply (post_screen_init_keeps_existing_values E_manager d_manager 10 11);
    vm_compute; reflexivity.
Defined.

(** [drmmode_xr_virtual_output_post_screen_init] reports success without
    its properties.  When for each of the two command properties the atom
    cannot be made or [RRConfigureOutputProperty] fails, the call still
    returns [TRUE], with a RandR output for XR-Manager on which neither
    CREATE_XR_OUTPUT nor DELETE_XR_OUTPUT exists. *)
Theorem post_screen_init_succeeds_without_properties E d output orec ro :
  ms_xr_manager_output d = Some output →
  outputs (ms_world d) !! output = Some orec →
  out_randr_output orec = None →
  x_RROutputCreate E = Some ro →
  (∀ prop, x_MakeAtom E prop = false ∨ x_RRConfigureOutputProperty E prop ≠ 0) →
  let r := drmmode_xr_virtual_output_post_screen_init E d in
  r.1 = true
  ∧ outputs (ms_world r.2) !! output ≫= out_randr_output = Some ro
  ∧ RRQueryOutputProperty (ms_world r.2) ro CREATE_XR_OUTPUT_PROPERTY = None
  ∧ RRQueryOutputProperty (ms_world r.2) ro DELETE_XR_OUTPUT_PROPERTY = None.
Proof.
  intros Hm Ho Hnone Hro Hno.
  unfold drmmode_xr_virtual_output_post_screen_init. rewrite Hm. cbv zeta.
  rewrite Ho. cbn [mbind option_bind]. rewrite Hnone, Hro.
  cbn [fst snd ms_world set_ms_world RROutputSetNonDesktop rr_non_desktop].
  set (w1 := emit (Ev_RROutputSetConnection ro RR_Disconnected) _).
  assert (outputs w1 !! output = Some (out_set_randr_output (Some ro) orec)) as O1.
  { subst w1. simpl. by rewrite lookup_alter_eq, Ho. }
  assert (∀ prop, RRQueryOutputProperty w1 ro prop = None) as Q1.
  { intros prop. subst w1. unfold RRQueryOutputProperty. simpl.
    by rewrite lookup_insert_eq. }
  clearbody w1.
  rewrite (register_command_property_refused E w1 ro CREATE_XR_OUTPUT_PROPERTY)
    by done.
  rewrite (register_command_property_refused E w1 ro DELETE_XR_OUTPUT_PROPERTY)
    by done.
  split; [done |]. split; [by rewrite O1 |]. by split.
Qed.

Lemma post_screen_init_succeeds_without_properties_witness :
  let r := drmmode_xr_virtual_output_post_screen_init E_no_atom
             (drmmode_xr_virtual_output_init E_manager (driver_of w_init)).2 in
  r.1 = true
  ∧ outputs (ms_world r.2) !! 10 ≫= out_randr_output = Some 2
  ∧ RRQueryOutputProperty (ms_world r.2) 2 CREATE_XR_OUTPUT_PROPERTY = None
  ∧ RRQueryOutputProperty (ms_world r.2) 2 DELETE_XR_OUTPUT_PROPERTY = None.
Proof.
  apply (post_screen_init_succeeds_without_properties E_no_atom
           (drmmode_xr_virtual_output_init E_manager (driver_of w_init)).2
           10 manager_configured 2); try reflexivity.
  intros prop. by left.
Defined.

(** ** Shutting down *)

Ltac calls_explicit :=
  repeat (apply Forall_cons; split; [first [by left | by right] |]); apply Forall_nil_2.

Lemma fini_record_calls w vout :
  ∃ evs, emits w (fini_record w vout) evs ∧ Forall is_output_or_record_call evs.
Proof.
  unfold fini_record, drmmode_xr_free_modes.
  set (w1 := match vout_randr_output vout with
             | Some ro => RROutputDestroy w ro
             | None => w
             end).
  assert (∃ evs, emits w w1 evs ∧ Forall is_output_or_record_call evs)
    as (evs1 & T1 & F1).
  { subst w1. destruct (vout_randr_output vout) as [ro|].
    - exists [Ev_RROutputDestroy ro]. split; [unfold RROutputDestroy; emits_explicit |].
      calls_explicit.
    - exists []. split; [apply emits_refl | constructor]. }
  clearbody w1.
  set (w2 := match vout_output vout with Some o => _ | None => w1 end).
  assert (∃ evs, emits w1 w2 evs ∧ Forall is_output_or_record_call evs)
    as (evs2 & T2 & F2).
  { subst w2. destruct (vout_output vout) as [o|].
    2:{ exists []. split; [apply emits_refl | constructor]. }
    set (w1' := match outputs w1 !! o ≫= out_driver_private with
                | Some _ => emit (Ev_free_output_private o) w1
                | None => w1
                end).
    assert (∃ evs, emits w1 w1' evs ∧ Forall is_output_or_record_call evs)
      as (evs & T & F).
    { subst w1'. destruct (outputs w1 !! o ≫= out_driver_private).
      - exists [Ev_free_output_private o]. split; [apply emits_emit |].
        calls_explicit.
      - exists []. split; [apply emits_refl | constructor]. }
    clearbody w1'.
    destruct (xf86OutputDestroy_spec w1' o) as ((evs' & T' & S') & _).
    exists (evs ++ Ev_xf86OutputDestroy o :: evs'). split; [by eapply emits_trans |].
    apply Forall_app. split; [done |]. constructor; [by left |].
    eapply Forall_impl; [exact S' |]. intros e He. by right. }
  clearbody w2.
  exists (evs1 ++ evs2
          ++ match vout_name vout with Some _ => [Ev_free_name] | None => [] end
          ++ [Ev_free_modes; Ev_free_vout]).
  split.
  - unfold emits in *. destruct (vout_name vout); simpl; rewrite T2, T1;
      rewrite <- !app_assoc; reflexivity.
  - apply Forall_app. split; [done |]. apply Forall_app. split; [done |].
    destruct (vout_name vout); calls_explicit.
Qed.

Lemma fini_manager_calls w output :
  ∃ evs, emits w (fini_manager w output) evs ∧ Forall is_output_or_record_call evs.
Proof.
  unfold fini_manager.
  set (w1 := match outputs w !! output ≫= out_randr_output with
             | Some ro => RROutputDestroy w ro
             | None => w
             end).
  assert (∃ evs, emits w w1 evs ∧ Forall is_output_or_record_call evs)
    as (evs1 & T1 & F1).
  { subst w1. destruct (outputs w !! output ≫= out_randr_output) as [ro|].
    - exists [Ev_RROutputDestroy ro]. split; [unfold RROutputDestroy; emits_explicit |].
      calls_explicit.
    - exists []. split; [apply emits_refl | constructor]. }
  clearbody w1.
  set (w2 := match outputs w1 !! output ≫= out_driver_private with
             | Some _ => _
             | None => w1
             end).
  assert (∃ evs, emits w1 w2 evs ∧ Forall is_output_or_record_call evs)
    as (evs2 & T2 & F2).
  { subst w2. destruct (outputs w1 !! output ≫= out_driver_private).
    - exists [Ev_free_output_private output]. split; [emits_explicit |].
      calls_explicit.
    - exists []. split; [apply emits_refl | constructor]. }
  clearbody w2.
  destruct (xf86OutputDestroy_spec w2 output) as ((evs' & T' & S') & _).
  exists (evs1 ++ evs2 ++ Ev_xf86OutputDestroy output :: evs'). split.
  - eapply emits_trans; [exact T1 |]. by eapply emits_trans.
  - apply Forall_app. split; [done |]. apply Forall_app. split; [done |].
    constructor; [by left |].
    eapply Forall_impl; [exact S' |]. intros e He. by right.
Qed.

Lemma fini_loop_calls l w :
  ∃ evs, emits w (fold_left fini_record l w) evs ∧ Forall is_output_or_record_call evs.
Proof.
  revert w. induction l as [| v l IH]; intros w; simpl.
  - exists []. split; [apply emits_refl | constructor].
  - destruct (fini_record_calls w v) as (evs1 & T1 & F1).
    destruct (IH (fini_record w v)) as (evs2 & T2 & F2).
    exists (evs1 ++ evs2). split; [by eapply emits_trans | by apply Forall_app].
Qed.

(** The shutdown never gives a framebuffer or a CRTC back.  Every call of
    [drmmode_xr_virtual_output_fini] destroys an output or a RandR
    output or frees memory of the driver; for the virtual outputs that
    still exist it destroys no pixmap, removes no DRM framebuffer,
    destroys no buffer object, no CRTC and no RandR CRTC.  Afterwards
    the list is empty, there is no manager output and the feature is
    off. *)
Theorem fini_never_releases_framebuffers d :
  let d' := drmmode_xr_virtual_output_fini d in
  (xr_virtual_outputs (ms_world d'), ms_xr_manager_output d', ms_xr_virtual_enabled d')
  = ([], None, false)
  ∧ ∃ evs, emits (ms_world d) (ms_world d') evs
           ∧ Forall is_output_or_record_call evs
           ∧ Forall (λ e, is_framebuffer_event e = false
                          ∧ teardown_step_of e ≠ Some Step_crtc) evs.
Proof.
  unfold drmmode_xr_virtual_output_fini. cbv zeta.
  destruct (fini_loop_calls (xr_virtual_outputs (ms_world d)) (ms_world d))
    as (evs1 & T1 & F1).
  set (w1 := fold_left fini_record _ _) in *. clearbody w1.
  assert (∀ evs, Forall is_output_or_record_call evs →
            Forall (λ e, is_framebuffer_event e = false
                         ∧ teardown_step_of e ≠ Some Step_crtc) evs) as Himpl.
  { intros evs H. eapply Forall_impl; [exact H |].
    intros e [He | He]; destruct e; try done; destruct c; done. }
  destruct (ms_xr_manager_output d) as [output|] eqn:Hm.
  - destruct (fini_manager_calls (set_xr_virtual_outputs [] w1) output)
      as (evs2 & T2 & F2).
    assert (xr_virtual_outputs (fini_manager (set_xr_virtual_outputs [] w1) output) = [])
      as Hl.
    { unfold fini_manager.
      match goal with |- xr_virtual_outputs (xf86OutputDestroy ?w2 _) = _ =>
        assert (xr_virtual_outputs w2 = []) as H2 by (by repeat case_match);
        pose proof (shrinks_xf86OutputDestroy w2 output) as Sh;
        unfold shrinks in Sh; rewrite H2 in Sh
      end.
      by apply sublist_nil_r in Sh. }
    cbn [ms_world set_ms_world set_ms_xr_manager_output set_ms_xr_virtual_enabled
         ms_xr_manager_output ms_xr_virtual_enabled].
    rewrite Hl. split; [done |].
    exists (evs1 ++ evs2). split; [| split; [by apply Forall_app |]].
    + eapply emits_trans; [exact T1 |]. exact T2.
    + apply Himpl. by apply Forall_app.
  - simpl. rewrite Hm. split; [done |]. exists evs1.
    split; [| split; [done | by apply Himpl]].
    unfold emits in *. simpl. exact T1.
Qed.

Lemma emits_fold_fini_record l w evs :
  emits w (fold_left fini_record l w) evs →
  ∀ w0 pre, emits w0 w pre → emits w0 (fold_left fini_record l w) (pre ++ evs).
Proof. intros T w0 pre T0. by eapply emits_trans. Qed.

(** The shutdown frees the private data of a virtual output twice.  For
    the first record of the list, with its RandR output [ro], its output
    [o] whose private data is set, and its name, the loop of
    [drmmode_xr_virtual_output_fini] calls [free] on the private data
    and then [xf86OutputDestroy], whose [destroy] hook unlinks and frees
    the record and calls [free] on [output->driver_private], which the
    loop has not cleared, again.  The calls of the shutdown begin with:
    destroy [ro], free the private data, destroy [o], free the modes,
    the name and the record, free the private data. *)
Theorem fini_frees_private_data_twice d v rest ro o :
  xr_virtual_outputs (ms_world d) = v :: rest →
  vout_randr_output v = Some ro → vout_output v = Some o →
  is_Some (vout_name v) →
  is_Some (outputs (ms_world d) !! o ≫= out_driver_private) →
  ∃ evs,
    emits (ms_world d) (ms_world (drmmode_xr_virtual_output_fini d))
      ([Ev_RROutputDestroy ro; Ev_free_output_private o; Ev_xf86OutputDestroy o;
        Ev_free_modes; Ev_free_name; Ev_free_vout; Ev_free_output_private o] ++ evs).
Proof.
  intros Hl Hro Ho [name Hname] [p Hp].
  assert (∃ w1, emits (ms_world d) w1
                  [Ev_RROutputDestroy ro; Ev_free_output_private o;
                   Ev_xf86OutputDestroy o; Ev_free_modes; Ev_free_name; Ev_free_vout;
                   Ev_free_output_private o]
                ∧ ∃ evs, emits w1 (fini_record (ms_world d) v) evs)
    as (w1 & T1 & evs1 & T1').
  { unfold fini_record. rewrite Hro, Ho, Hname.
    set (w0 := RROutputDestroy (ms_world d) ro).
    assert (emits (ms_world d) w0 [Ev_RROutputDestroy ro]) as T0
      by (subst w0; unfold RROutputDestroy; emits_explicit).
    assert (xr_virtual_outputs w0 = v :: rest) as L0 by (by subst w0).
    assert (outputs w0 = outputs (ms_world d)) as O0 by (by subst w0).
    clearbody w0. rewrite O0, Hp.
    unfold xf86OutputDestroy, drmmode_xr_virtual_output_destroy, find_by_output,
      drmmode_xr_free_modes.
    cbn [xr_virtual_outputs emit]. rewrite L0.
    cbn [list_find]. rewrite decide_True by done.
    cbn [fmap option_fmap option_map prod_map fst snd id].
    rewrite Hname.
    cbn [outputs set_xr_virtual_outputs emit]. rewrite O0.
    destruct (outputs (ms_world d) !! o) as [orec|] eqn:Horec; [| done].
    cbn [mbind option_bind] in Hp. rewrite Hp.
    match goal with
    | |- context [<[o:=out_set_private None orec]> (outputs ?w)] => exists w
    end.
    split.
    - eapply (emits_trans _ _ _ [_] [_; _; _; _; _; _]); [exact T0 | emits_explicit].
    - exists [Ev_free_name; Ev_free_modes; Ev_free_vout]. emits_explicit. }
  unfold drmmode_xr_virtual_output_fini. cbv zeta. rewrite Hl. cbn [fold_left].
  destruct (fini_loop_calls rest (fini_record (ms_world d) v)) as (evs2 & T2 & _).
  set (w2 := fold_left fini_record rest _) in *. clearbody w2.
  assert (∃ evs, emits w2 (ms_world
                   (set_ms_xr_virtual_enabled false
                      match ms_xr_manager_output d with
                      | Some output =>
                          set_ms_xr_manager_output None
                            (set_ms_world
                               (fini_manager (set_xr_virtual_outputs [] w2) output) d)
                      | None => set_ms_world (set_xr_virtual_outputs [] w2) d
                      end)) evs) as (evs3 & T3).
  { destruct (ms_xr_manager_output d) as [output|].
    - destruct (fini_manager_calls (set_xr_virtual_outputs [] w2) output)
        as (evs & T & _).
      exists evs. exact T.
    - exists []. unfold emits. simpl. by rewrite app_nil_r. }
  exists (evs1 ++ evs2 ++ evs3).
  eapply emits_trans; [exact T1 |].
  eapply emits_trans; [exact T1' |].
  eapply emits_trans; [exact T2 | exact T3].
Qed.

Lemma fini_frees_private_data_twice_witness :
  ∃ evs,
    emits (ms_world d_xr0) (ms_world (drmmode_xr_virtual_output_fini d_xr0))
      ([Ev_RROutputDestroy 2; Ev_free_output_private 1; Ev_xf86OutputDestroy 1;
        Ev_free_modes; Ev_free_name; Ev_free_vout; Ev_free_output_private 1] ++ evs).
Proof.
  eapply (fini_frees_private_data_twice d_xr0 _ _ 2 1).
  - vm_compute. reflexivity.
  - reflexivity.
  - reflexivity.
  - by eexists.
  - vm_compute. by eexists.
Defined.

(** Set-up followed by shutdown holds nothing.  When
    [drmmode_xr_virtual_output_init] and
    [drmmode_xr_virtual_output_post_screen_init] succeed and no virtual
    output is created, [drmmode_xr_virtual_output_fini] gives back what
    they took: the calls are the creation of the manager output [o], the
    allocation of its private data, the creation of its RandR output
    [ro] and its marking as disconnected, then the destruction of [ro],
    one [free] of the private data and the destruction of [o]; there is
    no manager output left and [o] is gone from the outputs. *)
Theorem set_up_then_shutdown_releases_everything E E' w o ro :
  x_xf86OutputCreate E = Some o → x_calloc_output_private E = true →
  x_RROutputCreate E' = Some ro →
  let i := drmmode_xr_virtual_output_init E (driver_of w) in
  let p := drmmode_xr_virtual_output_post_screen_init E' i.2 in
  let f := drmmode_xr_virtual_output_fini p.2 in
  i.1 = true ∧ p.1 = true
  ∧ (ms_xr_manager_output f, ms_xr_virtual_enabled f, xr_virtual_outputs (ms_world f))
    = (None, false, [])
  ∧ outputs (ms_world f) !! o = None
  ∧ ∃ evs,
      evs = [Ev_xf86OutputCreate o; Ev_calloc_output_private o;
             Ev_RROutputCreate ro; Ev_RROutputSetConnection ro RR_Disconnected;
             Ev_RROutputDestroy ro; Ev_free_output_private o; Ev_xf86OutputDestroy o]
      ∧ emits w (ms_world f) evs ∧ all_released evs.
Proof.
  intros Ho Hp Hro i p f.
  assert (i = (true,
               set_ms_world
                 (set_xr_virtual_outputs []
                    (set_outputs (<[o := manager_configured]>
                                    (<[o := output_created]> (outputs w)))
                       (emit (Ev_calloc_output_private o)
                          (emit (Ev_xf86OutputCreate o) w))))
                 (set_ms_xr_manager_output (Some o)
                    (set_init_funcs_initialized true (driver_of w))))) as Hi.
  { subst i. unfold drmmode_xr_virtual_output_init. simpl. by rewrite Ho, Hp. }
  subst p f. rewrite Hi. clear Hi i. cbn [fst snd].
  unfold drmmode_xr_virtual_output_post_screen_init.
  cbn [ms_xr_manager_output set_ms_world set_ms_xr_manager_output ms_world].
  cbv zeta. cbn [outputs set_xr_virtual_outputs set_outputs].
  rewrite lookup_insert_eq. cbn [mbind option_bind out_randr_output manager_configured].
  rewrite Hro.
  cbn [fst snd ms_world set_ms_world RROutputSetNonDesktop].
  set (w1 := emit (Ev_RROutputSetConnection ro RR_Disconnected) _).
  assert (emits w w1 [Ev_xf86OutputCreate o; Ev_calloc_output_private o;
                      Ev_RROutputCreate ro; Ev_RROutputSetConnection ro RR_Disconnected])
    as T1 by (subst w1; emits_explicit).
  assert (outputs w1 !! o = Some (out_set_randr_output (Some ro) manager_configured))
    as O1.
  { subst w1. simpl. by rewrite lookup_alter_eq, lookup_insert_eq. }
  assert (xr_virtual_outputs w1 = []) as L1 by (by subst w1).
  clearbody w1.
  set (w2 := register_command_property E' (register_command_property E' w1 ro _) ro _).
  assert (silent w1 w2) as [K2 T2].
  { subst w2. eapply silent_trans; apply silent_register_command_property. }
  assert (outputs w2 = outputs w1) as O2.
  { subst w2. by rewrite !outputs_register_command_property. }
  clearbody w2.
  assert (xr_virtual_outputs w2 = []) as L2 by (destruct K2 as (-> & _); exact L1).
  rewrite <- O2 in O1.
  split; [done |]. split; [done |].
  unfold drmmode_xr_virtual_output_fini.
  cbn [ms_world set_ms_world ms_xr_manager_output set_ms_xr_manager_output
       set_ms_xr_virtual_enabled ms_xr_virtual_enabled RROutputSetNonDesktop
       set_init_funcs_initialized].
  rewrite L2. cbn [fold_left].
  unfold fini_manager. cbn [outputs set_xr_virtual_outputs]. rewrite O1.
  cbn [mbind option_bind out_randr_output out_set_randr_output manager_configured].
  set (w3 := RROutputDestroy (set_xr_virtual_outputs [] w2) ro).
  assert (emits w2 w3 [Ev_RROutputDestroy ro]) as T3
    by (subst w3; unfold RROutputDestroy; emits_explicit).
  assert (outputs w3 = outputs w2) as O3 by (by subst w3).
  assert (xr_virtual_outputs w3 = []) as L3 by (by subst w3).
  clearbody w3. rewrite O3, O1.
  cbn [mbind option_bind out_driver_private out_set_randr_output manager_configured].
  set (w4 := set_outputs _ (emit (Ev_free_output_private o) w3)).
  assert (emits w3 w4 [Ev_free_output_private o]) as T4 by (subst w4; emits_explicit).
  assert (outputs w4 !! o
          = Some (out_set_private None
                    (out_set_randr_output (Some ro) manager_configured))) as O4.
  { subst w4. cbn [outputs set_outputs]. by rewrite lookup_alter_eq, ?O3, O1. }
  assert (xr_virtual_outputs w4 = []) as L4 by (by subst w4).
  clearbody w4.
  unfold xf86OutputDestroy, drmmode_xr_virtual_output_destroy, find_by_output.
  cbn [xr_virtual_outputs emit outputs]. rewrite L4. cbn [list_find].
  cbn [emit outputs]. rewrite O4.
  cbn [out_driver_private out_set_private outputs set_outputs emit
       xr_virtual_outputs].
  split; [by rewrite L4 |]. split; [by rewrite lookup_delete_eq |].
  eexists. split; [reflexivity |]. split.
  - unfold emits in *. cbn [trace set_outputs emit].
    rewrite T4, T3, T2, T1, app_nil_r. rewrite <- !app_assoc. reflexivity.
  - simpl. repeat split;
      repeat first [by apply Exists_cons_hd | apply Exists_cons_tl].
Qed.

Lemma set_up_then_shutdown_releases_everything_witness :
  let f := drmmode_xr_virtual_output_fini d_manager in
  (ms_xr_manager_output f, ms_xr_virtual_enabled f, xr_virtual_outputs (ms_world f))
  = (None, false, [])
  ∧ outputs (ms_world f) !! 10 = None
  ∧ ∃ evs,
      evs = [Ev_xf86OutputCreate 10; Ev_calloc_output_private 10;
             Ev_RROutputCreate 11; Ev_RROutputSetConnection 11 RR_Disconnected;
             Ev_RROutputDestroy 11; Ev_free_output_private 10; Ev_xf86OutputDestroy 10]
      ∧ emits w_init (ms_world f) evs ∧ all_released evs.
Proof.
  exact (proj2 (proj2 (set_up_then_shutdown_releases_everything E_manager E_manager
                         w_init 10 11 eq_refl eq_refl eq_refl))).
Defined.

(** ** A creation followed by a deletion *)

Lemma outputs_RRConfigureOutputProperty E w ro prop :
  outputs (RRConfigureOutputProperty E w ro prop).2 = outputs w.
Proof. unfold RRConfigureOutputProperty. by repeat case_match. Qed.

Lemma outputs_RRChangeOutputProperty E w ro prop v :
  outputs (RRChangeOutputProperty E w ro prop v).2 = outputs w.
Proof. unfold RRChangeOutputProperty. by repeat case_match. Qed.

Lemma outputs_create_property E w ro prop v :
  outputs (create_property E w ro prop v) = outputs w.
Proof.
  unfold create_property. case_match; [| done].
  by rewrite outputs_RRChangeOutputProperty, outputs_RRConfigureOutputProperty.
Qed.

Lemma outputs_mark_virtual E w ro : outputs (mark_virtual E w ro) = outputs w.
Proof.
  unfold mark_virtual. case_match; [| done]. case_match; [done |].
  pose proof (outputs_RRConfigureOutputProperty E w ro XR_VIRTUAL_OUTPUT_PROPERTY) as H1.
  destruct (RRConfigureOutputProperty E w ro XR_VIRTUAL_OUTPUT_PROPERTY) as [err w1].
  simpl in H1. case_match; [| done]. by rewrite outputs_RRChangeOutputProperty.
Qed.

Lemma crtcs_mark_virtual E w ro : crtcs (mark_virtual E w ro) = crtcs w.
Proof.
  unfold mark_virtual, RRConfigureOutputProperty, RRChangeOutputProperty.
  case_match; [| done]. case_match; [done |].
  destruct (x_RRConfigureOutputProperty E XR_VIRTUAL_OUTPUT_PROPERTY =? 0) eqn:Hc;
    cbv zeta; rewrite ?Hc; [| done].
  by destruct (x_RRChangeOutputProperty E XR_VIRTUAL_OUTPUT_PROPERTY =? 0).
Qed.

Lemma outputs_set_modes E w output width height refresh :
  outputs (drmmode_xr_virtual_set_modes E w output width height refresh) = outputs w.
Proof. unfold drmmode_xr_virtual_set_modes. by repeat case_match. Qed.

Lemma outputs_ensure_fb_id_property E w ro fb :
  outputs (drmmode_xr_virtual_ensure_fb_id_property E w ro fb).2 = outputs w.
Proof.
  unfold drmmode_xr_virtual_ensure_fb_id_property, RRConfigureOutputProperty,
    RRChangeOutputProperty.
  by repeat case_match.
Qed.

Lemma outputs_destroy_offscreen_framebuffer E w v :
  outputs (drmmode_xr_destroy_offscreen_framebuffer E w v).1 = outputs w.
Proof.
  unfold drmmode_xr_destroy_offscreen_framebuffer, drmmode_bo_destroy.
  destruct (vout_pixmap v) as [p|] eqn:Hp; destruct (pScreen w) eqn:Hs;
    destruct (vout_framebuffer_id v =? 0) eqn:Hfb;
    destruct (bo_dumb (vout_framebuffer_bo v)) eqn:Hd;
    destruct (bo_gbm (vout_framebuffer_bo v)) eqn:Hg;
    simpl; rewrite ?Hfb; simpl; rewrite ?Hd, ?Hg; simpl; reflexivity.
Qed.

Lemma outputs_create_offscreen_framebuffer E w v width height :
  outputs (drmmode_xr_create_offscreen_framebuffer E w v width height).1.2 = outputs w.
Proof.
  unfold drmmode_xr_create_offscreen_framebuffer, fb_bo_created, fb_dumb_pixmap,
    fb_unwind, fb_pixmap_created, drmmode_bo_destroy.
  destruct (x_drmmode_bo_import E) as [ret fb].
  repeat case_match; simpl; rewrite ?outputs_ensure_fb_id_property; reflexivity.
Qed.

(** The RandR CRTC the creation attaches, [None] without a screen. *)
Lemma attach_randr_crtc_spec E w output ro crtc width height c0 :
  crtcs w !! crtc = Some c0 → crtc_randr_crtc c0 = None →
  let w' := attach_randr_crtc E w output ro crtc width height in
  let rc := if pScreen w && pScreen_root w then x_RRCrtcCreate E else None in
  outputs w' !! output ≫= out_driver_private = outputs w !! output ≫= out_driver_private
  ∧ crtcs w' !! crtc ≫= crtc_randr_crtc = rc
  ∧ ∃ evs, emits w w' evs
           ∧ Forall (λ e, fb_acquires e = None
                          ∧ ∀ r, acquires e = Some r → Some r = Res_randr_crtc <$> rc) evs.
Proof.
  intros Hc Hrc. unfold attach_randr_crtc.
  destruct (pScreen w && pScreen_root w); cbv zeta.
  2:{ split; [done |]. split; [by rewrite Hc |].
      exists []. split; [apply emits_refl | constructor]. }
  destruct (x_RRCrtcCreate E) as [rc|].
  2:{ split; [done |]. split; [by rewrite Hc |].
      exists []. split; [apply emits_refl | constructor]. }
  set (w1 := set_outputs _ _).
  assert (outputs (mark_virtual E w1 ro) !! output ≫= out_driver_private
          = outputs w !! output ≫= out_driver_private) as O.
  { rewrite outputs_mark_virtual. subst w1. cbn [outputs set_outputs emit set_crtcs].
    rewrite lookup_alter_eq. by destruct (outputs w !! output). }
  assert (crtcs (mark_virtual E w1 ro) !! crtc ≫= crtc_randr_crtc = Some rc) as C.
  { rewrite crtcs_mark_virtual. subst w1. cbn [crtcs set_outputs emit set_crtcs].
    rewrite lookup_alter_eq, Hc. reflexivity. }
  assert (emits w (mark_virtual E w1 ro) [Ev_RRCrtcCreate rc; Ev_RROutputSetCrtcs ro rc])
    as T.
  { eapply emits_silent_r; [| apply silent_mark_virtual]. subst w1. emits_explicit. }
  set (w2 := mark_virtual E w1 ro) in *. clearbody w2. clear w1.
  destruct (preferred_mode _ width height) as [m|].
  - split; [exact O |]. split; [exact C |].
    exists [Ev_RRCrtcCreate rc; Ev_RROutputSetCrtcs ro rc; Ev_RRCrtcNotify rc m].
    split; [exact (emits_emit_r _ _ _ _ T) |].
    repeat (apply Forall_cons; split; [split; [done | by intros r [= <-]] |]).
    apply Forall_nil_2.
  - split; [exact O |]. split; [exact C |].
    exists [Ev_RRCrtcCreate rc; Ev_RROutputSetCrtcs ro rc]. split; [exact T |].
    repeat (apply Forall_cons; split; [split; [done | by intros r [= <-]] |]).
    apply Forall_nil_2.
Qed.

Lemma rr_modes_create_property E w ro prop v :
  rr_modes (create_property E w ro prop v) = rr_modes w.
Proof.
  unfold create_property, RRConfigureOutputProperty, RRChangeOutputProperty.
  by repeat case_match.
Qed.

Lemma rr_modes_mark_virtual E w ro : rr_modes (mark_virtual E w ro) = rr_modes w.
Proof.
  unfold mark_virtual, RRConfigureOutputProperty, RRChangeOutputProperty.
  case_match; [| done]. case_match; [done |].
  destruct (x_RRConfigureOutputProperty E XR_VIRTUAL_OUTPUT_PROPERTY =? 0) eqn:Hc;
    cbv zeta; rewrite ?Hc; [| done].
  by destruct (x_RRChangeOutputProperty E XR_VIRTUAL_OUTPUT_PROPERTY =? 0).
Qed.

(** For an output that no record of the list has and whose mode list is
    empty, the list after [drmmode_xr_virtual_set_modes] is the list of
    the common modes, also when that list is empty. *)
Lemma set_modes_of_new_output E w output ro width height refresh :
  outputs w !! output ≫= out_randr_output = Some ro →
  find_by_output w output = None → rr_modes w !! ro = Some [] →
  default [] (rr_modes (drmmode_xr_virtual_set_modes E w output width height refresh) !! ro)
  = common_rrmodes E refresh.
Proof.
  intros Hro Hfind Hm. unfold drmmode_xr_virtual_set_modes. rewrite Hro, Hfind.
  destruct (0 <? length (common_rrmodes E refresh))%nat eqn:Hlen.
  - cbn [rr_modes set_rr_modes]. by rewrite lookup_insert_eq.
  - rewrite Hm. apply Nat.ltb_ge in Hlen.
    destruct (common_rrmodes E refresh); [done | simpl in Hlen; lia].
Qed.

Lemma attach_randr_crtc_events E w output ro crtc width height :
  emits w (attach_randr_crtc E w output ro crtc width height)
    (attach_calls (if pScreen w && pScreen_root w then x_RRCrtcCreate E else None) ro
       (default [] (rr_modes w !! ro)) width height).
Proof.
  unfold attach_randr_crtc, attach_calls.
  destruct (pScreen w && pScreen_root w); [| apply emits_refl].
  destruct (x_RRCrtcCreate E) as [rc|]; [| apply emits_refl]. cbv zeta.
  set (w1 := set_outputs _ _).
  assert (rr_modes (mark_virtual E w1 ro) = rr_modes w) as M
    by (by rewrite rr_modes_mark_virtual).
  assert (emits w (mark_virtual E w1 ro) [Ev_RRCrtcCreate rc; Ev_RROutputSetCrtcs ro rc])
    as T.
  { eapply emits_silent_r; [| apply silent_mark_virtual]. subst w1. emits_explicit. }
  set (w2 := mark_virtual E w1 ro) in *. clearbody w2. clear w1. rewrite M.
  destruct (preferred_mode _ width height) as [m|].
  - exact (emits_emit_r _ _ _ _ T).
  - by rewrite app_nil_r.
Qed.

Lemma balanced_covered {R} (acq rel : event → option R) evs tail :
  Forall (λ e, ∀ r, acq e = Some r → Exists (λ e', rel e' = Some r) tail) evs →
  balanced acq rel tail → balanced acq rel (evs ++ tail).
Proof.
  intros H Ht. induction H as [| e evs He _ IH]; simpl; [done |].
  split; [| exact IH]. destruct (acq e) as [r|]; [| done].
  apply Exists_app. right. by apply He.
Qed.

Lemma all_released_balanced evs : all_released evs ↔ balanced acquires releases evs.
Proof. induction evs as [| e evs IH]; simpl; [done |]. by rewrite IH. Qed.

(** The state in which a creation that gets that far asks for the
    framebuffer: the output has its private data, the CRTC has the RandR
    CRTC of the screen, and the calls so far have acquired the output, its
    private data, the RandR output, the CRTC, the RandR CRTC and the
    record, and nothing of the framebuffer. *)
Lemma create_success_state E w name width height refresh output crtc ro :
  drmmode_xr_find_virtual_output w name = None →
  x_xf86OutputCreate E = Some output → x_calloc_output_private E = true →
  x_RROutputCreate E = Some ro →
  x_xf86CrtcCreate E = Some crtc → x_calloc_crtc_private E = true →
  x_calloc_vout E = true →
  let rc := if pScreen w && pScreen_root w then x_RRCrtcCreate E else None in
  ∃ w0 evs0,
    keeps w w0
    ∧ output_drmmode w0 (Some output) = Some ms_drmmode
    ∧ crtcs w0 !! crtc ≫= crtc_randr_crtc = rc
    ∧ emits w w0 evs0
    ∧ Forall (λ e, fb_acquires e = None
                   ∧ ∀ r, acquires e = Some r →
                          r ∈ [Res_output output; Res_output_private output;
                               Res_randr_output ro; Res_crtc crtc; Res_record]
                          ∨ Some r = Res_randr_crtc <$> rc) evs0
    ∧ (fresh_output E w →
       evs0 = [Ev_xf86OutputCreate output; Ev_calloc_output_private output;
               Ev_RROutputCreate ro; Ev_RROutputSetConnection ro RR_Connected;
               Ev_RROutputChanged ro; Ev_RRTellChanged; Ev_xf86CrtcCreate crtc]
              ++ attach_calls rc ro (common_rrmodes E refresh) width height
              ++ [Ev_calloc_vout])
    ∧ let a := drmmode_xr_create_offscreen_framebuffer E w0
                 (record_before_framebuffer E name width height refresh output crtc ro)
                 width height in
      drmmode_xr_create_virtual_output E w name width height refresh
      = (Some a.2, set_xr_virtual_outputs (a.2 :: xr_virtual_outputs a.1.2) a.1.2).
Proof.
  intros Hfind Ho Hp Hro Hc Hcp Hv rc.
  unfold drmmode_xr_create_virtual_output, drmmode_xr_create_virtual_crtc.
  rewrite Hfind, Ho, Hp, Hro, Hc, Hcp, Hv. cbv beta iota zeta delta [negb].
  match goal with |- context [emit (Ev_xf86CrtcCreate crtc) ?w1] =>
    assert (keeps w w1) as K1 by keeps_peel;
    assert (emits w w1 [Ev_xf86OutputCreate output; Ev_calloc_output_private output;
                        Ev_RROutputCreate ro; Ev_RROutputSetConnection ro RR_Connected;
                        Ev_RROutputChanged ro; Ev_RRTellChanged]) as T1
      by emits_by_peel;
    assert (outputs w1 !! output ≫= out_driver_private
            = out_driver_private output_configured) as O1
      by (cbn [outputs emit]; rewrite !outputs_create_property, outputs_set_modes;
          cbn [outputs emit set_outputs set_rr_modes set_rr_props];
          by rewrite lookup_alter_eq, lookup_insert_eq);
    assert (find_by_output w output = None →
            default [] (rr_modes w1 !! ro) = common_rrmodes E refresh) as M1
      by (intros Hf; cbn [rr_modes emit]; rewrite !rr_modes_create_property;
          apply set_modes_of_new_output;
          [ cbn [outputs emit set_outputs set_rr_modes set_rr_props];
            by rewrite lookup_alter_eq, lookup_insert_eq
          | exact Hf
          | cbn [rr_modes emit set_outputs set_rr_modes set_rr_props];
            by rewrite lookup_insert_eq ]);
    set (W1 := w1) in *; clearbody W1
  end.
  set (W2 := set_crtcs _ (emit (Ev_xf86CrtcCreate crtc) W1)).
  assert (keeps w W2) as K2 by (subst W2; keeps_peel).
  assert (emits W1 W2 [Ev_xf86CrtcCreate crtc]) as T2 by (subst W2; emits_explicit).
  assert (outputs W2 = outputs W1) as O2 by done.
  assert (rr_modes W2 = rr_modes W1) as M2 by done.
  assert (crtcs W2 !! crtc = Some crtc_initial) as C2
    by (subst W2; cbn [crtcs set_crtcs]; by rewrite lookup_insert_eq).
  assert (pScreen W2 = pScreen w ∧ pScreen_root W2 = pScreen_root w) as [S2 R2]
    by (destruct K2 as (_ & ? & ? & _); done).
  clearbody W2.
  destruct (attach_randr_crtc_spec E W2 output ro crtc width height crtc_initial C2 eq_refl)
    as (O3 & C3 & evs3 & T3 & F3).
  pose proof (attach_randr_crtc_events E W2 output ro crtc width height) as T3'.
  pose proof (emits_inj _ _ _ _ T3 T3') as ->. clear T3'.
  rewrite S2, R2 in C3, F3, T3. rewrite M2 in F3, T3. fold rc in C3, F3, T3.
  assert (keeps w (attach_randr_crtc E W2 output ro crtc width height)) as K3
    by (eapply keeps_trans; [exact K2 | apply attach_randr_crtc_keeps]).
  set (W3 := attach_randr_crtc E W2 output ro crtc width height) in *. clearbody W3.
  match goal with
  | |- context [drmmode_xr_create_offscreen_framebuffer E ?w0 ?v0 _ _] =>
      exists w0,
        ([Ev_xf86OutputCreate output; Ev_calloc_output_private output;
          Ev_RROutputCreate ro; Ev_RROutputSetConnection ro RR_Connected;
          Ev_RROutputChanged ro; Ev_RRTellChanged]
         ++ [Ev_xf86CrtcCreate crtc]
         ++ attach_calls rc ro (default [] (rr_modes W1 !! ro)) width height
         ++ [Ev_calloc_vout]);
      change v0 with (record_before_framebuffer E name width height refresh
                        output crtc ro);
      assert (keeps w w0) as K0 by keeps_peel;
      assert (emits W3 w0 [Ev_calloc_vout]) as T0 by emits_explicit;
      assert (crtcs w0 = crtcs W3) as C0 by done;
      assert ((outputs w0 !! output ≫= out_driver_private) ≫= dop_drmmode
              = (outputs W3 !! output ≫= out_driver_private) ≫= dop_drmmode) as O0;
      [| set (W0 := w0) in *; clearbody W0]
  end.
  { cbn [outputs emit set_outputs]. rewrite lookup_alter_eq.
    destruct (outputs W3 !! output) as [orec|]; [| done]. simpl.
    by destruct (out_driver_private orec). }
  split; [exact K0 |]. split.
  { unfold output_drmmode.
    rewrite O3, O2, O1 in O0.
    destruct (outputs W0 !! output) as [orec|]; [| done]. simpl in O0.
    by destruct (out_driver_private orec). }
  split; [by rewrite C0 |].
  split.
  { eapply emits_trans; [exact T1 |]. eapply emits_trans; [exact T2 |].
    eapply emits_trans; [exact T3 | exact T0]. }
  split.
  { apply Forall_app. split.
    { repeat (apply Forall_cons; split;
                [split; [done | intros r [= <-]; left; set_solver] |]).
      apply Forall_nil_2. }
    apply Forall_cons. split; [split; [done | intros r [= <-]; left; set_solver] |].
    apply Forall_app. split.
    - eapply Forall_impl; [exact F3 |]. intros e [H1 H2]. split; [done |].
      intros r Hr. right. by apply H2.
    - apply Forall_cons. split; [| apply Forall_nil_2].
      split; [done | intros r [= <-]; left; set_solver]. }
  split.
  { intros Hfresh. by rewrite (M1 (Hfresh output Ho)). }
  cbv zeta.
  by destruct (drmmode_xr_create_offscreen_framebuffer E W0
                 (record_before_framebuffer E name width height refresh
                    output crtc ro) width height) as [[ok w'] v'].
Qed.

Lemma xf86OutputDestroy_events w output orec p :
  find_by_output w output = None →
  outputs w !! output = Some orec → out_driver_private orec = Some p →
  emits w (xf86OutputDestroy w output)
    [Ev_xf86OutputDestroy output; Ev_free_output_private output].
Proof.
  intros Hfind Ho Hp. unfold xf86OutputDestroy, drmmode_xr_virtual_output_destroy.
  cbv zeta.
  replace (find_by_output (emit (Ev_xf86OutputDestroy output) w) output) with
    (@None (nat * xr_virtual_output_rec)) by (symmetry; exact Hfind).
  cbn [outputs emit]. rewrite Ho, Hp. emits_explicit.
Qed.

(** The calls of the deletion of a record that has its output, CRTC and
    RandR output, after those of the framebuffer. *)
Lemma delete_complete_events E w name i v output crtc ro d :
  list_find (λ v, vout_name v = Some name) (xr_virtual_outputs w) = Some (i, v) →
  vout_output v = Some output → vout_crtc v = Some crtc →
  vout_randr_output v = Some ro →
  output_drmmode w (Some output) = Some d →
  list_find (λ v, vout_output v = Some output) (delete i (xr_virtual_outputs w)) = None →
  let w1 := set_xr_virtual_outputs (delete i (xr_virtual_outputs w)) w in
  ∀ evs_fb,
    emits w1 (drmmode_xr_destroy_offscreen_framebuffer E w1 v).1 evs_fb →
    emits w (drmmode_xr_delete_virtual_output E w name).2
      (evs_fb
       ++ match crtcs w !! crtc ≫= crtc_randr_crtc with
          | Some rc => [Ev_RRCrtcDestroy rc]
          | None => []
          end
       ++ [Ev_xf86CrtcDestroy crtc; Ev_RROutputSetConnection ro RR_Disconnected;
           Ev_RROutputChanged ro; Ev_RRTellChanged; Ev_RROutputDestroy ro;
           Ev_xf86OutputDestroy output; Ev_free_output_private output;
           Ev_free_name; Ev_free_modes; Ev_free_vout]).
Proof.
  intros Hfind Hout Hcrtc Hro Hd Hother w1 evs_fb Tfb.
  unfold drmmode_xr_delete_virtual_output. rewrite Hfind. fold w1. cbv zeta.
  assert (output_drmmode w1 (vout_output v) = Some d) as Hd1 by (by rewrite Hout).
  rewrite Hd1.
  assert (vout_name v = Some name) as Hname.
  { apply list_find_Some in Hfind. tauto. }
  destruct (destroy_offscreen_framebuffer_spec E w1 v) as ((Ka & _) & Hid & _).
  pose proof (outputs_destroy_offscreen_framebuffer E w1 v) as Oa.
  pose proof (crtcs_destroy_offscreen_framebuffer E w1 v) as Ca.
  set (a := drmmode_xr_destroy_offscreen_framebuffer E w1 v) in *.
  assert (vout_output a.2 = Some output ∧ vout_crtc a.2 = Some crtc
          ∧ vout_randr_output a.2 = Some ro ∧ vout_name a.2 = Some name)
    as (Hout' & Hcrtc' & Hro' & Hname').
  { unfold identity in Hid. injection Hid as -> -> -> -> _ _ _ _. done. }
  assert (xr_virtual_outputs a.1 = delete i (xr_virtual_outputs w)) as La
    by (destruct Ka as (-> & _); done).
  assert (emits w a.1 evs_fb) as Ta.
  { unfold emits in *. rewrite Tfb. done. }
  change (outputs w1) with (outputs w) in Oa. change (crtcs w1) with (crtcs w) in Ca.
  assert (∃ orec p, outputs w !! output = Some orec ∧ out_driver_private orec = Some p)
    as (orec & p & Ho & Hp).
  { unfold output_drmmode in Hd. destruct (outputs w !! output) as [orec|]; [| done].
    destruct (out_driver_private orec) as [p|] eqn:Hp; [| done]. by exists orec, p. }
  clearbody a. clear Tfb Hd1 Ka Hid. clearbody w1.
  (* Clean up CRTC *)
  set (W3 := delete_crtc a.1 a.2).
  assert (emits a.1 W3
            (match crtcs w !! crtc ≫= crtc_randr_crtc with
             | Some rc => [Ev_RRCrtcDestroy rc]
             | None => []
             end ++ [Ev_xf86CrtcDestroy crtc])
          ∧ outputs W3 !! output = Some (out_set_crtc None orec)
          ∧ xr_virtual_outputs W3 = delete i (xr_virtual_outputs w)) as (T3 & O3 & L3).
  { subst W3. unfold delete_crtc, xf86CrtcDestroy. rewrite Hcrtc', Hout', Ca.
    destruct (crtcs w !! crtc ≫= crtc_randr_crtc) as [rc|]; cbv zeta;
      cbn [outputs set_outputs set_crtcs emit xr_virtual_outputs];
      rewrite lookup_alter_eq, Oa, Ho; (split; [emits_explicit | done]). }
  clearbody W3.
  (* Destroy RandR output *)
  set (W4 := delete_randr_output W3 a.2).
  assert (emits W3 W4 [Ev_RROutputSetConnection ro RR_Disconnected;
                       Ev_RROutputChanged ro; Ev_RRTellChanged; Ev_RROutputDestroy ro]
          ∧ outputs W4 !! output
            = Some (out_set_randr_output None (out_set_crtc None orec))
          ∧ xr_virtual_outputs W4 = delete i (xr_virtual_outputs w)) as (T4 & O4 & L4).
  { subst W4. unfold delete_randr_output, RROutputDestroy. rewrite Hro', Hout'.
    cbv zeta. cbn [outputs set_outputs set_rr_modes set_rr_props emit xr_virtual_outputs].
    rewrite lookup_alter_eq, O3. split; [emits_explicit | done]. }
  clearbody W4.
  (* Destroy xf86Output *)
  set (W5 := delete_output W4 a.2).
  assert (emits W4 W5 [Ev_xf86OutputDestroy output; Ev_free_output_private output]) as T5.
  { subst W5. unfold delete_output. rewrite Hout'.
    eapply (xf86OutputDestroy_events W4 output _ p); [| exact O4 | exact Hp].
    unfold find_by_output. by rewrite L4. }
  clearbody W5.
  (* Free name, modes, and record *)
  assert (emits W5 (delete_record W5 a.2) [Ev_free_name; Ev_free_modes; Ev_free_vout])
    as T6.
  { unfold delete_record, drmmode_xr_free_modes. rewrite Hname'. emits_explicit. }
  cbn [snd].
  unfold emits in *. rewrite T6, T5, T4, T3, Ta. rewrite <- !app_assoc. reflexivity.
Qed.

Lemma framebuffer_event_no_acquire evs :
  Forall (λ e, is_framebuffer_event e = true) evs → Forall (λ e, acquires e = None) evs.
Proof. intros H. eapply Forall_impl; [exact H |]. by intros []. Qed.

(** A virtual output that is created and then deleted gives back what
    the trace records: the deletion succeeds, the list is the one before
    the creation, and every resource of these kinds that the two calls
    acquire (output, private data of the output, RandR output, CRTC,
    RandR CRTC, record; buffer object, framebuffer, pixmap) is released
    by a later call of theirs.  The private data of the CRTC is not among
    them. *)
Theorem create_then_delete_releases_everything E E' w name width height refresh v w' :
  fresh_output E w → x_strdup E = true →
  pScreen w = true → (x_drmmode_bo_import E).2 ≠ 0 →
  drmmode_xr_create_virtual_output E w name width height refresh = (Some v, w') →
  let r := drmmode_xr_delete_virtual_output E' w' name in
  r.1 = true
  ∧ xr_virtual_outputs r.2 = xr_virtual_outputs w
  ∧ ∃ evs, emits w r.2 evs ∧ all_released evs ∧ balanced fb_acquires fb_releases evs.
Proof.
  intros Hfresh Hdup Hs Hfb Hcreate r.
  assert (drmmode_xr_find_virtual_output w name = None) as Hfind.
  { destruct (drmmode_xr_find_virtual_output w name) eqn:H; [| done].
    rewrite create_duplicate in Hcreate; [discriminate | by eexists]. }
  pose proof (create_outcome E w name width height refresh Hfind) as Hout.
  destruct (first_failure E) eqn:Hff.
  { cbv zeta in Hout. rewrite Hcreate in Hout. by destruct Hout as [[=] _]. }
  clear Hout. unfold first_failure in Hff.
  destruct (x_xf86OutputCreate E) as [output|] eqn:Ho; [| done].
  destruct (x_calloc_output_private E) eqn:Hp; [| done].
  destruct (x_RROutputCreate E) as [ro|] eqn:Hro; [| done].
  destruct (x_xf86CrtcCreate E) as [crtc|] eqn:Hc; [| done].
  destruct (x_calloc_crtc_private E) eqn:Hcp; [| done].
  destruct (x_calloc_vout E) eqn:Hv; [| done]. clear Hff.
  destruct (create_success_state E w name width height refresh output crtc ro
              Hfind Ho Hp Hro Hc Hcp Hv) as (w0 & evs0 & K0 & Hd0 & C0 & T0 & F0 & _ & Heq).
  cbv zeta in Heq. rewrite Hcreate in Heq.
  set (rec := record_before_framebuffer E name width height refresh output crtc ro) in *.
  destruct (create_offscreen_framebuffer_spec E w0 rec width height)
    as ((Ka & evs_c & Tc & Fc) & Hid & _).
  pose proof (outputs_create_offscreen_framebuffer E w0 rec width height) as Oa.
  pose proof (crtcs_create_offscreen_framebuffer E w0 rec width height) as Ca.
  pose proof (create_offscreen_framebuffer_events E w0 rec width height) as Ev.
  cbv zeta in Ev.
  set (a := drmmode_xr_create_offscreen_framebuffer E w0 rec width height) in *.
  injection Heq as -> ->.
  assert (vout_output a.2 = Some output ∧ vout_crtc a.2 = Some crtc
          ∧ vout_randr_output a.2 = Some ro ∧ vout_name a.2 = Some name)
    as (Hout' & Hcrtc' & Hro' & Hname').
  { unfold identity in Hid. injection Hid as -> -> -> -> _ _ _ _.
    subst rec. simpl. by rewrite Hdup. }
  set (w' := set_xr_virtual_outputs (a.2 :: xr_virtual_outputs a.1.2) a.1.2) in *.
  assert (xr_virtual_outputs a.1.2 = xr_virtual_outputs w) as La.
  { destruct Ka as (-> & _). by destruct K0 as (-> & _). }
  assert (list_find (λ v, vout_name v = Some name) (xr_virtual_outputs w')
          = Some (0%nat, a.2)) as Hfind'.
  { apply list_find_Some. split; [done |]. split; [exact Hname' |]. intros; lia. }
  assert (delete 0%nat (xr_virtual_outputs w') = xr_virtual_outputs w) as Hdel
    by exact La.
  assert (list_find (λ v, vout_output v = Some output)
            (delete 0%nat (xr_virtual_outputs w')) = None) as Hother.
  { rewrite Hdel. by apply Hfresh. }
  assert (output_drmmode w' (Some output) = Some ms_drmmode) as Hd'.
  { unfold output_drmmode in *. change (outputs w') with (outputs a.1.2). by rewrite Oa. }
  assert (pScreen w' = true) as Hs'.
  { change (pScreen w') with (pScreen a.1.2). destruct Ka as (_ & -> & _).
    destruct K0 as (_ & -> & _). exact Hs. }
  assert (crtcs w' !! crtc ≫= crtc_randr_crtc
          = if pScreen w && pScreen_root w then x_RRCrtcCreate E else None) as Hrc.
  { change (crtcs w') with (crtcs a.1.2). by rewrite Ca. }
  assert (emits w0 w' evs_c) as Tc' by exact Tc.
  destruct (delete_found E' w' name 0 a.2 Hfind') as (Hr & _).
  pose proof (delete_found_list E' w' name 0 a.2 Hfind') as Hlist.
  pose proof (delete_complete_events E' w' name 0 a.2 output crtc ro ms_drmmode
                Hfind' Hout' Hcrtc' Hro' Hd' Hother) as Hev.
  cbv zeta in Hev. rewrite Hrc in Hev.
  set (w1 := set_xr_virtual_outputs (delete 0%nat (xr_virtual_outputs w')) w') in *.
  assert (pScreen w1 = true) as Hs1 by exact Hs'.
  assert (∃ evs_d, emits w1 (drmmode_xr_destroy_offscreen_framebuffer E' w1 a.2).1 evs_d
                   ∧ Forall (λ e, is_framebuffer_teardown e = true) evs_d
                   ∧ balanced fb_acquires fb_releases (evs_c ++ evs_d))
    as (evs_d & Td & Fd & B).
  { destruct Ev as [(_ & evs & T & B & _) | (_ & evs & p & T & B & Hpix & Hfbid & Hsome)];
      rewrite (emits_inj _ _ _ _ T Tc) in *.
    - destruct (destroy_offscreen_framebuffer_spec E' w1 a.2) as ((_ & evs_d & Td & Fd) & _).
      exists evs_d. split; [exact Td |]. split; [exact Fd |].
      apply balanced_app; [exact B |].
      by apply balanced_no_acquire, teardown_no_fb_acquire.
    - assert (vout_framebuffer_id a.2 ≠ 0) as Hne by (by rewrite Hfbid).
      pose proof (destroy_offscreen_framebuffer_events E' w1 a.2 p Hs1 Hpix Hne Hsome)
        as T'.
      rewrite Hfbid in T'. eexists. split; [exact T' |]. split; [| exact B].
      by repeat constructor. }
  specialize (Hev evs_d Td). fold r in Hr, Hlist, Hev.
  split; [exact Hr |]. split.
  { rewrite Hlist; [exact Hdel |]. intros o Ho'. rewrite Hout' in Ho'.
    injection Ho' as <-. exact Hother. }
  set (rcl := match (if pScreen w && pScreen_root w then x_RRCrtcCreate E else None) with
              | Some rc => [Ev_RRCrtcDestroy rc]
              | None => []
              end) in *.
  set (rest := [Ev_xf86CrtcDestroy crtc; Ev_RROutputSetConnection ro RR_Disconnected;
                Ev_RROutputChanged ro; Ev_RRTellChanged; Ev_RROutputDestroy ro;
                Ev_xf86OutputDestroy output; Ev_free_output_private output;
                Ev_free_name; Ev_free_modes; Ev_free_vout]) in *.
  assert (Forall (λ e, acquires e = None) (rcl ++ rest)
          ∧ Forall (λ e, fb_acquires e = None) (rcl ++ rest)) as [Nr Nf].
  { subst rcl rest. destruct (if pScreen w && pScreen_root w then _ else _);
      split; by repeat constructor. }
  exists (evs0 ++ (evs_c ++ evs_d) ++ rcl ++ rest). split; [| split].
  - eapply emits_trans; [exact T0 |]. rewrite <- app_assoc.
    eapply emits_trans; [exact Tc' | exact Hev].
  - apply all_released_balanced. apply balanced_covered.
    + eapply Forall_impl; [exact F0 |]. intros e [_ He] res Hres.
      apply Exists_app. right. apply Exists_app.
      destruct (He res Hres) as [Hin | Hrc'].
      * right. subst rest.
        repeat (apply elem_of_cons in Hin as [-> | Hin];
                [repeat first [by apply Exists_cons_hd | apply Exists_cons_tl] |]).
        by apply elem_of_nil in Hin.
      * left. subst rcl.
        destruct (if pScreen w && pScreen_root w then _ else _) as [x|]; [| done].
        injection Hrc' as ->. by apply Exists_cons_hd.
    + apply balanced_no_acquire. apply Forall_app. split; [| exact Nr].
      apply Forall_app. split; [by apply framebuffer_event_no_acquire |].
      eapply Forall_impl; [exact Fd |]. by intros [].
  - apply balanced_covered.
    + eapply Forall_impl; [exact F0 |]. intros e [He _] res Hres. congruence.
    + apply balanced_app; [exact B |]. by apply balanced_no_acquire.
Qed.

Lemma create_then_delete_releases_everything_witness :
  let r := drmmode_xr_delete_virtual_output E_ok w_xr0 "XR-0" in
  r.1 = true
  ∧ xr_virtual_outputs r.2 = xr_virtual_outputs w_init
  ∧ ∃ evs, emits w_init r.2 evs ∧ all_released evs
           ∧ balanced fb_acquires fb_releases evs.
Proof.
  apply (create_then_delete_releases_everything E_ok E_ok w_init "XR-0" 1920 1080 60
           xr0_record w_xr0).
  - intros o _. reflexivity.
  - reflexivity.
  - reflexivity.
  - discriminate.
  - vm_compute. reflexivity.
Defined.






(** ** Resources released exactly once *)


Lemma release_count_cons r e evs :
  release_count r (e :: evs)
  = ((if decide (releases e = Some r) then 1 else 0) + release_count r evs)%nat.
Proof. unfold release_count. rewrite filter_cons. by case_decide. Qed.

Lemma release_count_none r evs :
  Forall (λ e, releases e ≠ Some r) evs → release_count r evs = 0%nat.
Proof.
  induction 1 as [| e evs He _ IH]; [done |].
  rewrite release_count_cons, IH. by rewrite decide_False.
Qed.

Lemma released_once_no_acquire keep evs :
  Forall (λ e, acquires e = None) evs → released_once keep evs.
Proof. induction 1 as [| e evs He _ IH]; simpl; [done |]. by rewrite He. Qed.


#[local] Arguments release_count : simpl never.




(** ** C1: the rollback of a failed creation *)



(** ** The calls that destroy a framebuffer *)

Lemma destroy_offscreen_framebuffer_calls E w v :
  emits w (drmmode_xr_destroy_offscreen_framebuffer E w v).1
    (framebuffer_teardown_calls (pScreen w) v).
Proof.
  unfold drmmode_xr_destroy_offscreen_framebuffer, drmmode_bo_destroy,
    framebuffer_teardown_calls.
  destruct (vout_pixmap v) as [p|] eqn:Hp; destruct (pScreen w) eqn:Hs;
    destruct (vout_framebuffer_id v =? 0) eqn:Hfb;
    destruct (bo_dumb (vout_framebuffer_bo v)) eqn:Hd;
    destruct (bo_gbm (vout_framebuffer_bo v)) eqn:Hg;
    simpl; rewrite ?Hfb; simpl; rewrite ?Hd, ?Hg; simpl; emits_explicit.
Qed.

Lemma framebuffer_teardown_calls_teardown screen v :
  Forall (λ e, is_framebuffer_teardown e = true) (framebuffer_teardown_calls screen v).
Proof.
  unfold framebuffer_teardown_calls.
  destruct (vout_pixmap v), screen, (vout_framebuffer_id v =? 0),
    (bo_dumb (vout_framebuffer_bo v)), (bo_gbm (vout_framebuffer_bo v));
    by repeat constructor.
Qed.

(** ** C8: the calls of a deletion *)

(** C8, as the code has it.  A deletion of a registered name succeeds, and
    its calls come in this order: destroy the pixmap, the framebuffer and
    the buffer object; destroy the RandR CRTC and the CRTC; mark the output
    disconnected and tell the listeners; destroy the RandR output and the
    xf86 output; free the private data, the name, the modes and the record.
    Every call of the deletion belongs to one of these steps.  For a record
    with its output, CRTC and RandR output, whose output has its private
    data and is the output of no other record, every step takes place: the
    record leaves the list and the calls are exactly those that destroy
    the framebuffer the record holds, followed by the destruction of the
    RandR CRTC (if the CRTC has one) and of the CRTC, the disconnection
    and its two announcements, the destruction of the RandR output and of
    the output, and the four calls of [free]. *)
Theorem delete_teardown_order E w name :
  is_Some (drmmode_xr_find_virtual_output w name) →
  let r := drmmode_xr_delete_virtual_output E w name in
  r.1 = true
  ∧ ∃ evs, emits w r.2 evs
           ∧ in_order code_rank evs
           ∧ Forall (λ e, is_Some (teardown_step_of e)) evs
           ∧ ∀ i v output crtc ro d,
               drmmode_xr_find_virtual_output w name = Some (i, v) →
               vout_output v = Some output → vout_crtc v = Some crtc →
               vout_randr_output v = Some ro →
               output_drmmode w (Some output) = Some d →
               list_find (λ v', vout_output v' = Some output)
                 (delete i (xr_virtual_outputs w)) = None →
               xr_virtual_outputs r.2 = delete i (xr_virtual_outputs w)
               ∧ evs = framebuffer_teardown_calls (pScreen w) v
                       ++ object_teardown_calls output crtc ro
                            (crtcs w !! crtc ≫= crtc_randr_crtc).
Proof.
  intros [[i vout] Hfind] r.
  destruct (delete_found E w name i vout Hfind) as (Hr & _ & evs & T & Hord & Hall).
  split; [exact Hr |]. exists evs. split; [exact T |]. split; [exact Hord |].
  split; [eapply Forall_impl; [exact Hall |]; intros e (s & -> & _); by eexists |].
  intros i' v output crtc ro d Hfind' Hout Hcrtc Hro Hd Hother.
  rewrite Hfind in Hfind'. injection Hfind' as <- <-. split.
  - apply (delete_found_list E w name i vout Hfind).
    intros o Ho. rewrite Hout in Ho. by injection Ho as <-.
  - pose proof (delete_complete_events E w name i vout output crtc ro d
                  Hfind Hout Hcrtc Hro Hd Hother) as Hev.
    cbv zeta in Hev.
    specialize (Hev _ (destroy_offscreen_framebuffer_calls E _ vout)).
    exact (emits_inj _ _ _ _ T Hev).
Qed.

(** The theorem at the deletion of "XR-0": the fourteen calls, in the
    order of the code. *)
Lemma delete_teardown_order_witness :
  is_Some (drmmode_xr_find_virtual_output w_xr0 "XR-0")
  ∧ (drmmode_xr_delete_virtual_output E_ok w_xr0 "XR-0").1 = true
  ∧ xr_virtual_outputs (drmmode_xr_delete_virtual_output E_ok w_xr0 "XR-0").2 = []
  ∧ emits w_xr0 (drmmode_xr_delete_virtual_output E_ok w_xr0 "XR-0").2
      teardown_calls_xr0
  ∧ in_order code_rank teardown_calls_xr0.
Proof.
  assert (is_Some (drmmode_xr_find_virtual_output w_xr0 "XR-0")) as H
    by (vm_compute; eauto).
  split; [exact H |].
  destruct (delete_teardown_order E_ok w_xr0 "XR-0" H)
    as (Hr & evs & T & Hord & _ & Hcalls).
  destruct (Hcalls 0%nat xr0_record 1 3 2 ms_drmmode) as [Hl Hevs];
    try (vm_compute; reflexivity).
  assert (evs = teardown_calls_xr0) as -> by (rewrite Hevs; vm_compute; reflexivity).
  split; [exact Hr |]. split; [exact Hl |]. split; [exact T | exact Hord].
Defined.

(** ** C9: the mode-set *)

(** An allocation for which the environment has a buffer object begins
    with the call that creates it. *)
Lemma create_offscreen_framebuffer_first_call E w v width height evs :
  buffer_object_created E w →
  emits w (drmmode_xr_create_offscreen_framebuffer E w v width height).1.2 evs →
  ∃ b rest, evs = Ev_gbm_bo_create b :: rest ∨ evs = Ev_dumb_bo_create b :: rest.
Proof.
  intros Hbo. unfold drmmode_xr_create_offscreen_framebuffer. cbv zeta.
  assert (∀ e v1, emits w (fb_bo_created E (emit e w) v1 width height).1.2 evs →
                  ∃ rest, evs = e :: rest) as Hfirst.
  { intros e v1 T.
    destruct (fb_bo_created_spec E (emit e w) v1 width height) as ((_ & evs' & T' & _) & _).
    exists evs'. apply (emits_inj _ _ _ _ T).
    exact (emits_trans _ _ _ [e] evs' (emits_emit e w) T'). }
  destruct (GLAMOR_HAS_GBM E && drmmode_glamor_gbm w) eqn:HG.
  - destruct (x_gbm_bo_create E) as [g|] eqn:Hg.
    + intros T. destruct (Hfirst _ _ T) as [rest ->]. exists g, rest. by left.
    + destruct (x_dumb_bo_create E) as [d|] eqn:Hd.
      * intros T. destruct (Hfirst _ _ T) as [rest ->]. exists d, rest. by right.
      * exfalso. unfold buffer_object_created in Hbo. rewrite ?Hg, ?Hd in Hbo.
        destruct Hbo as [[_ [? [=]]] | [? [=]]].
  - destruct (x_dumb_bo_create E) as [d|] eqn:Hd.
    + intros T. destruct (Hfirst _ _ T) as [rest ->]. exists d, rest. by right.
    + exfalso. unfold buffer_object_created in Hbo. rewrite ?HG, ?Hd in Hbo.
      destruct Hbo as [[[=] _] | [? [=]]].
Qed.

(** C9.  A mode-set with a mode returns [TRUE] and leaves the mode, x, y
    and the rotation in the CRTC.  When the CRTC belongs to a record whose
    width or height differs from the mode's, the framebuffer of the record
    is destroyed and then allocated anew at the size of the mode, in this
    order and with framebuffer calls only: the first calls are those that
    destroy what the record holds (its pixmap, its DRM framebuffer, its
    buffer object), which leave the record with identifier 0, a zeroed
    buffer object and, with a screen, no pixmap; the calls of the
    allocation follow, the first of them the creation of the buffer
    object when the environment has one.  If the allocation succeeds the
    record takes the new size and holds a buffer of that size, the
    imported identifier and a pixmap; if it fails the record keeps the old
    width and height and has no pixmap, and the mode-set has returned
    [TRUE] all the same.  With [mode == NULL] nothing happens and the
    result is [TRUE]. *)
Theorem set_mode_major_stores_and_succeeds E w crtc rotation x y :
  drmmode_xr_virtual_crtc_set_mode_major E w crtc None rotation x y = (true, w)
  ∧ ∀ m,
      let r := drmmode_xr_virtual_crtc_set_mode_major E w crtc (Some m) rotation x y in
      r.1 = true
      ∧ (∀ c, crtcs w !! crtc = Some c →
           ∃ c', crtcs r.2 !! crtc = Some c'
                 ∧ (crtc_mode c', crtc_x c', crtc_y c', crtc_rotation c')
                   = (m, x, y, rotation))
      ∧ ∀ i vout,
          drmmode_xr_find_virtual_output_by_crtc w crtc = Some (i, vout) →
          vout_width vout ≠ HDisplay m ∨ vout_height vout ≠ VDisplay m →
          let d := drmmode_xr_destroy_offscreen_framebuffer E w vout in
          let a := drmmode_xr_create_offscreen_framebuffer E d.1 d.2
                     (HDisplay m) (VDisplay m) in
          (∃ evs_a,
             emits w d.1 (framebuffer_teardown_calls (pScreen w) vout)
             ∧ emits d.1 a.1.2 evs_a ∧ Forall (λ e, is_framebuffer_event e = true) evs_a
             ∧ emits w r.2 (framebuffer_teardown_calls (pScreen w) vout ++ evs_a)
             ∧ (buffer_object_created E w →
                ∃ b rest, evs_a = Ev_gbm_bo_create b :: rest
                          ∨ evs_a = Ev_dumb_bo_create b :: rest))
          ∧ vout_framebuffer_id d.2 = 0 ∧ vout_framebuffer_bo d.2 = bo_zero
          ∧ (pScreen w = true → vout_pixmap d.2 = None)
          ∧ (a.1.1 = true →
             ∃ v', xr_virtual_outputs r.2 !! i = Some v'
                   ∧ (vout_width v', vout_height v') = (HDisplay m, VDisplay m)
                   ∧ has_framebuffer (HDisplay m) (VDisplay m)
                       (x_drmmode_bo_import E).2 v')
          ∧ (a.1.1 = false →
             ∃ v', xr_virtual_outputs r.2 !! i = Some v'
                   ∧ (vout_width v', vout_height v') = (vout_width vout, vout_height vout)
                   ∧ vout_pixmap v' = None).
Proof.
  split; [done |]. intros m r. subst r. rewrite set_mode_major_unfold. cbv zeta.
  set (w1 := match drmmode_xr_find_virtual_output_by_crtc w crtc with
             | Some (i, vout) => _
             | None => w
             end).
  cbn [fst snd]. split; [done |].
  assert (crtcs w1 = crtcs w) as C1.
  { subst w1. destruct (drmmode_xr_find_virtual_output_by_crtc w crtc)
      as [[i vout]|] eqn:Hfind; [| done].
    destruct (negb _ || negb _); [| done].
    apply list_find_Some in Hfind as (Hi & _).
    apply (mode_set_resize_spec E w i vout _ _ Hi). }
  split.
  { intros c Hc. exists (crtc_set_mode m x y rotation c). split; [| done].
    simpl. by rewrite lookup_alter_eq, C1, Hc. }
  intros i vout Hfind Hdiff.
  assert (negb (vout_width vout =? HDisplay m) || negb (vout_height vout =? VDisplay m)
          = true) as Hne.
  { apply orb_true_iff. destruct Hdiff as [H | H]; [left | right];
      apply negb_true_iff, Z.eqb_neq, H. }
  subst w1. rewrite Hfind, Hne.
  apply list_find_Some in Hfind as (Hi & _).
  destruct (mode_set_resize_spec E w i vout (HDisplay m) (VDisplay m) Hi)
    as (_ & (evs_d & evs_a & Td & Fd & Ta & Fa & T) & Hfb0 & Hbo0 & Hs & Hf).
  pose proof (destroy_offscreen_framebuffer_calls E w vout) as Td'.
  pose proof (emits_inj _ _ _ _ Td Td') as ->.
  destruct (destroy_offscreen_framebuffer_spec E w vout) as ((Kd & _) & _ & _ & _ & Hpix).
  split; [| by repeat split].
  exists evs_a. split; [exact Td |]. split; [exact Ta |]. split; [exact Fa |].
  split; [exact T |]. intros Hbo.
  eapply create_offscreen_framebuffer_first_call; [| exact Ta].
  unfold buffer_object_created in *. by destruct Kd as (_ & _ & _ & -> & _).
Qed.

(** The theorem at two mode-sets of the CRTC of "XR-0" to 3840x2160.  With
    every call succeeding, the pixmap 6, the framebuffer 42 and the buffer
    object are destroyed first, and the record ends at 3840x2160 with a
    buffer of that size.  When no buffer object can be allocated, the mode
    is stored, the result is [TRUE], the record keeps 1920x1080 and has
    lost its pixmap. *)
Lemma set_mode_major_stores_and_succeeds_witness :
  (crtcs w_xr0 !! 3 = Some (crtc_set_randr_crtc (Some 4) crtc_initial)
   ∧ drmmode_xr_find_virtual_output_by_crtc w_xr0 3 = Some (0%nat, xr0_record)
   ∧ (vout_width xr0_record ≠ HDisplay mode_4k
      ∨ vout_height xr0_record ≠ VDisplay mode_4k))
  ∧ (let r := drmmode_xr_virtual_crtc_set_mode_major E_ok w_xr0 3 (Some mode_4k)
                RR_Rotate_0 0 0 in
     r.1 = true
     ∧ (∃ evs_a, emits w_xr0 r.2
                   ([Ev_DestroyPixmap 6; Ev_drmModeRmFB 42; Ev_drmmode_bo_destroy]
                    ++ evs_a)
                 ∧ ∃ b rest, evs_a = Ev_gbm_bo_create b :: rest
                             ∨ evs_a = Ev_dumb_bo_create b :: rest)
     ∧ ∃ v', xr_virtual_outputs r.2 !! 0%nat = Some v'
             ∧ (vout_width v', vout_height v') = (3840, 2160)
             ∧ has_framebuffer 3840 2160 42 v')
  ∧ (let r := drmmode_xr_virtual_crtc_set_mode_major E_no_bo w_xr0 3 (Some mode_4k)
                RR_Rotate_0 0 0 in
     r.1 = true
     ∧ (∃ c', crtcs r.2 !! 3 = Some c'
              ∧ (crtc_mode c', crtc_x c', crtc_y c', crtc_rotation c')
                = (mode_4k, 0, 0, RR_Rotate_0))
     ∧ ∃ v', xr_virtual_outputs r.2 !! 0%nat = Some v'
             ∧ (vout_width v', vout_height v') = (1920, 1080)
             ∧ vout_pixmap v' = None).
Proof.
  assert (crtcs w_xr0 !! 3 = Some (crtc_set_randr_crtc (Some 4) crtc_initial)) as Hc
    by (vm_compute; reflexivity).
  assert (drmmode_xr_find_virtual_output_by_crtc w_xr0 3 = Some (0%nat, xr0_record))
    as Hfind by (vm_compute; reflexivity).
  assert (vout_width xr0_record ≠ HDisplay mode_4k
          ∨ vout_height xr0_record ≠ VDisplay mode_4k) as Hdiff
    by (left; vm_compute; discriminate).
  split; [by repeat split |]. split.
  - destruct (set_mode_major_stores_and_succeeds E_ok w_xr0 3 RR_Rotate_0 0 0)
      as [_ H].
    destruct (H mode_4k) as (Hr & _ & Hresize).
    destruct (Hresize 0%nat xr0_record Hfind Hdiff)
      as ((evs_a & _ & _ & _ & T & Hfirst) & _ & _ & _ & Hok & _).
    split; [exact Hr |]. split.
    + exists evs_a. split; [exact T |]. apply Hfirst. right. by eexists.
    + apply Hok. vm_compute. reflexivity.
  - destruct (set_mode_major_stores_and_succeeds E_no_bo w_xr0 3 RR_Rotate_0 0 0)
      as [_ H].
    destruct (H mode_4k) as (Hr & Hstore & Hresize).
    destruct (Hresize 0%nat xr0_record Hfind Hdiff) as (_ & _ & _ & _ & _ & Hfail).
    split; [exact Hr |]. split; [exact (Hstore _ Hc) |].
    apply Hfail. vm_compute. reflexivity.
Defined.

(** ** C5: a resize that changes the refresh rate only *)





(** ** C4: the activity and power controller *)

Import Power.

Lemma step_keeps_last_access m a name p :
  m !! name = Some p → no_read_of name a →
  ∃ p', step m a !! name = Some p' ∧ last_access p' = last_access p.
Proof.
  intros Hm Ha. destruct a as [name' now | now]; simpl in *.
  - exists p. by rewrite lookup_alter_ne.
  - exists (timer_check now p). rewrite lookup_fmap, Hm. split; [done |].
    unfold timer_check. by case_match.
Qed.

Lemma run_keeps_last_access l m name p :
  m !! name = Some p → Forall (no_read_of name) l →
  ∃ p', run m l !! name = Some p' ∧ last_access p' = last_access p.
Proof.
  revert m p. induction l as [| a l IH]; intros m p Hm Hl; [by exists p |].
  apply Forall_cons in Hl as [Ha Hl].
  destruct (step_keeps_last_access m a name p Hm Ha) as (p1 & H1 & L1).
  destruct (IH (step m a) p1 H1 Hl) as (p2 & H2 & L2).
  exists p2. split; [exact H2 | congruence].
Qed.

(** C4.  For an output the controller knows:
    - a read of its framebuffer-identifier attribute sets the timestamp to
      the time of the read and leaves the output Active, whatever it was,
      so a Standby output becomes Active at once;
    - when the timer runs at least 5 time units after the last read, other
      outputs' reads and earlier timer runs having come between, the
      output is Standby afterwards. *)
Theorem read_wakes_and_silence_sleeps (m : gmap string power_rec) name p :
  m !! name = Some p →
  (∀ now, ∃ p', step m (Read name now) !! name = Some p'
                ∧ last_access p' = now ∧ state p' = Active)
  ∧ (∀ t0 l t,
       Forall (no_read_of name) l →
       INACTIVITY_THRESHOLD ≤ t - t0 →
       ∃ p', run m (Read name t0 :: l ++ [Tick t]) !! name = Some p'
             ∧ state p' = Standby ∧ last_access p' = t0).
Proof.
  intros Hm. split.
  - intros now. exists (read_framebuffer_id now p). simpl.
    rewrite lookup_alter_eq, Hm. split; [done |]. split; [done |].
    simpl. by destruct (state p).
  - intros t0 l t Hl Ht. unfold run. simpl. rewrite fold_left_app. simpl.
    assert (alter (read_framebuffer_id t0) name m !! name
            = Some (read_framebuffer_id t0 p)) as H0
      by (by rewrite lookup_alter_eq, Hm).
    destruct (run_keeps_last_access l _ name _ H0 Hl) as (p1 & H1 & L1).
    unfold run in H1. exists (timer_check t p1).
    rewrite lookup_fmap, H1. split; [done |].
    unfold timer_check. rewrite L1. simpl.
    destruct (INACTIVITY_THRESHOLD <=? t - t0) eqn:Hle; [by split |].
    apply Z.leb_gt in Hle. lia.
Qed.

Lemma read_wakes_and_silence_sleeps_witness :
  ({[ "XR-0" := {| last_access := 0; state := Standby |} ]} : gmap string power_rec)
    !! "XR-0" = Some {| last_access := 0; state := Standby |}
  ∧ (∃ p', step {[ "XR-0" := {| last_access := 0; state := Standby |} ]}
             (Read "XR-0" 7) !! "XR-0" = Some p'
           ∧ last_access p' = 7 ∧ state p' = Active)
  ∧ Forall (no_read_of "XR-0") [Tick 8; Read "XR-1" 9; Tick 10]
  ∧ INACTIVITY_THRESHOLD ≤ 12 - 7
  ∧ ∃ p', run {[ "XR-0" := {| last_access := 0; state := Standby |} ]}
            (Read "XR-0" 7 :: [Tick 8; Read "XR-1" 9; Tick 10] ++ [Tick 12])
            !! "XR-0" = Some p'
          ∧ state p' = Standby ∧ last_access p' = 7.
Proof.
  assert (({[ "XR-0" := {| last_access := 0; state := Standby |} ]}
            : gmap string power_rec) !! "XR-0"
          = Some {| last_access := 0; state := Standby |}) as Hm
    by (vm_compute; reflexivity).
  assert (Forall (no_read_of "XR-0") [Tick 8; Read "XR-1" 9; Tick 10]) as Hl
    by (repeat constructor; simpl; discriminate).
  assert (INACTIVITY_THRESHOLD ≤ 12 - 7) as Ht by (vm_compute; discriminate).
  destruct (read_wakes_and_silence_sleeps _ "XR-0" _ Hm) as [Hread Hsleep].
  split; [exact Hm |]. split; [exact (Hread 7) |]. split; [exact Hl |].
  split; [exact Ht |]. exact (Hsleep 7 _ 12 Hl Ht).
Defined.

